(** * ShopSight: the sales pipeline and the query service, embedded in Rocq

    The development follows the Python sources:
    - [utils/data_loader.py]        (module [DataLoader])
    - [scripts/download_data.py]    (module [DownloadData])
    - [services/analytics_service.py] and [routes/products.py]
                                    (modules [AnalyticsService], [Routes])
    - [services/forecast_service.py]      (module [ForecastService])
    - [services/segmentation_service.py]  (module [SegmentationService])
    - [services/search_service.py], with the text search of
      [services/analytics_service.py]     (module [ProductSearch])
    - the tables between [save_processed_data] and [load_data]
                                          (module [Saved])

    Conventions of the embedding.
    - A pandas DataFrame is the list of its rows, top to bottom; where the
      source names the columns of a frame it builds, the frame carries them.
    - [float] values are the rationals [Q]: sums, means and products are the
      exact ones, compared with [==].
    - A calendar day is its day number (days since 1970-01-01), so that
      [timedelta(days=n)] is the integer [n] and ['%Y-%m-%d'] strings are
      compared as the days they name.
    - In the pipeline an [article_id] is the int64 of the H&M files, a [Z]
      (the article "0108775001" is [108775001]). The synthetic generators
      write ids and days as text ([str], [strftime]); the frames of the
      embedding keep the number and the day number, and the module [Saved]
      gives the cells of the tables as they are written, text or int64,
      and as the query service reads them back.
    - An exception that the source catches, or lets end the run, is a
      [None] (or a [Raise]) of the function that raises it. *)

From Stdlib Require Import String.
From Stdlib Require Import List ZArith QArith Qround Bool Lia.
From Stdlib Require Import Permutation Sorted.
From Stdlib Require Import DecimalString Lqa.
From Stdlib Require OrderedTypeEx.
Import ListNotations.
Local Open Scope Z_scope.

(** ** The pandas operations the sources use *)

Module Pandas.

Section GroupBy.
Context {K : Type} (eqb ltb : K -> K -> bool).

(** One step of building the group index: the key enters an ascending
    list of distinct keys at its place, unless it is there already. *)
Fixpoint insert_key (k : K) (ks : list K) : list K :=
  match ks with
  | [] => [k]
  | h :: t =>
      if eqb k h then ks
      else if ltb k h then k :: ks
      else h :: insert_key k t
  end.

(** The group keys of [groupby] (its default [sort=True]). *)
Definition group_index (ks : list K) : list K :=
  fold_right insert_key [] ks.

(** [df.groupby(key)]: the groups in ascending key order, each with its
    rows in frame order. *)
Definition groupby {R : Type} (key : R -> K) (df : list R)
  : list (K * list R) :=
  map (fun k => (k, filter (fun r => eqb (key r) k) df))
      (group_index (map key df)).
End GroupBy.

(** [Series.sum] and [Series.mean] of a float column. *)
Definition Qsum (xs : list Q) : Q := fold_right Qplus 0%Q xs.

Definition Zsum (xs : list Z) : Z := fold_right Z.add 0 xs.

Definition Qmean (xs : list Q) : Q :=
  (Qsum xs / inject_Z (Z.of_nat (length xs)))%Q.

Section NLargest.
Context {R : Type} (value : R -> Q).

(** The row enters a list in descending order of [value] in front of the
    first row that is not strictly larger: a row met earlier in the frame
    stays ahead of later rows of equal value ([keep='first']). *)
Fixpoint insert_desc (r : R) (rs : list R) : list R :=
  match rs with
  | [] => [r]
  | h :: t =>
      if Qle_bool (value h) (value r) then r :: rs
      else h :: insert_desc r t
  end.

Definition sort_desc (df : list R) : list R :=
  fold_right insert_desc [] df.

(** [df.nlargest(n, column)]: the first [n] rows in descending order of
    the column, rows of equal value in frame order ([keep='first']). When
    [n] reaches the length of the frame pandas sorts the whole frame and
    leaves the order of equal values to the sort; the embedding keeps the
    frame order there too. *)
Definition nlargest (n : nat) (df : list R) : list R :=
  firstn n (sort_desc df).
End NLargest.

Section SortValues.
Context {R : Type} (value : R -> Z).

Fixpoint insert_asc (r : R) (rs : list R) : list R :=
  match rs with
  | [] => [r]
  | h :: t =>
      if value r <=? value h then r :: rs
      else h :: insert_asc r t
  end.

(** [df.sort_values(column)], ascending; rows of equal value, whose order
    pandas leaves to the sort, stay in frame order. *)
Definition sort_values (df : list R) : list R :=
  fold_right insert_asc [] df.
End SortValues.

(** [df.head(n)]. *)
Definition head {R : Type} (n : nat) (df : list R) : list R := firstn n df.

(** [x in xs] and [Series.isin] on int64 values. *)
Definition isin (x : Z) (xs : list Z) : bool := existsb (Z.eqb x) xs.

End Pandas.

(** ** The Python built-ins the sources use *)

Module Python.

(** [xs[:n]], and [df.head(n)]: the first [n] items; all but the last [-n]
    when [n] is negative. *)
Definition slice_to {A : Type} (n : Z) (xs : list A) : list A :=
  if 0 <=? n then firstn (Z.to_nat n) xs
  else firstn (length xs - Z.to_nat (- n)) xs.

(** [xs[-n:]] for a positive [n]: the last [n] items, the whole of a
    shorter list. *)
Definition last_n {A : Type} (n : nat) (xs : list A) : list A :=
  skipn (length xs - n) xs.

(** [sum(...)] of floats: the additions from the left, starting at 0. *)
Definition sum (xs : list Q) : Q := fold_left Qplus xs 0%Q.

(** [sub in s]. *)
Fixpoint contains (sub s : string) : bool :=
  String.prefix sub s
  || match s with
     | EmptyString => false
     | String _ s' => contains sub s'
     end.

(** [str(n)] of an int. *)
Definition str_int (z : Z) : string := NilZero.string_of_int (Z.to_int z).

(** A loop that appends one item per iteration and whose body can raise:
    the items in order, [None] when an iteration raises. *)
Fixpoint collect {A : Type} (xs : list (option A)) : option (list A) :=
  match xs with
  | [] => Some []
  | None :: _ => None
  | Some x :: rest =>
      match collect rest with
      | Some l => Some (x :: l)
      | None => None
      end
  end.

End Python.

(** ** Rows of the frames *)

(** A row of the transaction log (columns [article_id], [t_dat], [price]). *)
Record Transaction := mkTransaction {
  t_article_id : Z;
  t_dat : Z;
  price : Q
}.

(** A row of the product index; of the catalog columns only the ones the
    pipeline reads are kept. [None] is a null cell. *)
Record Product := mkProduct {
  article_id : Z;
  prod_name : option string;
  product_type_name : option string
}.

(** A row of the sales aggregate. *)
Record SalesRow := mkSalesRow {
  s_article_id : Z;
  date : Z;
  total_revenue : Q;
  avg_price : Q;
  units_sold : Z
}.

(** A frame whose column names the source sets explicitly. *)
Record SalesFrame := mkSalesFrame {
  columns : list string;
  rows : list SalesRow
}.

(** Keys of the daily aggregate, ordered lexicographically. *)
Definition key : Type := (Z * Z)%type.

Definition key_eqb (a b : key) : bool :=
  (fst a =? fst b) && (snd a =? snd b).

Definition key_ltb (a b : key) : bool :=
  (fst a <? fst b) || ((fst a =? fst b) && (snd a <? snd b)).

Definition txn_key (t : Transaction) : key := (t_article_id t, t_dat t).

Definition row_key (r : SalesRow) : key := (s_article_id r, date r).

(** ** utils/data_loader.py *)

Module DataLoader.

(** [create_product_index]: a projection on catalog columns; the rows are
    kept as they are. *)
Definition create_product_index (articles_df : list Product) : list Product :=
  articles_df.

(** [aggregate_sales_by_product], on a frame that has the [article_id] and
    [t_dat] columns (every transaction frame of the pipeline is read with
    them):
    [groupby(['article_id','t_dat']).agg({'price': ['sum','mean','count']})]
    and the renaming of the columns. *)
Definition aggregate_sales_by_product (transactions_df : list Transaction)
  : SalesFrame :=
  {| columns := ["article_id"; "date"; "total_revenue"; "avg_price";
                 "units_sold"]%string;
     rows :=
       map (fun g : key * list Transaction =>
              let prices := map price (snd g) in
              {| s_article_id := fst (fst g);
                 date := snd (fst g);
                 total_revenue := Pandas.Qsum prices;
                 avg_price := Pandas.Qmean prices;
                 units_sold := Z.of_nat (length prices) |})
           (Pandas.groupby key_eqb key_ltb txn_key transactions_df) |}.

End DataLoader.

(** ** scripts/download_data.py *)

Module DownloadData.

(** *** The synthetic generator *)

(** The draws of [np.random], as the generator consumes them: two per
    product (its position in the sampled frame), three per product and day
    (the day's position in the 121-day window). *)
Record Rng := mkRng {
  randint_5_30 : nat -> Z;
  uniform_20_150 : nat -> Q;
  uniform_trend : nat -> nat -> Q;
  uniform_noise : nat -> nat -> Q;
  uniform_price : nat -> nat -> Q
}.

(** [datetime.weekday()]: Monday is 0; day 0 (1970-01-01) was a Thursday. *)
Definition weekday (d : Z) : Z := (d + 3) mod 7.

(** [int(x)] of a float: truncation toward zero. *)
Definition int_of_float (x : Q) : Z :=
  if Qle_bool 0 x then Qfloor x else Qceiling x.

(** [round(x, 2)]: to the nearest hundredth, halves to the even one. *)
Definition round_half_even (x : Q) : Z :=
  let f := Qfloor x in
  match (x - inject_Z f ?= 1 # 2)%Q with
  | Lt => f
  | Gt => f + 1
  | Eq => if Z.even f then f else f + 1
  end.

Definition round2 (x : Q) : Q :=
  (inject_Z (round_half_even (x * 100)) / 100)%Q.

(** An entry of [sales_records]. *)
Record SampleRecord := mkSampleRecord {
  r_article_id : Z;
  r_t_dat : Z;
  r_price : Q;
  units : Z
}.

Definition record_key (r : SampleRecord) : key := (r_article_id r, r_t_dat r).

(** The records of one product: the [while current_date <= end_date] loop
    visits [start_date + n] for [n = 0 .. 120], and appends a record on the
    days whose [units] is positive. *)
Definition product_records (g : Rng) (start_date : Z) (i : nat) (id : Z)
  : list SampleRecord :=
  let base_sales := randint_5_30 g i in
  let base_price := uniform_20_150 g i in
  flat_map
    (fun n : nat =>
       let current_date := start_date + Z.of_nat n in
       let day_of_week := weekday current_date in
       let weekend_boost :=
         if (day_of_week =? 5) || (day_of_week =? 6) then (13 # 10)%Q
         else 1%Q in
       let days_since_start := Z.of_nat n in
       let trend_factor :=
         (1 + uniform_trend g i n * inject_Z days_since_start)%Q in
       let units :=
         int_of_float (inject_Z base_sales * weekend_boost * trend_factor
                       * uniform_noise g i n)%Q in
       let price := (base_price * uniform_price g i n)%Q in
       if 0 <? units
       then [ {| r_article_id := id; r_t_dat := current_date;
                 r_price := round2 price; units := units |} ]
       else [])
    (seq 0 121).

(** The loop over the rows of the sampled frame. *)
Definition sample_records (g : Rng) (now : Z) (ids : list Z)
  : list SampleRecord :=
  let end_date := now in
  let start_date := end_date - 120 in
  flat_map (fun p : nat * Z => product_records g start_date (fst p) (snd p))
           (combine (seq 0 (length ids)) ids).

(** The aggregation both synthetic generators end with:
    [groupby(['article_id','t_dat']).agg({'price': ['mean', <revenue>],
    'units': 'sum'})] and the renaming of the columns. With no record at
    all the frame has no columns and [groupby] raises: the result is
    [None]. The keys of the source are the texts of the article and of the
    day, and [groupby] sorts them as texts: the rows come in the order of
    the numbers for ids of one length, as those of the H&M catalog are. *)
Definition sample_aggregate (sales_df : list SampleRecord)
  : option SalesFrame :=
  match sales_df with
  | [] => None
  | _ =>
      Some
        {| columns := ["article_id"; "date"; "avg_price"; "total_revenue";
                       "units_sold"]%string;
           rows :=
             map (fun g : key * list SampleRecord =>
                    {| s_article_id := fst (fst g);
                       date := snd (fst g);
                       avg_price := Pandas.Qmean (map r_price (snd g));
                       total_revenue :=
                         Pandas.Qsum
                           (map (fun r => (r_price r * inject_Z (units r))%Q)
                                (snd g));
                       units_sold := Pandas.Zsum (map units (snd g)) |})
                 (Pandas.groupby key_eqb key_ltb record_key sales_df) |}
  end.

(** [generate_sample_sales_for_products]; the frame keeps the number of an
    article, and [Saved.generated] writes it as [str(article_id)]. *)
Definition generate_sample_sales_for_products (g : Rng) (now : Z)
    (products_df : list Product) : option SalesFrame :=
  let sample_products :=
    if (200 <? length products_df)%nat then Pandas.head 200 products_df
    else products_df in
  sample_aggregate (sample_records g now (map article_id sample_products)).

(** The catalog of [create_sample_data]. *)
Definition sample_products_df : list Product :=
  [ mkProduct 108775001 (Some "Running Shoes") (Some "Shoes");
    mkProduct 108775002 (Some "Winter Jacket") (Some "Jacket");
    mkProduct 108775003 (Some "Casual Sneakers") (Some "Shoes");
    mkProduct 108775004 (Some "Sports T-Shirt") (Some "T-shirt");
    mkProduct 108775005 (Some "Yoga Pants") (Some "Pants");
    mkProduct 108775006 (Some "Denim Jeans") (Some "Jeans");
    mkProduct 108775007 (Some "Summer Dress") (Some "Dress");
    mkProduct 108775008 (Some "Hoodie") (Some "Sweater");
    mkProduct 108775009 (Some "Backpack") (Some "Bag");
    mkProduct 108775010 (Some "Baseball Cap") (Some "Hat") ]%string.

(** [create_sample_data]: the same loop and aggregation over its own ten
    products. *)
Definition create_sample_data (g : Rng) (now : Z)
  : option (list Product * SalesFrame) :=
  let products_df := sample_products_df in
  match sample_aggregate (sample_records g now (map article_id products_df))
  with
  | Some sales_agg => Some (products_df, sales_agg)
  | None => None
  end.

(** *** Step 1: revenue per product *)

(** [product_revenue], a [defaultdict(float)]: the keys in insertion order. *)
Definition dict : Type := list (Z * Q).

Fixpoint dict_get (d : dict) (k : Z) : option Q :=
  match d with
  | [] => None
  | (k', v) :: d' => if k =? k' then Some v else dict_get d' k
  end.

(** [d[k] += v]: a missing key starts from [0.0]. *)
Fixpoint dict_add (d : dict) (k : Z) (v : Q) : dict :=
  match d with
  | [] => [(k, (0 + v)%Q)]
  | (k', v') :: d' =>
      if k =? k' then (k', (v' + v)%Q) :: d'
      else (k', v') :: dict_add d' k v
  end.

(** One batch of the first pass: [groupby('article_id')['price'].sum()]
    added into the running totals. *)
Definition add_batch (product_revenue : dict) (batch : list Transaction)
  : dict :=
  fold_left
    (fun d (g : Z * list Transaction) =>
       dict_add d (fst g) (Pandas.Qsum (map price (snd g))))
    (Pandas.groupby Z.eqb Z.ltb t_article_id batch)
    product_revenue.

Definition revenue_pass (batches : list (list Transaction)) : dict :=
  fold_left add_batch batches [].

(** *** Step 2: the inner join with the catalog *)

(** [products_df.merge(revenue_df, on='article_id', how='inner')]: the
    catalog rows that have a revenue, in catalog order. A frame built from
    no record has no [article_id] column and the merge raises. *)
Definition merge_revenue (products_df : list Product) (product_revenue : dict)
  : option (list (Product * Q)) :=
  match product_revenue with
  | [] => None
  | _ =>
      Some (flat_map
              (fun p => match dict_get product_revenue (article_id p) with
                        | Some revenue => [(p, revenue)]
                        | None => []
                        end)
              products_df)
  end.

(** *** Step 3: the selection *)

Definition revenue (r : Product * Q) : Q := snd r.

Definition has_type (r : Product * Q) : bool :=
  match product_type_name (fst r) with Some _ => true | None => false end.

Definition type_of (r : Product * Q) : string :=
  match product_type_name (fst r) with Some s => s | None => EmptyString end.

(** [products_with_revenue.groupby('product_type_name')]: rows with a null
    type belong to no group. *)
Definition by_product_type (products_with_revenue : list (Product * Q))
  : list (string * list (Product * Q)) :=
  Pandas.groupby String.eqb String.ltb type_of
                 (filter has_type products_with_revenue).

Definition ids (df : list (Product * Q)) : list Z :=
  map (fun r => article_id (fst r)) df.

(** [top_in_category] of one group. *)
Definition top_in_category (products_per_category : nat)
    (group : list (Product * Q)) : list (Product * Q) :=
  Pandas.nlargest revenue products_per_category group.

(** The loop over the categories. *)
Definition category_selection (products_per_category : nat)
    (products_with_revenue : list (Product * Q)) : list Z :=
  flat_map (fun g : string * list (Product * Q) =>
              ids (top_in_category products_per_category (snd g)))
           (by_product_type products_with_revenue).

(** The rows the top-up appends. *)
Definition top_up (target_count : nat)
    (products_with_revenue : list (Product * Q)) (selected_products : list Z)
  : list Z :=
  let remaining := (target_count - length selected_products)%nat in
  let all_top :=
    Pandas.nlargest revenue (target_count + 50) products_with_revenue in
  let additional :=
    filter (fun r => negb (Pandas.isin (article_id (fst r)) selected_products))
           all_top in
  ids (Pandas.head remaining additional).

(** [selected_products] after the truncation to [target_count]. *)
Definition select_products (products_per_category target_count : nat)
    (products_with_revenue : list (Product * Q)) : list Z :=
  let selected_products :=
    category_selection products_per_category products_with_revenue in
  let selected_products :=
    if (length selected_products <? target_count)%nat
    then selected_products
           ++ top_up target_count products_with_revenue selected_products
    else selected_products in
  firstn target_count selected_products.

(** The Revenue Ranker: steps 1 to 3. [None] is the exception of the merge. *)
Definition rank (batches : list (list Transaction))
    (products_df : list Product) (target_count products_per_category : nat)
  : option (list Z) :=
  match merge_revenue products_df (revenue_pass batches) with
  | Some products_with_revenue =>
      Some (select_products products_per_category target_count
                            products_with_revenue)
  | None => None
  end.

(** [set(selected_products)]. *)
Definition target_set (selected_products : list Z) : list Z :=
  nodup Z.eq_dec selected_products.

(** *** Step 4: the aggregation pass *)

(** The batches that keep a row after the filter, in order. *)
Definition all_transactions (batches : list (list Transaction))
    (target_set : list Z) : list (list Transaction) :=
  filter (fun df => negb (Nat.eqb (length df) 0))
         (map (filter (fun t => Pandas.isin (t_article_id t) target_set))
              batches).

(** The Sales Aggregator. [pd.concat] of an empty list raises: [None]. *)
Definition aggregate (batches : list (list Transaction)) (target_set : list Z)
  : option SalesFrame :=
  match all_transactions batches target_set with
  | [] => None
  | dfs => Some (DataLoader.aggregate_sales_by_product (concat dfs))
  end.

(** *** The run *)

(** What a run finds outside the program.
    - [articles_file]: [None] when no parquet key is listed under the
      articles prefix, [Some None] when its download fails, else the frame
      read from it.
    - [transaction_files]: one entry per parquet key listed under the
      transactions prefix, [None] when its download fails, else the record
      batches the dataset yields from it.
    - [pyarrow]: whether [import pyarrow.dataset] succeeds. *)
Record Env := mkEnv {
  articles_file : option (option (list Product));
  transaction_files : list (option (list (list Transaction)));
  pyarrow : bool;
  rng : Rng;
  now : Z
}.

(** The two tables written by [save_processed_data]. *)
Record Store := mkStore {
  products : list Product;
  sales : SalesFrame
}.

Definition products_per_category : nat := 10.
Definition target_count : nat := 150.

(** The batches of the dataset over the downloaded files. *)
Definition dataset_batches
    (files : list (option (list (list Transaction))))
  : list (list Transaction) :=
  flat_map (fun f => match f with Some bs => bs | None => [] end) files.

Definition downloaded_count
    (files : list (option (list (list Transaction)))) : nat :=
  length (filter (fun f => match f with Some _ => true | None => false end)
                 files).

(** The branch taken when [pyarrow] is there: steps 1 to 4 and the filter of
    the product table. An exception ([None]) leaves the function through
    its handler. *)
Definition process_dataset (products_df : list Product)
    (batches : list (list Transaction)) : option Store :=
  match rank batches products_df target_count products_per_category with
  | None => None
  | Some selected_products =>
      match aggregate batches (target_set selected_products) with
      | None => None
      | Some sales_agg =>
          let products_with_sales := map s_article_id (rows sales_agg) in
          Some {| products :=
                    filter (fun p => Pandas.isin (article_id p)
                                                 products_with_sales)
                           products_df;
                  sales := sales_agg |}
      end
  end.

(** The branch of the [ImportError] handler: the first listed file only. *)
Definition process_first_file (products_df : list Product)
    (files : list (option (list (list Transaction)))) : option Store :=
  match files with
  | Some bs :: _ =>
      Some {| products := products_df;
              sales := DataLoader.aggregate_sales_by_product (concat bs) |}
  | _ => None
  end.

(** The synthetic branches: the whole product table is saved. *)
Definition process_sample (e : Env) (products_df : list Product)
  : option Store :=
  match generate_sample_sales_for_products (rng e) (now e) products_df with
  | Some sales_agg => Some {| products := products_df; sales := sales_agg |}
  | None => None
  end.

(** [try_download_from_s3]: [Some] is [True] with the tables it saved,
    [None] is [False]. *)
Definition try_download_from_s3 (e : Env) : option Store :=
  match articles_file e with
  | None => None
  | Some downloaded =>
      match transaction_files e with
      | [] =>
          match downloaded with
          | None => None
          | Some articles_df =>
              process_sample e (DataLoader.create_product_index articles_df)
          end
      | files =>
          match downloaded with
          | None => None
          | Some articles_df =>
              let products_df := DataLoader.create_product_index articles_df in
              if Nat.eqb (downloaded_count files) 0
              then process_sample e products_df
              else if pyarrow e
                   then process_dataset products_df (dataset_batches files)
                   else process_first_file products_df files
          end
      end
  end.

(** [main]: the tables on disk after the run; [None] when the run ends with
    an uncaught exception. *)
Definition main (e : Env) : option Store :=
  match try_download_from_s3 e with
  | Some saved => Some saved
  | None =>
      match create_sample_data (rng e) (now e) with
      | Some (products_df, sales_agg) =>
          Some {| products := products_df; sales := sales_agg |}
      | None => None
      end
  end.

End DownloadData.

(** ** services/analytics_service.py *)

Module AnalyticsService.

(** The service compares [article_id] cells through [astype(str)] only: a
    row holds that rendering. *)
Record ProductRow := mkProductRow {
  p_article_id : string;
  p_prod_name : option string
}.

Record SaleRow := mkSaleRow {
  sale_article_id : string;
  sale_date : Z;
  sale_total_revenue : Q;
  sale_units_sold : Z
}.

(** A file of the data directory. *)
Inductive File (A : Type) : Type :=
| Missing
| Unreadable
| Parquet (df : A).
Arguments Missing {A}.
Arguments Unreadable {A}.
Arguments Parquet {A} df.

Record DataDir := mkDataDir {
  products_parquet : File (list ProductRow);
  sales_parquet : File (list SaleRow)
}.

Inductive exn : Type :=
| FileNotFoundError
| ArrowInvalid
| OverflowError
| OutOfBoundsDatetime.

Inductive result (A : Type) : Type :=
| Ok (a : A)
| Raise (e : exn).
Arguments Ok {A} a.
Arguments Raise {A} e.

Definition bind {A B : Type} (m : result A) (k : A -> result B) : result B :=
  match m with
  | Ok a => k a
  | Raise e => Raise e
  end.

(** [try: body  except Exception: handler]. *)
Definition try_except {A : Type} (body : result A) (handler : exn -> result A)
  : result A :=
  match body with
  | Ok a => Ok a
  | Raise e => handler e
  end.

Definition path_exists {A : Type} (f : File A) : bool :=
  match f with
  | Missing => false
  | _ => true
  end.

Definition read_parquet {A : Type} (f : File A) : result A :=
  match f with
  | Missing => Raise FileNotFoundError
  | Unreadable => Raise ArrowInvalid
  | Parquet df => Ok df
  end.

(** The state of the service: its two frames. *)
Record Service := mkService {
  products_df : list ProductRow;
  sales_df : list SaleRow
}.

Definition empty_frames : Service :=
  {| products_df := []; sales_df := [] |}.

(** [load_data], with its [try]/[except]. *)
Definition load_data (data_dir : DataDir) : result Service :=
  try_except
    (if path_exists (products_parquet data_dir)
        && path_exists (sales_parquet data_dir)
     then
       bind (read_parquet (products_parquet data_dir)) (fun products =>
       bind (read_parquet (sales_parquet data_dir)) (fun sales =>
       Ok {| products_df := products; sales_df := sales |}))
     else Ok empty_frames)
    (fun _ => Ok empty_frames).

(** [get_product_by_id]. *)
Definition get_product_by_id (self : Service) (article_id : string)
  : option ProductRow :=
  match products_df self with
  | [] => None
  | _ =>
      match filter (fun p => String.eqb (p_article_id p) article_id)
                   (products_df self) with
      | [] => None
      | product :: _ => Some product
      end
  end.

Record DataPoint := mkDataPoint {
  dp_date : Z;
  dp_revenue : Q;
  dp_units_sold : Z
}.

Record SalesHistory := mkSalesHistory {
  h_article_id : string;
  product_name : option string;
  data : list DataPoint;
  h_total_revenue : Q;
  total_units : Z
}.

(** [Series.max] of a column that has a row. *)
Definition max_date (first : SaleRow) (others : list SaleRow) : Z :=
  fold_right (fun r m => Z.max (sale_date r) m) (sale_date first) others.

Definition data_point (row : SaleRow) : DataPoint :=
  {| dp_date := sale_date row;
     dp_revenue := sale_total_revenue row;
     dp_units_sold := sale_units_sold row |}.

(** [timedelta(days=days)]: the standard library holds no more than
    999999999 days, either way. *)
Definition timedelta (days : Z) : result Z :=
  if Z.abs days <=? 999999999 then Ok days else Raise OverflowError.

Section Timestamps.
(** The largest number of days that a timestamp of the [date] column holds,
    as a date counted from 1970-01-01 and as a span: 106751 at the
    nanosecond resolution [pd.to_datetime] gives the column. *)
Variable day_limit : Z.

Definition in_bounds (d : Z) : bool := Z.abs d <=? day_limit.

(** [timestamp - delta]: the span and the result must be in bounds. *)
Definition timestamp_sub (timestamp delta : Z) : result Z :=
  if in_bounds delta && in_bounds (timestamp - delta)
  then Ok (timestamp - delta)
  else Raise OutOfBoundsDatetime.

(** [get_sales_history]. *)
Definition get_sales_history (self : Service) (article_id : string) (days : Z)
  : result SalesHistory :=
  match sales_df self with
  | [] =>
      Ok {| h_article_id := article_id; product_name := Some "Unknown"%string;
            data := []; h_total_revenue := 0; total_units := 0 |}
  | _ =>
      let product := get_product_by_id self article_id in
      let product_name :=
        match product with
        | Some p => p_prod_name p
        | None => Some "Unknown Product"%string
        end in
      let product_sales :=
        filter (fun r => String.eqb (sale_article_id r) article_id)
               (sales_df self) in
      match product_sales with
      | [] =>
          Ok {| h_article_id := article_id; product_name := product_name;
                data := []; h_total_revenue := 0; total_units := 0 |}
      | first :: others =>
          let end_date := max_date first others in
          bind (timedelta days) (fun delta =>
          bind (timestamp_sub end_date delta) (fun start_date =>
          let product_sales :=
            filter (fun r => start_date <=? sale_date r) product_sales in
          let product_sales := Pandas.sort_values sale_date product_sales in
          Ok {| h_article_id := article_id; product_name := product_name;
                data := map data_point product_sales;
                h_total_revenue :=
                  Pandas.Qsum (map sale_total_revenue product_sales);
                total_units :=
                  Pandas.Zsum (map sale_units_sold product_sales) |}))
      end
  end.
End Timestamps.

(** The dict of [get_sales_summary]; the one of a product without data has
    no [days_of_data] key. *)
Record SalesSummary := mkSalesSummary {
  sum_total_revenue : Q;
  sum_total_units : Z;
  avg_daily_revenue : Q;
  avg_daily_units : Q;
  trend : string;
  days_of_data : option nat
}.

Section Summary.
Variable day_limit : Z.

(** [get_sales_summary]: [a > b] on floats is [negb (Qle_bool a b)]. *)
Definition get_sales_summary (self : Service) (article_id : string)
  : result SalesSummary :=
  bind (get_sales_history day_limit self article_id 90) (fun sales_data =>
  match data sales_data with
  | [] =>
      Ok {| sum_total_revenue := 0; sum_total_units := 0;
            avg_daily_revenue := 0; avg_daily_units := 0;
            trend := "unknown"; days_of_data := None |}
  | _ =>
      let data_points := data sales_data in
      let len := inject_Z (Z.of_nat (length data_points)) in
      let avg_daily_revenue := (h_total_revenue sales_data / len)%Q in
      let avg_daily_units := (inject_Z (total_units sales_data) / len)%Q in
      let trend :=
        if (14 <=? length data_points)%nat
        then
          let first_week_revenue :=
            Python.sum (map dp_revenue (firstn 7 data_points)) in
          let last_week_revenue :=
            Python.sum (map dp_revenue (Python.last_n 7 data_points)) in
          if negb (Qle_bool last_week_revenue
                            (first_week_revenue * (11 # 10)))
          then "increasing"%string
          else if negb (Qle_bool (first_week_revenue * (9 # 10))
                                 last_week_revenue)
               then "decreasing"%string
               else "stable"%string
        else "insufficient_data"%string in
      Ok {| sum_total_revenue := h_total_revenue sales_data;
            sum_total_units := total_units sales_data;
            avg_daily_revenue := avg_daily_revenue;
            avg_daily_units := avg_daily_units;
            trend := trend;
            days_of_data := Some (length data_points) |}
  end).
End Summary.

End AnalyticsService.

(** ** routes/products.py *)

Module Routes.
Import AnalyticsService.

(** What the client gets: the body of the handler, the [HTTPException] it
    raises, or the 500 of an exception nothing handles (a body that fails
    the check of the route's response model is one). *)
Inductive Response (A : Type) : Type :=
| Http200 (body : A)
| Http404 (detail : string)
| Http500.
Arguments Http200 {A} body.
Arguments Http404 {A} detail.
Arguments Http500 {A}.

Definition no_sales : string :=
  "Product not found or no sales data available".

Section Endpoints.
Variable day_limit : Z.

(** [GET /products/{article_id}/sales]. The dict the handler returns is
    checked against [response_model=SalesResponse], whose [product_name] is
    a [str]: a null name fails the check and the client gets a 500. The
    other fields are of their declared types in every history. *)
Definition get_product_sales (analytics : Service) (article_id : string)
    (days : Z) : Response SalesHistory :=
  match get_sales_history day_limit analytics article_id days with
  | Raise _ => Http500
  | Ok sales_data =>
      match data sales_data with
      | [] => Http404 no_sales
      | _ =>
          match product_name sales_data with
          | Some _ => Http200 sales_data
          | None => Http500
          end
      end
  end.

(** [GET /products/{article_id}/forecast]; the forecast service is the
    caller's. *)
Definition get_product_forecast {F : Type}
    (generate_forecast : string -> list DataPoint -> Z -> F)
    (analytics : Service) (article_id : string) (days : Z) : Response F :=
  match get_sales_history day_limit analytics article_id 90 with
  | Raise _ => Http500
  | Ok sales_data =>
      match data sales_data with
      | [] => Http404 no_sales
      | _ => Http200 (generate_forecast article_id (data sales_data) days)
      end
  end.
End Endpoints.

(** [GET /products/{article_id}/segments]; the segmentation service is the
    caller's. *)
Definition get_customer_segments {S : Type}
    (customer_segments : string -> ProductRow -> S)
    (analytics : Service) (article_id : string) : Response S :=
  match get_product_by_id analytics article_id with
  | None => Http404 "Product not found"
  | Some product => Http200 (customer_segments article_id product)
  end.

End Routes.

(** ** services/forecast_service.py *)

Module ForecastService.
Import AnalyticsService.

Record ForecastPoint := mkForecastPoint {
  fp_date : Z;
  predicted_units : Q;
  confidence_lower : Q;
  confidence_upper : Q
}.

Record Forecast := mkForecast {
  f_article_id : string;
  forecast : list ForecastPoint;
  method : string
}.

(** The days a [datetime] holds: 0001-01-01 to 9999-12-31. *)
Definition datetime_min : Z := -719162.
Definition datetime_max : Z := 2932896.

Definition in_datetime (d : Z) : bool :=
  (datetime_min <=? d) && (d <=? datetime_max).

(** [datetime.strptime(s, '%Y-%m-%d')] of the string of a day; [None] is
    its [ValueError]. *)
Definition strptime (d : Z) : option Z :=
  if in_datetime d then Some d else None.

(** [date + timedelta(days=i)]; [None] is the [OverflowError] of either. *)
Definition add_days (d i : Z) : option Z :=
  if (Z.abs i <=? 999999999) && in_datetime (d + i) then Some (d + i)
  else None.

(** [round(x, 1)]. *)
Definition round1 (x : Q) : Q :=
  (inject_Z (DownloadData.round_half_even (x * 10)) / 10)%Q.

(** [max(0, x)]: the first of the two unless [x] is larger. *)
Definition max0 (x : Q) : Q := if Qle_bool x 0 then 0%Q else x.

Definition units_of (d : DataPoint) : Q := inject_Z (dp_units_sold d).

Section Forecast.
(** The draws of [np.random.uniform(0.9, 1.1)], one per iteration. *)
Variable uniform : nat -> Q.

(** The body of the loop, at iteration [i]. *)
Definition forecast_point (avg_units trend : Q) (last_date : Z) (i : nat)
  : option ForecastPoint :=
  match add_days last_date (Z.of_nat i) with
  | None => None
  | Some forecast_date =>
      let predicted := (avg_units + trend * inject_Z (Z.of_nat i))%Q in
      let day_of_week := DownloadData.weekday forecast_date in
      let predicted :=
        if (day_of_week =? 5) || (day_of_week =? 6)
        then (predicted * (12 # 10))%Q else predicted in
      let predicted := (predicted * uniform i)%Q in
      let predicted := max0 predicted in
      let uncertainty := ((1 # 10) + (1 # 100) * inject_Z (Z.of_nat i))%Q in
      let lower := (predicted * (1 - uncertainty))%Q in
      let upper := (predicted * (1 + uncertainty))%Q in
      Some {| fp_date := forecast_date;
              predicted_units := round1 predicted;
              confidence_lower := round1 lower;
              confidence_upper := round1 upper |}
  end.

(** [generate_forecast]; [None] is an exception that leaves it. *)
Definition generate_forecast (article_id : string)
    (historical_data : list DataPoint) (days : Z) : option Forecast :=
  match historical_data with
  | [] =>
      Some {| f_article_id := article_id; forecast := [];
              method := "insufficient_data" |}
  | first :: others =>
      let avg_units := Pandas.Qmean (map units_of historical_data) in
      let trend :=
        if (14 <=? length historical_data)%nat
        then
          let recent_avg :=
            Pandas.Qmean (map units_of (Python.last_n 7 historical_data)) in
          let older_avg :=
            Pandas.Qmean (map units_of (firstn 7 historical_data)) in
          ((recent_avg - older_avg) / 7)%Q
        else 0%Q in
      match strptime (dp_date (last others first)) with
      | None => None
      | Some last_date =>
          match Python.collect
                  (map (forecast_point avg_units trend last_date)
                       (seq 1 (Z.to_nat days))) with
          | None => None
          | Some forecast_points =>
              Some {| f_article_id := article_id;
                      forecast := forecast_points;
                      method := "moving_average_with_trend" |}
          end
      end
  end.
End Forecast.

End ForecastService.

(** ** services/segmentation_service.py *)

Module SegmentationService.

(** What [product_info.get(key, '')] meets: no such key, a null cell, or a
    text. *)
Inductive Field : Type :=
| Absent
| Null
| Text (s : string).

(** Of the product dict, the two keys the service reads. *)
Record ProductInfo := mkProductInfo {
  product_type_name : Field;
  department_name : Field
}.

Record Segment := mkSegment {
  name : string;
  percentage : Q;
  age_range : string;
  characteristics : list string;
  purchase_likelihood : Q
}.

Definition active_segments : list Segment :=
  [ mkSegment "Active Athletes" 35 "25-34"
      ["High purchase frequency"; "Brand conscious";
       "Values performance features"; "Willing to pay premium"] (85 # 100);
    mkSegment "Fitness Enthusiasts" 28 "35-44"
      ["Regular gym-goers"; "Quality focused"; "Moderate spending";
       "Loyal to brands"] (72 # 100);
    mkSegment "Casual Buyers" 37 "18-24"
      ["Price sensitive"; "Trend followers"; "Occasional purchases";
       "Social media influenced"] (58 # 100) ]%string.

Definition ladies_segments : list Segment :=
  [ mkSegment "Fashion Forward" 32 "25-34"
      ["Trend conscious"; "Frequent shoppers"; "Social media active";
       "Medium to high spending"] (78 # 100);
    mkSegment "Classic Professionals" 28 "35-50"
      ["Quality over quantity"; "Timeless style preference";
       "Higher price tolerance"; "Brand loyal"] (81 # 100);
    mkSegment "Value Seekers" 40 "18-30"
      ["Budget conscious"; "Sale shoppers"; "Mix and match style";
       "Online shoppers"] (65 # 100) ]%string.

Definition men_segments : list Segment :=
  [ mkSegment "Modern Professionals" 38 "30-45"
      ["Work wardrobe focused"; "Quality conscious"; "Efficient shoppers";
       "Brand preference"] (76 # 100);
    mkSegment "Casual Comfort" 35 "25-40"
      ["Comfort prioritized"; "Practical choices"; "Moderate spending";
       "Infrequent shopping"] (68 # 100);
    mkSegment "Young Trendsetters" 27 "18-28"
      ["Style conscious"; "Social media influenced"; "Price sensitive";
       "Frequent browsers"] (62 # 100) ]%string.

Definition generic_segments : list Segment :=
  [ mkSegment "Frequent Shoppers" 30 "25-40"
      ["Regular purchases"; "Brand aware"; "Medium spending";
       "Quality focused"] (75 # 100);
    mkSegment "Occasional Buyers" 45 "30-50"
      ["Need-based shopping"; "Value conscious"; "Research before buying";
       "Moderate loyalty"] (65 # 100);
    mkSegment "Bargain Hunters" 25 "18-35"
      ["Price driven"; "Sale focused"; "Impulse buyers";
       "Low brand loyalty"] (52 # 100) ]%string.

(** [_generate_segments_for_product]. *)
Definition generate_segments_for_product (product_type department : string)
  : list Segment :=
  if Python.contains "sport" department
     || Python.contains "shoe" product_type
     || Python.contains "activewear" product_type
  then active_segments
  else if Python.contains "ladies" department
          || Python.contains "women" department
  then ladies_segments
  else if Python.contains "men" department
          || Python.contains "male" department
  then men_segments
  else generic_segments.

Section Lower.
(** [str.lower]. *)
Variable lower : string -> string.

(** [product_info.get(key, '').lower()]: the default is the empty string; a
    null cell has no [lower] and the call raises ([None]). *)
Definition lowered (f : Field) : option string :=
  match f with
  | Absent => Some EmptyString
  | Null => None
  | Text s => Some (lower s)
  end.

(** [get_customer_segments], of which the segments are kept; a
    [product_info] of [None] is a dict that is empty or missing. *)
Definition get_customer_segments (article_id : string)
    (product_info : option ProductInfo) : option (list Segment) :=
  match product_info with
  | None => Some (generate_segments_for_product EmptyString EmptyString)
  | Some info =>
      match lowered (product_type_name info) with
      | None => None
      | Some product_type =>
          match lowered (department_name info) with
          | None => None
          | Some department =>
              Some (generate_segments_for_product product_type department)
          end
      end
  end.
End Lower.

End SegmentationService.

(** ** services/search_service.py and the text search of
       services/analytics_service.py *)

Module ProductSearch.

(** A cell of the product table: a null ([None], as a null of a text column
    is read), a text, or an int64. *)
Inductive Cell : Type :=
| Null
| Str (s : string)
| Int (z : Z).

Definition cell_eqb (a b : Cell) : bool :=
  match a, b with
  | Null, Null => true
  | Str s, Str t => String.eqb s t
  | Int x, Int y => x =? y
  | _, _ => false
  end.

(** The truth value of a cell in an [if]. *)
Definition truthy (c : Cell) : bool :=
  match c with
  | Null => false
  | Str s => negb (String.eqb s EmptyString)
  | Int z => negb (z =? 0)
  end.

(** [str(c)]. *)
Definition str (c : Cell) : string :=
  match c with
  | Null => "None"
  | Str s => s
  | Int z => Python.str_int z
  end.

(** [fillna('')] and [astype(str)]. *)
Definition filled (c : Cell) : string :=
  match c with
  | Null => EmptyString
  | _ => str c
  end.

(** A row gives the cell of each column of its frame; as a record of
    [to_dict('records')] its keys are the columns of the frame. *)
Definition Row : Type := string -> Cell.

Record Frame := mkFrame {
  frame_columns : list string;
  frame_rows : list Row
}.

Definition has_column (df : Frame) (c : string) : bool :=
  existsb (String.eqb c) (frame_columns df).

(** [df.empty]. *)
Definition empty (df : Frame) : bool :=
  match frame_columns df, frame_rows df with
  | [], _ => true
  | _, [] => true
  | _, _ => false
  end.

Definition search_columns : list string :=
  ["prod_name"; "product_type_name"; "product_group_name";
   "colour_group_name"; "department_name"]%string.

(** A hit of the search, as [search] formats it. *)
Record Hit := mkHit {
  hit_article_id : string;
  hit_name : Cell;
  category : Cell;
  hit_price : option Q;
  description : option string
}.

Record Response := mkResponse {
  query : string;
  results : list Hit;
  count : nat
}.

(** [' '.join(parts)]: a part that is no text raises ([None]). *)
Definition join (parts : list Cell) : option string :=
  match Python.collect
          (map (fun c => match c with Str s => Some s | _ => None end) parts)
  with
  | Some texts => Some (String.concat " " texts)
  | None => None
  end.

Section Search.
(** [str.lower]. *)
Variable lower : string -> string.
(** [self.analytics.products_df]. *)
Variable df : Frame.
(** [self.llm.extract_search_terms]. *)
Variable extract_search_terms : string -> list string.

(** [product.get(c, default)]. *)
Definition get (product : Row) (c : string) (default : Cell) : Cell :=
  if has_column df c then product c else default.

Definition existing_columns : list string :=
  filter (has_column df) search_columns.

Definition search_text (product : Row) : string :=
  lower (String.concat " "
           (map (fun c => filled (product c)) existing_columns)).

(** [AnalyticsService.search_products]. *)
Definition search_products (query : string) (limit : Z) : list Row :=
  if empty df then []
  else
    let query_lower := lower query in
    match existing_columns with
    | [] => Python.slice_to limit (frame_rows df)
    | _ =>
        Python.slice_to limit
          (filter (fun product =>
                     Python.contains query_lower (search_text product))
                  (frame_rows df))
    end.

(** [_create_description]. *)
Definition create_description (product : Row) : option (option string) :=
  let colour := get product "colour_group_name" Null in
  let group := get product "product_group_name" Null in
  let department := get product "department_name" Null in
  let parts :=
    (if truthy colour then [colour] else [])
    ++ (if truthy group then [group] else [])
    ++ (if truthy department
        then [Str ("from " ++ str department)] else []) in
  match parts with
  | [] => Some None
  | _ =>
      match join parts with
      | Some text => Some (Some text)
      | None => None
      end
  end.

Definition format (product : Row) : option Hit :=
  match create_description product with
  | None => None
  | Some description =>
      Some {| hit_article_id := str (get product "article_id"
                                         (Str EmptyString));
              hit_name := get product "prod_name" (Str "Unknown Product");
              category := get product "product_type_name" Null;
              hit_price := None;
              description := description |}
  end.

(** The loop over the products of one term: [all_results] and [seen_ids]
    after it. *)
Fixpoint add_products (limit : Z) (products : list Row)
    (all_results : list Row) (seen_ids : list Cell)
  : list Row * list Cell :=
  match products with
  | [] => (all_results, seen_ids)
  | product :: rest =>
      let article_id := get product "article_id" Null in
      if truthy article_id && negb (existsb (cell_eqb article_id) seen_ids)
      then
        let all_results := all_results ++ [product] in
        let seen_ids := article_id :: seen_ids in
        if limit <=? Z.of_nat (length all_results)
        then (all_results, seen_ids)
        else add_products limit rest all_results seen_ids
      else add_products limit rest all_results seen_ids
  end.

(** The loop over the search terms. *)
Fixpoint add_terms (limit : Z) (search_terms : list string)
    (all_results : list Row) (seen_ids : list Cell)
  : list Row * list Cell :=
  match search_terms with
  | [] => (all_results, seen_ids)
  | term :: rest =>
      let products := search_products term limit in
      let state := add_products limit products all_results seen_ids in
      if limit <=? Z.of_nat (length (fst state)) then state
      else add_terms limit rest (fst state) (snd state)
  end.

(** [SearchService.search]; [None] is an exception that leaves it. *)
Definition search (query : string) (limit : Z) : option Response :=
  let search_terms := extract_search_terms query in
  let all_results := fst (add_terms limit search_terms [] []) in
  let all_results :=
    match all_results with
    | [] => search_products query limit
    | _ => all_results
    end in
  match Python.collect (map format (Python.slice_to limit all_results)) with
  | None => None
  | Some formatted_results =>
      Some {| query := query;
              results := formatted_results;
              count := length formatted_results |}
  end.
End Search.

End ProductSearch.

(** ** What the claims speak of *)

(** The transaction rows of all batches whose article is selected. *)
Definition matching (batches : list (list Transaction)) (selected : list Z)
  : list Transaction :=
  filter (fun t => Pandas.isin (t_article_id t) selected) (concat batches).

(** The prices of the rows of one (article, day) key. *)
Definition prices_of (k : key) (txns : list Transaction) : list Q :=
  map price (filter (fun t => key_eqb (txn_key t) k) txns).

(** A row counts at least one unit and its revenue is the units at the
    average price. *)
Definition row_ok (r : SalesRow) : Prop :=
  1 <= units_sold r
  /\ total_revenue r == avg_price r * inject_Z (units_sold r).

(** The catalog a run reads, when it reads one. *)
Definition catalog (e : DownloadData.Env) : list Product :=
  match DownloadData.articles_file e with
  | Some (Some articles_df) => articles_df
  | _ => []
  end.

(** The summed revenue of an article over a list of transaction rows. *)
Definition revenue_in (id : Z) (txns : list Transaction) : Q :=
  Pandas.Qsum (map price (filter (fun t => t_article_id t =? id) txns)).

(** The candidates of the ranker: the catalog rows with a transaction. *)
Definition candidates (batches : list (list Transaction))
    (products_df : list Product) : list Product :=
  filter (fun p => Pandas.isin (article_id p)
                               (map t_article_id (concat batches)))
         products_df.

(** Reading [product_revenue]: the total of a key, and whether it is one. *)
Definition revenue_of (d : DownloadData.dict) (k : Z) : Q :=
  match DownloadData.dict_get d k with
  | Some v => v
  | None => 0%Q
  end.

Definition dict_has (d : DownloadData.dict) (k : Z) : bool :=
  match DownloadData.dict_get d k with
  | Some _ => true
  | None => false
  end.

(** The date of the latest sale of an article, when it has a sale. *)
Definition latest_sale (self : AnalyticsService.Service) (article_id : string)
  : option Z :=
  match filter (fun r => String.eqb (AnalyticsService.sale_article_id r)
                                    article_id)
               (AnalyticsService.sales_df self) with
  | [] => None
  | first :: others => Some (AnalyticsService.max_date first others)
  end.

(** ** Sample inputs *)

(** Draws within the ranges of the generator: 5 units a day before the
    weekend boost, at a price of 20. *)
Definition flat_rng : DownloadData.Rng :=
  {| DownloadData.randint_5_30 := fun _ => 5;
     DownloadData.uniform_20_150 := fun _ => 20%Q;
     DownloadData.uniform_trend := fun _ _ => 0%Q;
     DownloadData.uniform_noise := fun _ _ => 1%Q;
     DownloadData.uniform_price := fun _ _ => 1%Q |}.

Definition shoes : Product :=
  mkProduct 108775001 (Some "Running Shoes"%string) (Some "Shoes"%string).

Definition jacket : Product :=
  mkProduct 108775002 (Some "Winter Jacket"%string) (Some "Jacket"%string).

(** A run that finds a two-product catalog and one transaction file of two
    batches, all for the first product, on 2024-01-01 (day 19723). *)
Definition real_env : DownloadData.Env :=
  {| DownloadData.articles_file := Some (Some [shoes; jacket]);
     DownloadData.transaction_files :=
       [ Some [ [mkTransaction 108775001 19723 10];
                [mkTransaction 108775001 19723 10;
                 mkTransaction 108775001 19723 12] ] ];
     DownloadData.pyarrow := true;
     DownloadData.rng := flat_rng;
     DownloadData.now := 19800 |}.

(** Eleven products of one type, listed from article 11 down to article 1,
    each sold once at the same price. *)
Definition tied_catalog : list Product :=
  map (fun id => mkProduct id None (Some "Shoes"%string))
      [11; 10; 9; 8; 7; 6; 5; 4; 3; 2; 1].

Definition tied_batches : list (list Transaction) :=
  [ map (fun id => mkTransaction id 19723 5) [1; 2; 3; 4; 5; 6];
    map (fun id => mkTransaction id 19723 5) [7; 8; 9; 10; 11] ].

(** A catalog of three products of two types, and two batches that sell
    them all. *)
Definition sneakers : Product :=
  mkProduct 108775003 (Some "Casual Sneakers"%string) (Some "Shoes"%string).

Definition three_products : list Product := [shoes; jacket; sneakers].

Definition three_batches : list (list Transaction) :=
  [ [mkTransaction 108775001 19723 10; mkTransaction 108775003 19723 30];
    [mkTransaction 108775002 19724 25; mkTransaction 108775001 19724 12] ].

(** A run that finds a catalog of 201 products (articles 1 to 201) and no
    transaction file. *)
Definition catalog_201 : list Product :=
  map (fun n => mkProduct (Z.of_nat n) None None) (seq 1 201).

Definition no_transactions_env : DownloadData.Env :=
  {| DownloadData.articles_file := Some (Some catalog_201);
     DownloadData.transaction_files := [];
     DownloadData.pyarrow := true;
     DownloadData.rng := flat_rng;
     DownloadData.now := 19800 |}.

(** The column names of the two kinds of sales table. *)
Definition real_columns : list string :=
  ["article_id"; "date"; "total_revenue"; "avg_price"; "units_sold"]%string.

Definition sample_columns : list string :=
  ["article_id"; "date"; "avg_price"; "total_revenue"; "units_sold"]%string.

(** A catalog of one product, found without any transaction file: the run
    generates its sales. *)
Definition sample_env : DownloadData.Env :=
  {| DownloadData.articles_file := Some (Some [shoes]);
     DownloadData.transaction_files := [];
     DownloadData.pyarrow := true;
     DownloadData.rng := flat_rng;
     DownloadData.now := 19800 |}.

(** The same catalog, found with a transaction file: on each of the 121 days
    from 19680 to 19800 the product is sold at 20, six times on Saturdays and
    Sundays and five times on the other days. *)
Definition daily_sales (d : Z) : list Transaction :=
  repeat (mkTransaction 108775001 d 20)
         (if (DownloadData.weekday d =? 5) || (DownloadData.weekday d =? 6)
          then 6%nat else 5%nat).

Definition steady_env : DownloadData.Env :=
  {| DownloadData.articles_file := Some (Some [shoes]);
     DownloadData.transaction_files :=
       [ Some [ flat_map daily_sales
                  (map (fun n => 19680 + Z.of_nat n) (seq 0 121)) ] ];
     DownloadData.pyarrow := true;
     DownloadData.rng := flat_rng;
     DownloadData.now := 19800 |}.

(** A service over three sales rows of one product and one of another. *)
Definition small_service : AnalyticsService.Service :=
  {| AnalyticsService.products_df :=
       [AnalyticsService.mkProductRow "108775001" (Some "Running Shoes")]%string;
     AnalyticsService.sales_df :=
       [ AnalyticsService.mkSaleRow "108775001" 19730 40 4;
         AnalyticsService.mkSaleRow "108775002" 19790 99 9;
         AnalyticsService.mkSaleRow "108775001" 19723 32 3;
         AnalyticsService.mkSaleRow "108775001" 19600 10 1 ]%string |}.

(** Draws that differ from one catalog row to the next: 5 units a day at a
    price of 20 for the first row, 10 units at 30 for the second. *)
Definition varied_rng : DownloadData.Rng :=
  {| DownloadData.randint_5_30 := fun i => 5 + 5 * Z.of_nat i;
     DownloadData.uniform_20_150 := fun i => inject_Z (20 + 10 * Z.of_nat i);
     DownloadData.uniform_trend := fun _ _ => 0%Q;
     DownloadData.uniform_noise := fun _ _ => 1%Q;
     DownloadData.uniform_price := fun _ _ => 1%Q |}.

(** A run that finds a catalog with one article listed twice and no
    transaction file. *)
Definition duplicate_env : DownloadData.Env :=
  {| DownloadData.articles_file := Some (Some [shoes; shoes]);
     DownloadData.transaction_files := [];
     DownloadData.pyarrow := true;
     DownloadData.rng := varied_rng;
     DownloadData.now := 19800 |}.

(** A catalog that lists article 1 two hundred times, under one type, and
    article 2 once, without a type; each is sold once. *)
Definition repeated_catalog : list Product :=
  repeat (mkProduct 1 None (Some "Shoes"%string)) 200
  ++ [mkProduct 2 None None].

Definition repeated_batches : list (list Transaction) :=
  [ [mkTransaction 1 19723 10; mkTransaction 2 19723 5] ].

(** ** The tables as they are written and read back *)

(** The frames of the pipeline hold an article as its number and a day as
    its day number. What [save_processed_data] writes has the cells of the
    frame it is given: the dataset's int64 ids and dates in a table
    aggregated from transactions, the texts [str(article_id)] and
    [strftime('%Y-%m-%d')] in a generated one, and the id literals of
    [create_sample_data] ('0108775001' for 108775001) in the sample
    tables. The query service reads ids through [astype(str)] and dates
    through [pd.to_datetime]. *)
Module Saved.

Inductive IdCell : Type :=
| IntId (z : Z)
| TextId (s : string).

(** A date cell: the dataset's value of a day, or its ['%Y-%m-%d'] text. *)
Inductive DateCell : Type :=
| DatasetDate (d : Z)
| DateText (d : Z).

Record SaleCells := mkSaleCells {
  c_article_id : IdCell;
  c_date : DateCell;
  c_total_revenue : Q;
  c_avg_price : Q;
  c_units_sold : Z
}.

Record ProductCells := mkProductCells {
  c_id : IdCell;
  c_prod_name : option string;
  c_product_type_name : option string
}.

Record SalesTable := mkSalesTable {
  sales_columns : list string;
  sales_cells : list SaleCells
}.

(** The two files of the data directory: no other is written. *)
Record Tables := mkTables {
  products_table : list ProductCells;
  sales_table : SalesTable
}.

Definition write_sales (id_cell : Z -> IdCell) (date_cell : Z -> DateCell)
    (fr : SalesFrame) : SalesTable :=
  {| sales_columns := columns fr;
     sales_cells :=
       map (fun r => {| c_article_id := id_cell (s_article_id r);
                        c_date := date_cell (date r);
                        c_total_revenue := total_revenue r;
                        c_avg_price := avg_price r;
                        c_units_sold := units_sold r |})
           (rows fr) |}.

Definition write_products (id_cell : Z -> IdCell) (df : list Product)
  : list ProductCells :=
  map (fun p => {| c_id := id_cell (article_id p);
                   c_prod_name := prod_name p;
                   c_product_type_name := product_type_name p |})
      df.

(** The table of [aggregate_sales_by_product]: the group keys are the
    dataset's values. *)
Definition aggregated (fr : SalesFrame) : SalesTable :=
  write_sales IntId DatasetDate fr.

(** The table of [generate_sample_sales_for_products]:
    ['article_id': str(article_id)] and
    ['t_dat': current_date.strftime('%Y-%m-%d')]. *)
Definition generated (fr : SalesFrame) : SalesTable :=
  write_sales (fun id => TextId (Python.str_int id)) DateText fr.

(** The id literals of [create_sample_data]. *)
Definition sample_id (id : Z) : IdCell :=
  TextId ("0" ++ Python.str_int id)%string.

(** Whether the S3 attempt, when it saves tables, saves generated sales:
    no transaction file listed, or none downloaded. *)
Definition generates (e : DownloadData.Env) : bool :=
  Nat.eqb (DownloadData.downloaded_count (DownloadData.transaction_files e))
          0.

(** The files a run of [main] leaves in the data directory. *)
Definition written (e : DownloadData.Env) : option Tables :=
  match DownloadData.try_download_from_s3 e with
  | Some saved =>
      Some {| products_table :=
                write_products IntId (DownloadData.products saved);
              sales_table :=
                if generates e then generated (DownloadData.sales saved)
                else aggregated (DownloadData.sales saved) |}
  | None =>
      match DownloadData.create_sample_data (DownloadData.rng e)
                                            (DownloadData.now e) with
      | Some (products_df, sales_agg) =>
          Some {| products_table := write_products sample_id products_df;
                  sales_table := write_sales sample_id DateText sales_agg |}
      | None => None
      end
  end.

(** [astype(str)] of an id cell, and [pd.to_datetime] of a date cell. *)
Definition astype_str (c : IdCell) : string :=
  match c with
  | IntId z => Python.str_int z
  | TextId s => s
  end.

Definition to_datetime (c : DateCell) : Z :=
  match c with
  | DatasetDate d => d
  | DateText d => d
  end.

(** The rows the query service works on, read from the files. *)
Definition product_row (c : ProductCells) : AnalyticsService.ProductRow :=
  {| AnalyticsService.p_article_id := astype_str (c_id c);
     AnalyticsService.p_prod_name := c_prod_name c |}.

Definition sale_row (c : SaleCells) : AnalyticsService.SaleRow :=
  {| AnalyticsService.sale_article_id := astype_str (c_article_id c);
     AnalyticsService.sale_date := to_datetime (c_date c);
     AnalyticsService.sale_total_revenue := c_total_revenue c;
     AnalyticsService.sale_units_sold := c_units_sold c |}.

Definition data_dir (t : Tables) : AnalyticsService.DataDir :=
  {| AnalyticsService.products_parquet :=
       AnalyticsService.Parquet (map product_row (products_table t));
     AnalyticsService.sales_parquet :=
       AnalyticsService.Parquet (map sale_row (sales_cells (sales_table t)))
  |}.

End Saved.

(** A generated row and an aggregated row of the same sale: the id and the
    date are a text in the one, the dataset's values in the other, and the
    numbers are the same. *)
Definition same_sale_written (g a : Saved.SaleCells) : Prop :=
  exists id d : Z,
    Saved.c_article_id g = Saved.TextId (Python.str_int id)
    /\ Saved.c_article_id a = Saved.IntId id
    /\ Saved.c_date g = Saved.DateText d
    /\ Saved.c_date a = Saved.DatasetDate d
    /\ Saved.c_total_revenue g == Saved.c_total_revenue a
    /\ Saved.c_avg_price g == Saved.c_avg_price a
    /\ Saved.c_units_sold g = Saved.c_units_sold a.

Definition same_sale_written_b (g a : Saved.SaleCells) : bool :=
  match Saved.c_article_id g, Saved.c_article_id a,
        Saved.c_date g, Saved.c_date a with
  | Saved.TextId s, Saved.IntId id, Saved.DateText d, Saved.DatasetDate d' =>
      String.eqb s (Python.str_int id) && (d =? d')
      && Qeq_bool (Saved.c_total_revenue g) (Saved.c_total_revenue a)
      && Qeq_bool (Saved.c_avg_price g) (Saved.c_avg_price a)
      && (Saved.c_units_sold g =? Saved.c_units_sold a)
  | _, _, _, _ => false
  end.

(** Two rows of the service's sales frame that read the same. *)
Definition same_sale_read (a b : AnalyticsService.SaleRow) : Prop :=
  AnalyticsService.sale_article_id a = AnalyticsService.sale_article_id b
  /\ AnalyticsService.sale_date a = AnalyticsService.sale_date b
  /\ AnalyticsService.sale_total_revenue a
     == AnalyticsService.sale_total_revenue b
  /\ AnalyticsService.sale_units_sold a = AnalyticsService.sale_units_sold b.

Fixpoint all2b {A B : Type} (f : A -> B -> bool) (xs : list A)
    (ys : list B) : bool :=
  match xs, ys with
  | [], [] => true
  | x :: xs', y :: ys' => f x y && all2b f xs' ys'
  | _, _ => false
  end.

(** ** What the further properties speak of *)

(** The order of the rows of a sales table: by article, then by day. *)
Definition row_before (a b : SalesRow) : Prop :=
  s_article_id a < s_article_id b
  \/ (s_article_id a = s_article_id b /\ date a < date b).

(** The draws of a generator lie in the ranges its calls name:
    [randint(5, 30)], [uniform(20, 150)], [uniform(-0.002, 0.003)],
    [uniform(0.7, 1.3)] and [uniform(0.95, 1.05)]. *)
Definition draws_in_range (g : DownloadData.Rng) : Prop :=
  (forall i, 5 <= DownloadData.randint_5_30 g i < 30)
  /\ (forall i, (20 <= DownloadData.uniform_20_150 g i)%Q
                /\ (DownloadData.uniform_20_150 g i < 150)%Q)
  /\ (forall i n, (- (2 # 1000) <= DownloadData.uniform_trend g i n)%Q
                  /\ (DownloadData.uniform_trend g i n < 3 # 1000)%Q)
  /\ (forall i n, (7 # 10 <= DownloadData.uniform_noise g i n)%Q
                  /\ (DownloadData.uniform_noise g i n < 13 # 10)%Q)
  /\ (forall i n, (95 # 100 <= DownloadData.uniform_price g i n)%Q
                  /\ (DownloadData.uniform_price g i n < 105 # 100)%Q).

(** The catalog rows the generator makes sales for. *)
Definition sampled (products_df : list Product) : list Product :=
  if (200 <? length products_df)%nat then Pandas.head 200 products_df
  else products_df.

(** The units and the price the generator draws for the product at
    position [i] on day [n] of the window. *)
Definition drawn_units (g : DownloadData.Rng) (start_date : Z) (i n : nat)
  : Z :=
  let day_of_week := DownloadData.weekday (start_date + Z.of_nat n) in
  let weekend_boost :=
    if (day_of_week =? 5) || (day_of_week =? 6) then (13 # 10)%Q else 1%Q in
  DownloadData.int_of_float
    (inject_Z (DownloadData.randint_5_30 g i) * weekend_boost
     * (1 + DownloadData.uniform_trend g i n * inject_Z (Z.of_nat n))
     * DownloadData.uniform_noise g i n)%Q.

Definition drawn_record (g : DownloadData.Rng) (start_date : Z) (i : nat)
    (id : Z) (n : nat) : DownloadData.SampleRecord :=
  {| DownloadData.r_article_id := id;
     DownloadData.r_t_dat := start_date + Z.of_nat n;
     DownloadData.r_price :=
       DownloadData.round2 (DownloadData.uniform_20_150 g i
                            * DownloadData.uniform_price g i n);
     DownloadData.units := drawn_units g start_date i n |}.

(** ** Sample inputs of the further properties *)

(** Three candidates of two types, and one without a type. *)
Definition untyped : Product := mkProduct 7 (Some "Gift Card"%string) None.

Definition ranked_products : list (Product * Q) :=
  [(shoes, 22%Q); (jacket, 25%Q); (untyped, 90%Q); (sneakers, 30%Q)].

(** A run that finds no articles file. *)
Definition offline_env : DownloadData.Env :=
  {| DownloadData.articles_file := None;
     DownloadData.transaction_files := [];
     DownloadData.pyarrow := true;
     DownloadData.rng := flat_rng;
     DownloadData.now := 19800 |}.

(** A run without [pyarrow] that lists two transaction files, of which the
    first holds the two batches of [three_batches]. *)
Definition pandas_env : DownloadData.Env :=
  {| DownloadData.articles_file := Some (Some [shoes]);
     DownloadData.transaction_files :=
       [ Some three_batches;
         Some [[mkTransaction 108775001 19725 10]] ];
     DownloadData.pyarrow := false;
     DownloadData.rng := flat_rng;
     DownloadData.now := 19800 |}.

(** A service over sixteen daily sales of one product, from day 19700 on:
    10 a day in the first eight days, 20 a day in the last eight. *)
Definition growing_service : AnalyticsService.Service :=
  {| AnalyticsService.products_df :=
       [AnalyticsService.mkProductRow "108775001" (Some "Running Shoes")]%string;
     AnalyticsService.sales_df :=
       map (fun n : nat =>
              AnalyticsService.mkSaleRow "108775001" (19700 + Z.of_nat n)
                (if (n <? 8)%nat then 10%Q else 20%Q) 1)
           (seq 0 16) |}.

(** Two days of history, and draws of 1. *)
Definition short_history : list AnalyticsService.DataPoint :=
  [ AnalyticsService.mkDataPoint 19729 40 4;
    AnalyticsService.mkDataPoint 19730 32 3 ].

Definition even_draws : nat -> Q := fun _ => 1%Q.

(** [str.lower] on the letters A to Z; the other characters stay. *)
Fixpoint ascii_lower (s : string) : string :=
  match s with
  | EmptyString => EmptyString
  | String c s' =>
      let n := Ascii.nat_of_ascii c in
      String (if ((65 <=? n) && (n <=? 90))%nat
              then Ascii.ascii_of_nat (n + 32) else c)
             (ascii_lower s')
  end.

(** The product dict of a women's top. *)
Definition womens_top : SegmentationService.ProductInfo :=
  {| SegmentationService.product_type_name :=
       SegmentationService.Text "Vest top";
     SegmentationService.department_name :=
       SegmentationService.Text "Womens Casual" |}.

(** The description columns of a product table hold texts and nulls, no
    number. *)
Definition text_columns (df : ProductSearch.Frame) : Prop :=
  forall (row : ProductSearch.Row) (z : Z),
    In row (ProductSearch.frame_rows df) ->
    row "colour_group_name"%string <> ProductSearch.Int z
    /\ row "product_group_name"%string <> ProductSearch.Int z.

(** The article id of a row, as the search renders it. *)
Definition rendered_id (row : ProductSearch.Row) : string :=
  ProductSearch.str (row "article_id"%string).

(** A row of a product table with the six columns of the sample catalog. *)
Definition catalog_row (id : Z) (name type group colour department : string)
  : ProductSearch.Row :=
  fun c =>
    if String.eqb c "article_id" then ProductSearch.Int id
    else if String.eqb c "prod_name" then ProductSearch.Str name
    else if String.eqb c "product_type_name" then ProductSearch.Str type
    else if String.eqb c "product_group_name" then ProductSearch.Str group
    else if String.eqb c "colour_group_name" then ProductSearch.Str colour
    else if String.eqb c "department_name" then ProductSearch.Str department
    else ProductSearch.Null.

Definition small_catalog : ProductSearch.Frame :=
  {| ProductSearch.frame_columns :=
       ["article_id"; "prod_name"; "product_type_name";
        "product_group_name"; "colour_group_name"; "department_name"]%string;
     ProductSearch.frame_rows :=
       [ catalog_row 108775001 "Running Shoes" "Shoes" "Footwear" "Black"
                     "Sport";
         catalog_row 108775002 "Winter Jacket" "Jacket" "Outerwear"
                     "Navy Blue" "Menswear";
         catalog_row 108775003 "Casual Sneakers" "Shoes" "Footwear" "White"
                     "Sport" ]%string |}.

(** Search terms that both match the first product. *)
Definition two_terms : string -> list string :=
  fun _ => ["running"; "shoes"]%string.

(** * Facts on the pandas operations *)

Section GroupFacts.
Context {K : Type} (eqb ltb : K -> K -> bool).
Hypothesis eqb_eq : forall a b, eqb a b = true <-> a = b.
Hypothesis ltb_irrefl : forall a, ltb a a = false.
Hypothesis ltb_trans :
  forall a b c, ltb a b = true -> ltb b c = true -> ltb a c = true.
Hypothesis ltb_total :
  forall a b, eqb a b = false -> ltb a b = false -> ltb b a = true.

Let lt (a b : K) : Prop := ltb a b = true.

Lemma in_insert_key k ks x :
  In x (Pandas.insert_key eqb ltb k ks) <-> x = k \/ In x ks.
Proof.
  induction ks as [|h t IH]; simpl.
  - intuition.
  - destruct (eqb k h) eqn:E.
    + apply eqb_eq in E. subst h. simpl. intuition.
    + destruct (ltb k h); simpl; rewrite ?IH; intuition.
Qed.

Lemma in_group_index ks x : In x (Pandas.group_index eqb ltb ks) <-> In x ks.
Proof.
  induction ks as [|k ks IH]; simpl; [tauto|].
  rewrite in_insert_key, IH. intuition.
Qed.

Lemma insert_key_sorted k ks :
  StronglySorted lt ks -> StronglySorted lt (Pandas.insert_key eqb ltb k ks).
Proof.
  induction 1 as [|h t Hs IH Hh]; simpl.
  - repeat constructor.
  - destruct (eqb k h) eqn:E; [now constructor|].
    destruct (ltb k h) eqn:L.
    + constructor; [now constructor|].
      constructor; [exact L|].
      rewrite Forall_forall in *. intros x Hx.
      eapply ltb_trans; [exact L|]. now apply Hh.
    + constructor; [exact IH|].
      rewrite Forall_forall in *. intros x Hx.
      apply in_insert_key in Hx as [->|Hx]; [|now apply Hh].
      now apply ltb_total.
Qed.

Lemma group_index_sorted ks : StronglySorted lt (Pandas.group_index eqb ltb ks).
Proof.
  induction ks; simpl; [constructor|now apply insert_key_sorted].
Qed.

Lemma sorted_NoDup ks : StronglySorted lt ks -> NoDup ks.
Proof.
  induction 1 as [|h t Hs IH Hh]; constructor; [|exact IH].
  intro Hin. rewrite Forall_forall in Hh. specialize (Hh _ Hin).
  unfold lt in Hh. now rewrite ltb_irrefl in Hh.
Qed.

Lemma group_index_NoDup ks : NoDup (Pandas.group_index eqb ltb ks).
Proof. apply sorted_NoDup, group_index_sorted. Qed.

Context {R : Type} (key : R -> K).

Lemma groupby_keys df :
  map fst (Pandas.groupby eqb ltb key df)
  = Pandas.group_index eqb ltb (map key df).
Proof.
  unfold Pandas.groupby. rewrite map_map. simpl. apply map_id.
Qed.

Lemma in_groupby df g :
  In g (Pandas.groupby eqb ltb key df) <->
  In (fst g) (map key df)
  /\ snd g = filter (fun r => eqb (key r) (fst g)) df.
Proof.
  unfold Pandas.groupby. rewrite in_map_iff. split.
  - intros (k & <- & Hk). simpl. now rewrite in_group_index in Hk.
  - intros [Hk Hg]. exists (fst g). rewrite in_group_index. split; [|exact Hk].
    destruct g; simpl in *. now subst.
Qed.

(** A group of [groupby] has a row. *)
Lemma group_nonempty df k :
  In k (map key df) -> filter (fun r => eqb (key r) k) df <> [].
Proof.
  rewrite in_map_iff. intros (r & <- & Hr) E.
  assert (Hin : In r (filter (fun r' => eqb (key r') (key r)) df)).
  { apply filter_In. split; [exact Hr|]. now apply eqb_eq. }
  rewrite E in Hin. destruct Hin.
Qed.

(** The sizes of the groups of distinct keys that cover a frame add up to
    its length. *)
Lemma group_sizes ks : forall df,
  NoDup ks -> (forall r, In r df -> In (key r) ks) ->
  Pandas.Zsum
    (map (fun k => Z.of_nat (length (filter (fun r => eqb (key r) k) df))) ks)
  = Z.of_nat (length df).
Proof.
  induction ks as [|k ks IH]; intros df Hnd Hcov.
  - destruct df as [|r df]; [reflexivity|].
    destruct (Hcov r (or_introl eq_refl)).
  - inversion Hnd as [|? ? Hk Hnd']; subst. simpl.
    set (rest := filter (fun r => negb (eqb (key r) k)) df).
    assert (Hrest :
      map (fun k' => Z.of_nat (length (filter (fun r => eqb (key r) k') df))) ks
      = map (fun k' => Z.of_nat (length (filter (fun r => eqb (key r) k') rest)))
            ks).
    { apply map_ext_in. intros k' Hk'. f_equal. f_equal. unfold rest.
      clear -eqb_eq Hk Hk'. induction df as [|r df IHd]; simpl; [reflexivity|].
      destruct (eqb (key r) k) eqn:E; simpl.
      - apply eqb_eq in E. destruct (eqb (key r) k') eqn:E'; [|exact IHd].
        apply eqb_eq in E'. congruence.
      - destruct (eqb (key r) k'); simpl; now rewrite IHd. }
    rewrite Hrest, IH; [|exact Hnd'|].
    + unfold rest. clear. induction df as [|r df IHd]; simpl; [reflexivity|].
      destruct (eqb (key r) k); simpl length; lia.
    + intros r Hr. unfold rest in Hr. apply filter_In in Hr as [Hr Hne].
      destruct (Hcov r Hr) as [E|Hin]; [|exact Hin].
      apply negb_true_iff in Hne.
      assert (eqb (key r) k = true) by (apply eqb_eq; congruence).
      congruence.
Qed.
End GroupFacts.

(** The orders of the three kinds of key. *)

Lemma key_eqb_eq (a b : key) : key_eqb a b = true <-> a = b.
Proof.
  destruct a, b; unfold key_eqb; simpl.
  rewrite andb_true_iff, !Z.eqb_eq. split; [intros []|intros [=]]; now subst.
Qed.

Lemma key_ltb_irrefl (a : key) : key_ltb a a = false.
Proof.
  unfold key_ltb. rewrite !Z.ltb_irrefl, andb_false_r. reflexivity.
Qed.

Lemma key_ltb_trans (a b c : key) :
  key_ltb a b = true -> key_ltb b c = true -> key_ltb a c = true.
Proof.
  unfold key_ltb.
  rewrite !orb_true_iff, !andb_true_iff, !Z.ltb_lt, !Z.eqb_eq. lia.
Qed.

Lemma key_ltb_total (a b : key) :
  key_eqb a b = false -> key_ltb a b = false -> key_ltb b a = true.
Proof.
  unfold key_ltb, key_eqb.
  rewrite !orb_true_iff, !orb_false_iff, !andb_true_iff, !andb_false_iff,
          !Z.ltb_lt, !Z.ltb_ge, !Z.eqb_eq, !Z.eqb_neq. lia.
Qed.

Lemma key_index_NoDup (ks : list key) :
  NoDup (Pandas.group_index key_eqb key_ltb ks).
Proof.
  exact (group_index_NoDup key_eqb key_ltb key_eqb_eq key_ltb_irrefl
           key_ltb_trans key_ltb_total ks).
Qed.

Lemma Zltb_total (a b : Z) : (a =? b) = false -> (a <? b) = false -> (b <? a) = true.
Proof. rewrite Z.eqb_neq, Z.ltb_ge, Z.ltb_lt. lia. Qed.

Lemma Zltb_trans (a b c : Z) :
  (a <? b) = true -> (b <? c) = true -> (a <? c) = true.
Proof. rewrite !Z.ltb_lt. lia. Qed.

Lemma string_ltb_irrefl (a : string) : String.ltb a a = false.
Proof.
  unfold String.ltb.
  fold (OrderedTypeEx.String_as_OT.cmp a a).
  now rewrite (proj2 (OrderedTypeEx.String_as_OT.cmp_eq a a) eq_refl).
Qed.

Lemma string_ltb_lt (a b : string) :
  String.ltb a b = true <-> OrderedTypeEx.String_as_OT.lt a b.
Proof.
  rewrite <- OrderedTypeEx.String_as_OT.cmp_lt.
  unfold String.ltb, OrderedTypeEx.String_as_OT.cmp.
  destruct (String.compare a b); intuition discriminate.
Qed.

Lemma string_ltb_trans (a b c : string) :
  String.ltb a b = true -> String.ltb b c = true -> String.ltb a c = true.
Proof.
  rewrite !string_ltb_lt. apply OrderedTypeEx.String_as_OT.lt_trans.
Qed.

Lemma string_ltb_total (a b : string) :
  String.eqb a b = false -> String.ltb a b = false -> String.ltb b a = true.
Proof.
  unfold String.ltb. rewrite (String.compare_antisym a b).
  intros Hne. destruct (String.compare b a) eqn:E; simpl; try easy.
  apply String.compare_eq_iff in E. subst.
  now rewrite String.eqb_refl in Hne.
Qed.

(** * The Sales Aggregator *)

Section Aggregator.
Import DownloadData.

Lemma concat_all_transactions batches selected :
  concat (all_transactions batches selected) = matching batches selected.
Proof.
  unfold all_transactions, matching.
  induction batches as [|b bs IH]; simpl; [reflexivity|].
  rewrite filter_app, <- IH.
  destruct (filter _ b) as [|t ts] eqn:E; simpl; reflexivity.
Qed.

Lemma aggregate_keys df :
  map row_key (rows (DataLoader.aggregate_sales_by_product df))
  = Pandas.group_index key_eqb key_ltb (map txn_key df).
Proof.
  unfold DataLoader.aggregate_sales_by_product. simpl.
  rewrite map_map. unfold row_key. simpl.
  rewrite <- (groupby_keys key_eqb key_ltb txn_key df).
  apply map_ext. now intros [[a d] g].
Qed.

Lemma aggregate_row df r :
  In r (rows (DataLoader.aggregate_sales_by_product df)) ->
  In (row_key r) (map txn_key df)
  /\ total_revenue r = Pandas.Qsum (prices_of (row_key r) df)
  /\ avg_price r = Pandas.Qmean (prices_of (row_key r) df)
  /\ units_sold r = Z.of_nat (length (prices_of (row_key r) df)).
Proof.
  unfold DataLoader.aggregate_sales_by_product. simpl.
  rewrite in_map_iff. intros (g & <- & Hg).
  apply (in_groupby key_eqb key_ltb key_eqb_eq) in Hg as [Hk Hrows].
  unfold row_key, prices_of. simpl.
  rewrite <- surjective_pairing, <- Hrows. auto.
Qed.

Lemma prices_of_nonempty df k :
  In k (map txn_key df) -> (0 < length (prices_of k df))%nat.
Proof.
  intros Hk. unfold prices_of. rewrite length_map.
  pose proof (group_nonempty key_eqb key_eqb_eq txn_key df k Hk) as Hne.
  destruct (filter _ df); [congruence|simpl; lia].
Qed.

Lemma units_sum df :
  Pandas.Zsum (map units_sold (rows (DataLoader.aggregate_sales_by_product df)))
  = Z.of_nat (length df).
Proof.
  unfold DataLoader.aggregate_sales_by_product, Pandas.groupby. simpl.
  rewrite !map_map. simpl.
  rewrite <- (group_sizes key_eqb key_eqb_eq txn_key
                (Pandas.group_index key_eqb key_ltb (map txn_key df)) df).
  - f_equal. apply map_ext. intros k. now rewrite length_map.
  - apply key_index_NoDup.
  - intros r Hr. apply in_group_index; [apply key_eqb_eq|].
    now apply in_map.
Qed.
End Aggregator.

Lemma aggregate_Some batches selected :
  matching batches selected <> [] ->
  DownloadData.aggregate batches selected
  = Some (DataLoader.aggregate_sales_by_product (matching batches selected)).
Proof.
  intros Hne. unfold DownloadData.aggregate.
  pose proof (concat_all_transactions batches selected) as Hcat.
  destruct (DownloadData.all_transactions batches selected) as [|df dfs].
  - simpl in Hcat. congruence.
  - now rewrite Hcat.
Qed.

(** C1, as the code has it. Whatever the split of the transactions into
    batches, when at least one row is of a selected article the Sales
    Aggregator returns one row per distinct (article_id, date) key of the
    selected rows of all batches, no key twice, whose total_revenue is the
    sum of the prices of the key, whose avg_price is their mean and whose
    units_sold is their number. Three transactions of article 108775001 on
    2024-01-01 (day 19723) at 10, 10 and 12, met in two batches, give the
    single row (32, 32/3, 3). *)
Theorem aggregate_one_row_per_key :
  (forall (batches : list (list Transaction)) (selected : list Z),
     let txns := matching batches selected in
     txns <> [] ->
     exists out : SalesFrame,
       DownloadData.aggregate batches selected = Some out
       /\ NoDup (map row_key (rows out))
       /\ (forall k, In k (map row_key (rows out)) <-> In k (map txn_key txns))
       /\ (forall r, In r (rows out) ->
             let prices := prices_of (row_key r) txns in
             (0 < length prices)%nat
             /\ total_revenue r == Pandas.Qsum prices
             /\ avg_price r
                == Pandas.Qsum prices / inject_Z (Z.of_nat (length prices))
             /\ units_sold r = Z.of_nat (length prices)))
  /\ DownloadData.aggregate
       [ [mkTransaction 108775001 19723 10; mkTransaction 7 19723 5];
         [mkTransaction 108775001 19723 10; mkTransaction 108775001 19723 12] ]
       [108775001]
     = Some (mkSalesFrame
               ["article_id"; "date"; "total_revenue"; "avg_price";
                "units_sold"]%string
               [mkSalesRow 108775001 19723 32 (32 # 3) 3]).
Proof.
  split; [|vm_compute; reflexivity].
  intros batches selected txns Hne.
  exists (DataLoader.aggregate_sales_by_product txns).
  split; [now apply aggregate_Some|]. split; [|split].
  - rewrite aggregate_keys. apply key_index_NoDup.
  - intros k. rewrite aggregate_keys. apply in_group_index, key_eqb_eq.
  - intros r Hr. cbv zeta.
    destruct (aggregate_row _ _ Hr) as (Hk & Ht & Ha & Hu).
    split; [now apply prices_of_nonempty|].
    rewrite Ht, Ha, Hu. unfold Pandas.Qmean.
    repeat split; reflexivity.
Qed.

(** The two selected products of [three_batches]: three keys, each once. *)
Lemma aggregate_one_row_per_key_witness :
  exists out : SalesFrame,
    DownloadData.aggregate three_batches [108775001; 108775003] = Some out
    /\ NoDup (map row_key (rows out))
    /\ (forall k, In k (map row_key (rows out)) <->
                  In k [(108775001, 19723); (108775003, 19723);
                        (108775001, 19724)]).
Proof.
  destruct (proj1 aggregate_one_row_per_key three_batches
              [108775001; 108775003])
    as (out & Hout & Hnd & Hkeys & _).
  - vm_compute. discriminate.
  - exists out. repeat split; [exact Hout|exact Hnd|apply Hkeys|apply Hkeys].
Defined.

(** C1, as stated, fails where no row is of a selected article: the
    aggregator has no frame to concatenate and returns nothing. *)
Lemma aggregate_of_no_row :
  matching [[]; [mkTransaction 7 19723 5]] [108775001] = []
  /\ DownloadData.aggregate [[]; [mkTransaction 7 19723 5]] [108775001] = None.
Proof.
  split; reflexivity.
Qed.

(** C9, as the code has it. When at least one transaction row is of a
    selected article, the units_sold of the rows of the aggregate add up to
    the number of such rows over all batches. *)
Theorem aggregate_units_total :
  forall (batches : list (list Transaction)) (selected : list Z),
    matching batches selected <> [] ->
    exists out : SalesFrame,
      DownloadData.aggregate batches selected = Some out
      /\ Pandas.Zsum (map units_sold (rows out))
         = Z.of_nat (length (matching batches selected)).
Proof.
  intros batches selected Hne.
  exists (DataLoader.aggregate_sales_by_product (matching batches selected)).
  split; [now apply aggregate_Some|apply units_sum].
Qed.

(** Four selected rows in two batches, on two days. *)
Lemma aggregate_units_total_witness :
  exists out : SalesFrame,
    DownloadData.aggregate three_batches [108775001; 108775002; 108775003]
    = Some out
    /\ Pandas.Zsum (map units_sold (rows out)) = 4.
Proof.
  apply (aggregate_units_total three_batches
           [108775001; 108775002; 108775003]).
  vm_compute. discriminate.
Defined.

(** C9, as stated, fails with an empty selected set: no row is counted, and
    the aggregator returns no output whose units could add up to zero. *)
Lemma aggregate_of_empty_selection :
  length (matching three_batches []) = 0%nat
  /\ DownloadData.aggregate three_batches [] = None.
Proof.
  split; reflexivity.
Qed.

(** * The invariant of a sales row *)

Section ListFacts.
Context {A B T : Type}.

Lemma map_flat_map (g : B -> T) (f : A -> list B) l :
  map g (flat_map f l) = flat_map (fun a => map g (f a)) l.
Proof.
  induction l as [|a l IH]; simpl; [reflexivity|].
  now rewrite map_app, IH.
Qed.

(** Lists with distinct tags, each duplicate-free, append to a
    duplicate-free list. *)
Lemma NoDup_flat_map (f : A -> list B) (tagA : A -> T) (tag : B -> T) l :
  NoDup (map tagA l) ->
  (forall a, NoDup (f a)) ->
  (forall a b, In b (f a) -> tag b = tagA a) ->
  NoDup (flat_map f l).
Proof.
  intros Hl Hf Htag. induction l as [|a l IH]; simpl; [constructor|].
  inversion Hl as [|? ? Ha Hl']; subst.
  apply NoDup_app; [apply Hf|now apply IH|].
  intros b Hb Hin. apply in_flat_map in Hin as (a' & Ha' & Hb').
  apply Ha. apply Htag in Hb, Hb'. rewrite <- Hb, Hb'.
  now apply in_map.
Qed.

Lemma map_snd_combine (l : list A) (l' : list B) :
  length l = length l' -> map snd (combine l l') = l'.
Proof.
  revert l'. induction l as [|a l IH]; intros [|b l']; simpl;
    try discriminate; [reflexivity|].
  intros [= H]. now rewrite IH.
Qed.

(** With distinct keys, the group of a key is one row. *)
Lemma group_singleton (eqb : T -> T -> bool) (key : A -> T) :
  (forall a b, eqb a b = true <-> a = b) ->
  forall df k, NoDup (map key df) -> In k (map key df) ->
  exists r, In r df /\ key r = k
            /\ filter (fun r' => eqb (key r') k) df = [r].
Proof.
  intros Heq df k. induction df as [|r df IH]; simpl; [easy|].
  intros Hnd Hin. inversion Hnd as [|? ? Hr Hnd']; subst.
  destruct (eqb (key r) k) eqn:E.
  - apply Heq in E. exists r. repeat split; auto. f_equal.
    clear -Heq E Hr. induction df as [|r' df IH]; simpl; [reflexivity|].
    simpl in Hr. destruct (eqb (key r') k) eqn:E'.
    + apply Heq in E'. exfalso. apply Hr. left. congruence.
    + apply IH. tauto.
  - destruct Hin as [Hk|Hin].
    + apply Heq in Hk. congruence.
    + destruct (IH Hnd' Hin) as (r' & Hr' & Hk' & Hf).
      exists r'. auto.
Qed.
End ListFacts.

Lemma inject_Z_nonzero (z : Z) : z <> 0 -> ~ inject_Z z == 0.
Proof. unfold Qeq. simpl. lia. Qed.

Section RowInvariant.
Import DownloadData.

Lemma aggregate_rows_ok df r :
  In r (rows (DataLoader.aggregate_sales_by_product df)) -> row_ok r.
Proof.
  intros Hr. destruct (aggregate_row _ _ Hr) as (Hk & Ht & Ha & Hu).
  pose proof (prices_of_nonempty _ _ Hk) as Hpos.
  unfold row_ok. rewrite Ht, Ha, Hu. unfold Pandas.Qmean.
  split; [lia|].
  field. apply inject_Z_nonzero. lia.
Qed.

Lemma in_product_records g start i id r :
  In r (product_records g start i id) ->
  r_article_id r = id
  /\ (exists n, r_t_dat r = start + Z.of_nat n)
  /\ 0 < units r.
Proof.
  unfold product_records. rewrite in_flat_map. intros (n & _ & Hr).
  match type of Hr with
  | In _ (if ?c then _ else _) => destruct c eqn:Hc
  end; [|destruct Hr].
  destruct Hr as [<-|[]]. simpl.
  apply Z.ltb_lt in Hc. eauto.
Qed.

Lemma product_records_keys g start i id :
  NoDup (map record_key (product_records g start i id)).
Proof.
  unfold product_records. rewrite map_flat_map.
  apply (NoDup_flat_map _ (fun n => start + Z.of_nat n) snd).
  - generalize (seq_NoDup 121 0). generalize (seq 0 121).
    induction 1 as [|n l Hn Hl IH]; simpl; constructor; [|exact IH].
    rewrite in_map_iff. intros (m & Hm & Hin).
    assert (m = n) by lia. now subst.
  - intros n.
    match goal with
    | |- NoDup (map _ (if ?c then _ else _)) => destruct c
    end; simpl; repeat constructor. simpl. tauto.
  - intros n k.
    match goal with
    | |- In _ (map _ (if ?c then _ else _)) -> _ => destruct c
    end; simpl; [|tauto].
    now intros [<-|[]].
Qed.

Lemma in_sample_records g now ids r :
  In r (sample_records g now ids) ->
  In (r_article_id r) ids /\ 0 < units r.
Proof.
  unfold sample_records. rewrite in_flat_map. intros ([i id] & Hp & Hr).
  apply in_product_records in Hr as (-> & _ & Hu). simpl.
  split; [|exact Hu]. now apply in_combine_r in Hp.
Qed.

Lemma sample_records_keys g now ids :
  NoDup ids -> NoDup (map record_key (sample_records g now ids)).
Proof.
  intros Hnd. unfold sample_records. rewrite map_flat_map.
  apply (NoDup_flat_map _ snd fst).
  - rewrite map_snd_combine; [exact Hnd|apply length_seq].
  - intros p. apply product_records_keys.
  - intros p k. rewrite in_map_iff. intros (r & <- & Hr).
    apply in_product_records in Hr as (Hid & _). exact Hid.
Qed.

Lemma sample_rows_ok g now ids fr r :
  NoDup ids ->
  sample_aggregate (sample_records g now ids) = Some fr ->
  In r (rows fr) -> row_ok r.
Proof.
  intros Hnd. unfold sample_aggregate.
  pose proof (sample_records_keys g now ids Hnd) as Hkeys.
  assert (Hunits : forall x, In x (sample_records g now ids) -> 0 < units x)
    by (intros x Hx; now apply in_sample_records in Hx).
  destruct (sample_records g now ids) as [|r0 rs] eqn:E; [discriminate|].
  rewrite <- E in *. clear E. intros [= <-]. simpl.
  rewrite in_map_iff. intros (grp & <- & Hg).
  apply (in_groupby key_eqb key_ltb key_eqb_eq) in Hg as [Hk Hrows].
  destruct (group_singleton key_eqb record_key key_eqb_eq _ _ Hkeys Hk)
    as (x & Hx & _ & Hone).
  rewrite Hone in Hrows. specialize (Hunits x Hx).
  unfold row_ok. simpl. rewrite Hrows. simpl. unfold Pandas.Qmean. simpl.
  split; [lia|]. rewrite Z.add_0_r. field.
Qed.

Lemma head_NoDup (n : nat) (l : list Z) : NoDup l -> NoDup (firstn n l).
Proof.
  intros H. rewrite <- (firstn_skipn n l) in H.
  now apply NoDup_app_remove_r in H.
Qed.

Lemma generated_rows_ok g now products_df fr r :
  NoDup (map article_id products_df) ->
  generate_sample_sales_for_products g now products_df = Some fr ->
  In r (rows fr) -> row_ok r.
Proof.
  intros Hnd. unfold generate_sample_sales_for_products, Pandas.head.
  apply sample_rows_ok.
  destruct (200 <? length products_df)%nat; [|exact Hnd].
  rewrite <- firstn_map. now apply head_NoDup.
Qed.
End RowInvariant.

Lemma sample_products_NoDup :
  NoDup (map article_id DownloadData.sample_products_df).
Proof.
  simpl. repeat constructor; simpl; intuition discriminate.
Qed.

Lemma Zsum_ge_one (xs : list Z) :
  xs <> [] -> (forall x, In x xs -> 0 < x) -> 1 <= Pandas.Zsum xs.
Proof.
  destruct xs as [|x xs]; [congruence|]. intros _ H. simpl.
  assert (Hx : 0 < x) by (apply H; now left).
  assert (Hs : 0 <= Pandas.Zsum xs).
  { clear Hx. induction xs as [|y ys IH]; simpl; [lia|].
    assert (0 < y) by (apply H; right; now left).
    assert (0 <= Pandas.Zsum ys).
    { apply IH. intros z [<-|Hz]; apply H; [now left|right; now right]. }
    lia. }
  lia.
Qed.

(** A generated row counts a unit or more, whatever the catalog. *)
Lemma sample_rows_units g now ids fr r :
  DownloadData.sample_aggregate (DownloadData.sample_records g now ids)
  = Some fr ->
  In r (rows fr) -> 1 <= units_sold r.
Proof.
  unfold DownloadData.sample_aggregate.
  assert (Hunits : forall x, In x (DownloadData.sample_records g now ids) ->
                             0 < DownloadData.units x)
    by (intros x Hx; now apply in_sample_records in Hx).
  destruct (DownloadData.sample_records g now ids) as [|r0 rs] eqn:E;
    [discriminate|].
  rewrite <- E in *. clear E. intros [= <-]. simpl.
  rewrite in_map_iff. intros (grp & <- & Hg). simpl.
  apply (in_groupby key_eqb key_ltb key_eqb_eq) in Hg as [Hk Hrows].
  rewrite Hrows. apply Zsum_ge_one.
  - pose proof (group_nonempty key_eqb key_eqb_eq DownloadData.record_key
                  _ _ Hk) as Hne.
    destruct (filter _ _); [congruence|discriminate].
  - intros u Hu. apply in_map_iff in Hu as (x & <- & Hx).
    apply filter_In in Hx as [Hx _]. now apply Hunits.
Qed.

(** C3, as the code has it. Every row of the sales table a run saves, be
    it aggregated from transactions or generated, counts at least one unit.
    Its total_revenue is avg_price * units_sold (floats are exact rationals:
    the tolerance is zero) whenever the run downloaded a transaction file,
    or the article ids of the catalog are distinct: the generators make one
    record per catalog row and day, and two catalog rows of one article
    share a row of the table. *)
Theorem persisted_rows_ok :
  forall (e : DownloadData.Env) (saved : DownloadData.Store) (r : SalesRow),
    DownloadData.main e = Some saved ->
    In r (rows (DownloadData.sales saved)) ->
    1 <= units_sold r
    /\ (NoDup (map article_id (catalog e))
        \/ DownloadData.downloaded_count (DownloadData.transaction_files e)
           <> 0%nat ->
        total_revenue r == avg_price r * inject_Z (units_sold r)).
Proof.
  intros e saved r Hmain Hr.
  assert (Hok : forall P : Prop, row_ok r ->
            1 <= units_sold r
            /\ (P -> total_revenue r
                     == avg_price r * inject_Z (units_sold r))).
  { intros P [Hu Heq]. split; [exact Hu|]. intros _. exact Heq. }
  unfold DownloadData.main in Hmain.
  destruct (DownloadData.try_download_from_s3 e) as [st|] eqn:Htry.
  - injection Hmain as ->.
    unfold DownloadData.try_download_from_s3 in Htry.
    unfold catalog.
    destruct (DownloadData.articles_file e) as [[articles_df|]|];
      try discriminate;
      [|destruct (DownloadData.transaction_files e); discriminate].
    unfold DataLoader.create_product_index in Htry.
    assert (Hsample :
              DownloadData.process_sample e articles_df = Some saved ->
              1 <= units_sold r
              /\ (NoDup (map article_id articles_df) ->
                  total_revenue r
                  == avg_price r * inject_Z (units_sold r))).
    { unfold DownloadData.process_sample.
      destruct (DownloadData.generate_sample_sales_for_products _ _ _)
        as [fr|] eqn:G; [|discriminate].
      intros [= E]. rewrite <- E in Hr. simpl in Hr. split.
      - unfold DownloadData.generate_sample_sales_for_products in G.
        exact (sample_rows_units _ _ _ _ _ G Hr).
      - intros Hnd. now apply (generated_rows_ok _ _ _ _ _ Hnd G). }
    destruct (DownloadData.transaction_files e) as [|f fs].
    { destruct (Hsample Htry) as [Hu Heq]. split; [exact Hu|].
      intros [Hnd|Hcount]; [now apply Heq|].
      exfalso. apply Hcount. reflexivity. }
    destruct (Nat.eqb_spec (DownloadData.downloaded_count (f :: fs)) 0)
      as [Hzero|_].
    { destruct (Hsample Htry) as [Hu Heq]. split; [exact Hu|].
      intros [Hnd|Hcount]; [now apply Heq|]. congruence. }
    apply Hok.
    destruct (DownloadData.pyarrow e).
    + unfold DownloadData.process_dataset in Htry.
      destruct (DownloadData.rank _ _ _ _); [|discriminate].
      unfold DownloadData.aggregate in Htry.
      destruct (DownloadData.all_transactions _ _); [discriminate|].
      injection Htry as <-. simpl in Hr.
      now apply aggregate_rows_ok in Hr.
    + unfold DownloadData.process_first_file in Htry.
      destruct f; [|discriminate].
      injection Htry as <-. simpl in Hr.
      now apply aggregate_rows_ok in Hr.
  - apply Hok. unfold DownloadData.create_sample_data in Hmain.
    destruct (DownloadData.sample_aggregate _) as [fr|] eqn:G; [|discriminate].
    injection Hmain as <-. simpl in Hr.
    exact (sample_rows_ok _ _ _ _ _ sample_products_NoDup G Hr).
Qed.

(** The invariant on the row a run over [real_env] saves. *)
Lemma persisted_rows_ok_witness :
  1 <= 3 /\ (32 == (32 # 3) * inject_Z 3)%Q.
Proof.
  destruct (persisted_rows_ok real_env
              (DownloadData.mkStore [shoes]
                 (mkSalesFrame
                    ["article_id"; "date"; "total_revenue"; "avg_price";
                     "units_sold"]%string
                    [mkSalesRow 108775001 19723 32 (32 # 3) 3]))
              (mkSalesRow 108775001 19723 32 (32 # 3) 3))
    as [Hunits Hrevenue].
  - vm_compute. reflexivity.
  - simpl. left. reflexivity.
  - split; [exact Hunits|]. apply Hrevenue. left.
    simpl. repeat constructor; simpl; intuition discriminate.
Defined.

(** C3, as stated, fails on a catalog that lists an article twice. The run
    finds the catalog and no transaction file, and generates the sales of
    each catalog row: on day 19680 the first row sells 6 units at 20 and the
    second 13 units at 30. The two records share the row of the article and
    the day, whose avg_price is the mean 25 of the two prices, whose
    units_sold is 19 and whose total_revenue is 510, not 25 * 19 = 475. *)
Lemma duplicate_ids_break_the_invariant :
  exists (saved : DownloadData.Store) (r : SalesRow),
    DownloadData.main duplicate_env = Some saved
    /\ In r (rows (DownloadData.sales saved))
    /\ s_article_id r = 108775001 /\ date r = 19680
    /\ units_sold r = 19
    /\ avg_price r == 25
    /\ total_revenue r == 510
    /\ ~ total_revenue r == avg_price r * inject_Z (units_sold r).
Proof.
  eexists. eexists. split; [vm_compute; reflexivity|].
  split; [left; reflexivity|]. cbn [s_article_id date units_sold avg_price
                                    total_revenue].
  repeat split; try reflexivity; try (vm_compute; reflexivity).
  vm_compute. discriminate.
Qed.

(** * The Revenue Ranker *)

Section NLargestFacts.
Context {R : Type} (value : R -> Q).

Let ge (a b : R) : Prop := (value b <= value a)%Q.

(** The rows whose value is [v]. *)
Let tied (v : Q) (r : R) : bool := Qeq_bool (value r) v.

Lemma insert_desc_perm r rs :
  Permutation (Pandas.insert_desc value r rs) (r :: rs).
Proof.
  induction rs as [|h t IH]; simpl; [reflexivity|].
  destruct (Qle_bool (value h) (value r)); [reflexivity|].
  rewrite IH. apply perm_swap.
Qed.

Lemma sort_desc_perm df : Permutation (Pandas.sort_desc value df) df.
Proof.
  induction df as [|r df IH]; simpl; [reflexivity|].
  rewrite insert_desc_perm. now constructor.
Qed.

Lemma insert_desc_sorted r rs :
  StronglySorted ge rs -> StronglySorted ge (Pandas.insert_desc value r rs).
Proof.
  induction 1 as [|h t Hs IH Hh]; simpl.
  - repeat constructor.
  - destruct (Qle_bool (value h) (value r)) eqn:E.
    + apply Qle_bool_iff in E.
      constructor; [now constructor|].
      constructor; [exact E|].
      rewrite Forall_forall in *. intros x Hx. unfold ge.
      eapply Qle_trans; [apply (Hh x Hx)|exact E].
    + constructor; [exact IH|].
      rewrite Forall_forall in *. intros x Hx.
      apply (Permutation_in _ (insert_desc_perm r t)) in Hx.
      destruct Hx as [<-|Hx]; [|now apply Hh].
      unfold ge. apply Qlt_le_weak, Qnot_le_lt.
      intro Hle. apply Qle_bool_iff in Hle. congruence.
Qed.

Lemma sort_desc_sorted df : StronglySorted ge (Pandas.sort_desc value df).
Proof.
  induction df; simpl; [constructor|now apply insert_desc_sorted].
Qed.

(** Stability: among the rows of one value the order of the frame is kept. *)
Lemma insert_desc_tied v r rs :
  filter (tied v) (Pandas.insert_desc value r rs) = filter (tied v) (r :: rs).
Proof.
  induction rs as [|h t IH]; [reflexivity|].
  simpl Pandas.insert_desc.
  destruct (Qle_bool (value h) (value r)) eqn:E; [reflexivity|].
  change (filter (tied v) (h :: Pandas.insert_desc value r t))
    with (if tied v h then h :: filter (tied v) (Pandas.insert_desc value r t)
          else filter (tied v) (Pandas.insert_desc value r t)).
  rewrite IH. simpl.
  destruct (tied v h) eqn:Hh, (tied v r) eqn:Hr; try reflexivity.
  exfalso. unfold tied in *. apply Qeq_bool_iff in Hh, Hr.
  assert (Hle : (value h <= value r)%Q) by (rewrite Hh, Hr; apply Qle_refl).
  apply Qle_bool_iff in Hle. congruence.
Qed.

Lemma sort_desc_tied v df :
  filter (tied v) (Pandas.sort_desc value df) = filter (tied v) df.
Proof.
  induction df as [|r df IH]; [reflexivity|].
  simpl Pandas.sort_desc. rewrite insert_desc_tied. simpl. now rewrite IH.
Qed.

Lemma sorted_app_ge (l1 l2 : list R) :
  StronglySorted ge (l1 ++ l2) ->
  forall a b, In a l1 -> In b l2 -> (value b <= value a)%Q.
Proof.
  induction l1 as [|x l1 IH]; simpl; [tauto|].
  intros Hs a b [<-|Ha] Hb.
  - inversion Hs as [|? ? _ Hall]; subst. rewrite Forall_forall in Hall.
    apply Hall, in_or_app. now right.
  - inversion Hs; subst. now apply IH.
Qed.

Lemma sorted_app_l (l1 l2 : list R) :
  StronglySorted ge (l1 ++ l2) -> StronglySorted ge l1.
Proof.
  induction l1 as [|x l1 IH]; simpl; [constructor|].
  intros Hs. inversion Hs as [|? ? Hs' Hall]; subst.
  constructor; [now apply IH|].
  rewrite Forall_forall in *. intros y Hy. apply Hall, in_or_app. now left.
Qed.

Lemma nlargest_incl n df r : In r (Pandas.nlargest value n df) -> In r df.
Proof.
  unfold Pandas.nlargest. intros H.
  apply (Permutation_in _ (sort_desc_perm df)).
  rewrite <- (firstn_skipn n (Pandas.sort_desc value df)).
  apply in_or_app. now left.
Qed.

(** What [nlargest] returns: the first rows of the frame in descending
    order of the value, no row beyond them larger than one of them, equal
    values in frame order. *)
Lemma nlargest_spec n df :
  let top := Pandas.nlargest value n df in
  let rest := skipn n (Pandas.sort_desc value df) in
  length top = Nat.min n (length df)
  /\ StronglySorted ge top
  /\ Permutation (top ++ rest) df
  /\ (forall a b, In a top -> In b rest -> (value b <= value a)%Q)
  /\ (forall v, filter (tied v) df
                = filter (tied v) top ++ filter (tied v) rest).
Proof.
  intros top rest. subst top rest. unfold Pandas.nlargest.
  pose proof (sort_desc_sorted df) as Hs.
  rewrite <- (firstn_skipn n (Pandas.sort_desc value df)) in Hs.
  repeat split.
  - rewrite length_firstn. f_equal.
    apply Permutation_length, sort_desc_perm.
  - now apply sorted_app_l in Hs.
  - rewrite firstn_skipn. apply sort_desc_perm.
  - now apply sorted_app_ge.
  - intros v. rewrite <- filter_app, firstn_skipn. symmetry.
    apply sort_desc_tied.
Qed.
End NLargestFacts.

(** ** Step 1 *)

Lemma isin_In (x : Z) (xs : list Z) : Pandas.isin x xs = true <-> In x xs.
Proof.
  unfold Pandas.isin. rewrite existsb_exists. split.
  - intros (y & Hy & E). apply Z.eqb_eq in E. now subst.
  - intros H. exists x. split; [exact H|apply Z.eqb_refl].
Qed.

Lemma isin_not_In (x : Z) (xs : list Z) : Pandas.isin x xs = false <-> ~ In x xs.
Proof.
  rewrite <- isin_In. destruct (Pandas.isin x xs); intuition congruence.
Qed.

Lemma Qsum_app (xs ys : list Q) :
  Pandas.Qsum (xs ++ ys) == Pandas.Qsum xs + Pandas.Qsum ys.
Proof.
  induction xs as [|x xs IH]; simpl; [ring|]. rewrite IH. ring.
Qed.

Lemma revenue_in_app id xs ys :
  revenue_in id (xs ++ ys) == revenue_in id xs + revenue_in id ys.
Proof.
  unfold revenue_in. rewrite filter_app, map_app. apply Qsum_app.
Qed.

Lemma revenue_in_absent id txns :
  ~ In id (map t_article_id txns) -> revenue_in id txns = 0%Q.
Proof.
  unfold revenue_in. induction txns as [|t txns IH]; simpl; [reflexivity|].
  intros H. destruct (Z.eqb_spec (t_article_id t) id) as [E|E]; [tauto|].
  apply IH. tauto.
Qed.

Section RevenuePass.
Import DownloadData.

Lemma dict_get_add d k v k' :
  dict_get (dict_add d k v) k'
  = if k' =? k
    then Some (match dict_get d k with
               | Some v' => (v' + v)%Q
               | None => (0 + v)%Q
               end)
    else dict_get d k'.
Proof.
  induction d as [|[k0 v0] d IH]; simpl.
  - reflexivity.
  - destruct (Z.eqb_spec k k0) as [E|E]; simpl; rewrite ?IH;
      repeat match goal with
             | |- context [?a =? ?b] => destruct (Z.eqb_spec a b); subst
             end;
      congruence.
Qed.

Lemma revenue_of_add d k v k' :
  revenue_of (dict_add d k v) k'
  == revenue_of d k' + (if k' =? k then v else 0).
Proof.
  unfold revenue_of. rewrite dict_get_add.
  destruct (Z.eqb_spec k' k) as [->|Hk]; [|ring].
  destruct (dict_get d k); ring.
Qed.

Lemma dict_has_add d k v k' :
  dict_has (dict_add d k v) k' = dict_has d k' || (k' =? k).
Proof.
  unfold dict_has. rewrite dict_get_add.
  destruct (Z.eqb_spec k' k) as [->|Hk].
  - now rewrite orb_true_r.
  - now rewrite orb_false_r.
Qed.

(** The groups of one batch, added one after the other. *)
Lemma add_groups (batch : list Transaction) (ks : list Z) :
  NoDup ks -> forall d k,
  let d' :=
    fold_left
      (fun d (g : Z * list Transaction) =>
         dict_add d (fst g) (Pandas.Qsum (map price (snd g))))
      (map (fun k' => (k', filter (fun r => t_article_id r =? k') batch)) ks)
      d in
  revenue_of d' k
  == revenue_of d k + (if Pandas.isin k ks then revenue_in k batch else 0)
  /\ dict_has d' k = dict_has d k || Pandas.isin k ks.
Proof.
  induction 1 as [|k0 ks Hk0 Hnd IH]; intros d k; simpl.
  - split; [ring|now rewrite orb_false_r].
  - destruct (IH (dict_add d k0
                    (Pandas.Qsum
                       (map price
                            (filter (fun r => t_article_id r =? k0) batch))))
                 k) as [Hrev Hhas].
    split.
    + rewrite Hrev, revenue_of_add.
      destruct (Z.eqb_spec k k0) as [->|Hk]; simpl.
      * apply isin_not_In in Hk0. rewrite Hk0. unfold revenue_in. ring.
      * ring.
    + rewrite Hhas, dict_has_add. now rewrite orb_assoc.
Qed.

Lemma Z_index_NoDup (ks : list Z) : NoDup (Pandas.group_index Z.eqb Z.ltb ks).
Proof.
  exact (group_index_NoDup Z.eqb Z.ltb Z.eqb_eq Z.ltb_irrefl Zltb_trans
           Zltb_total ks).
Qed.

Lemma add_batch_spec d batch k :
  revenue_of (add_batch d batch) k == revenue_of d k + revenue_in k batch
  /\ dict_has (add_batch d batch) k
     = dict_has d k || Pandas.isin k (map t_article_id batch).
Proof.
  unfold add_batch, Pandas.groupby.
  destruct (add_groups batch _ (Z_index_NoDup (map t_article_id batch)) d k)
    as [Hrev Hhas].
  assert (Hin : Pandas.isin k (Pandas.group_index Z.eqb Z.ltb
                                 (map t_article_id batch))
                = Pandas.isin k (map t_article_id batch)).
  { apply eq_true_iff_eq. rewrite !isin_In. apply in_group_index, Z.eqb_eq. }
  rewrite Hin in Hrev, Hhas. split; [|exact Hhas].
  rewrite Hrev. destruct (Pandas.isin k (map t_article_id batch)) eqn:E.
  - reflexivity.
  - apply isin_not_In in E. rewrite (revenue_in_absent _ _ E). reflexivity.
Qed.

Lemma fold_add_batch batches : forall d k,
  revenue_of (fold_left add_batch batches d) k
  == revenue_of d k + revenue_in k (concat batches)
  /\ dict_has (fold_left add_batch batches d) k
     = dict_has d k || Pandas.isin k (map t_article_id (concat batches)).
Proof.
  induction batches as [|b bs IH]; intros d k; simpl.
  - split; [unfold revenue_in; simpl; ring|now rewrite orb_false_r].
  - destruct (IH (add_batch d b) k) as [Hrev Hhas].
    destruct (add_batch_spec d b k) as [Hrev1 Hhas1].
    split.
    + rewrite Hrev, Hrev1, revenue_in_app. ring.
    + rewrite Hhas, Hhas1, map_app. unfold Pandas.isin.
      now rewrite existsb_app, orb_assoc.
Qed.

(** After the first pass a product has a total exactly when it has a
    transaction, and the total is the sum of the prices of its
    transactions over all batches. *)
Lemma revenue_pass_spec batches k :
  revenue_of (revenue_pass batches) k == revenue_in k (concat batches)
  /\ dict_has (revenue_pass batches) k
     = Pandas.isin k (map t_article_id (concat batches)).
Proof.
  destruct (fold_add_batch batches [] k) as [Hrev Hhas].
  unfold revenue_pass. split; [|exact Hhas].
  rewrite Hrev. unfold revenue_of. simpl. ring.
Qed.

Lemma revenue_pass_nil batches :
  revenue_pass batches = [] -> concat batches = [].
Proof.
  intros E. destruct (concat batches) as [|t ts] eqn:Hc; [reflexivity|].
  destruct (revenue_pass_spec batches (t_article_id t)) as [_ Hhas].
  rewrite E, Hc in Hhas. unfold dict_has, Pandas.isin in Hhas. simpl in Hhas.
  now rewrite Z.eqb_refl in Hhas.
Qed.
End RevenuePass.

(** ** Steps 2 and 3 *)

Lemma in_firstn {A : Type} (n : nat) (l : list A) (x : A) :
  In x (firstn n l) -> In x l.
Proof.
  intros H. rewrite <- (firstn_skipn n l). apply in_or_app. now left.
Qed.

Section Selection.
Import DownloadData.

Lemma merge_revenue_Some products_df d pwr :
  merge_revenue products_df d = Some pwr ->
  pwr = flat_map (fun p => match dict_get d (article_id p) with
                           | Some revenue => [(p, revenue)]
                           | None => []
                           end)
                 products_df.
Proof.
  unfold merge_revenue. destruct d; [discriminate|].
  intros [= <-]. reflexivity.
Qed.

Lemma merge_revenue_products products_df d pwr :
  merge_revenue products_df d = Some pwr ->
  map fst pwr = filter (fun p => dict_has d (article_id p)) products_df.
Proof.
  intros H. rewrite (merge_revenue_Some _ _ _ H). clear H.
  induction products_df as [|p ps IH]; [reflexivity|].
  simpl flat_map. simpl filter. rewrite map_app, IH. unfold dict_has.
  destruct (dict_get d (article_id p)); reflexivity.
Qed.

(** The frame of candidates is the catalog rows with a transaction, in
    catalog order. *)
Lemma merge_candidates batches products_df pwr :
  merge_revenue products_df (revenue_pass batches) = Some pwr ->
  map fst pwr = candidates batches products_df.
Proof.
  intros H. rewrite (merge_revenue_products _ _ _ H). unfold candidates.
  apply filter_ext. intros p. apply revenue_pass_spec.
Qed.

Lemma in_by_product_type pwr g :
  In g (by_product_type pwr) ->
  snd g = filter (fun r => String.eqb (type_of r) (fst g))
                 (filter has_type pwr)
  /\ snd g <> [].
Proof.
  unfold by_product_type. intros Hg.
  apply (in_groupby String.eqb String.ltb String.eqb_eq) in Hg as [Hk Hrows].
  split; [exact Hrows|]. rewrite Hrows.
  now apply (group_nonempty String.eqb String.eqb_eq).
Qed.

Lemma group_incl pwr g r :
  In g (by_product_type pwr) -> In r (snd g) -> In r pwr.
Proof.
  intros Hg Hr. apply in_by_product_type in Hg as [Hrows _].
  rewrite Hrows in Hr. apply filter_In in Hr as [Hr _].
  now apply filter_In in Hr as [Hr _].
Qed.

Lemma category_selection_incl q pwr id :
  In id (category_selection q pwr) -> In id (ids pwr).
Proof.
  unfold category_selection, top_in_category, ids.
  rewrite in_flat_map. intros (g & Hg & Hid).
  apply in_map_iff in Hid as (r & <- & Hr).
  apply nlargest_incl in Hr.
  apply (in_map (fun r => article_id (fst r))).
  now apply (group_incl pwr g).
Qed.

Lemma top_up_incl target pwr selected id :
  In id (top_up target pwr selected) ->
  In id (ids pwr) /\ ~ In id selected.
Proof.
  unfold top_up, Pandas.head, ids. rewrite in_map_iff.
  intros (r & <- & Hr).
  apply in_firstn, filter_In in Hr as [Htop Hnot]. split.
  - apply (in_map (fun r => article_id (fst r))).
    now apply nlargest_incl in Htop.
  - apply negb_true_iff in Hnot. now apply isin_not_In.
Qed.

Lemma select_products_incl q target pwr id :
  In id (select_products q target pwr) -> In id (ids pwr).
Proof.
  unfold select_products. intros Hin. apply in_firstn in Hin.
  destruct (length (category_selection q pwr) <? target)%nat.
  - apply in_app_or in Hin as [Hin|Hin].
    + now apply category_selection_incl in Hin.
    + now apply top_up_incl in Hin.
  - now apply category_selection_incl in Hin.
Qed.

Lemma nodup_length (l : list Z) : (length (nodup Z.eq_dec l) <= length l)%nat.
Proof.
  induction l as [|x l IH]; simpl; [lia|].
  destruct (in_dec Z.eq_dec x l); simpl; lia.
Qed.
End Selection.

Lemma Qsum_pos (xs : list Q) :
  xs <> [] -> (forall x, In x xs -> 0 < x)%Q -> (0 < Pandas.Qsum xs)%Q.
Proof.
  induction xs as [|x xs IH]; [congruence|]. intros _ Hpos. simpl.
  destruct xs as [|y ys].
  - simpl. rewrite Qplus_0_r. apply Hpos. now left.
  - rewrite <- (Qplus_0_r 0). apply Qplus_lt_le_compat.
    + apply Hpos. now left.
    + apply Qlt_le_weak, IH; [discriminate|]. intros z Hz. apply Hpos. now right.
Qed.

Lemma Qsum_nonneg (xs : list Q) :
  (forall x, In x xs -> 0 <= x)%Q -> (0 <= Pandas.Qsum xs)%Q.
Proof.
  induction xs as [|x xs IH]; intros Hpos; simpl; [apply Qle_refl|].
  rewrite <- (Qplus_0_r 0). apply Qplus_le_compat.
  - apply Hpos. now left.
  - apply IH. intros z Hz. apply Hpos. now right.
Qed.

Lemma revenue_in_pos id txns :
  In id (map t_article_id txns) ->
  (forall t, In t txns -> 0 < price t)%Q ->
  (0 < revenue_in id txns)%Q.
Proof.
  intros Hid Hpos. unfold revenue_in. apply Qsum_pos.
  - apply in_map_iff in Hid as (t & <- & Ht).
    intro E. apply map_eq_nil in E.
    assert (Hin : In t (filter (fun t' => t_article_id t' =? t_article_id t)
                               txns))
      by (apply filter_In; split; [exact Ht|apply Z.eqb_refl]).
    rewrite E in Hin. destruct Hin.
  - intros x Hx. apply in_map_iff in Hx as (t & <- & Ht).
    apply filter_In in Ht as [Ht _]. now apply Hpos.
Qed.

Lemma revenue_in_nonneg id txns :
  (forall t, In t txns -> 0 <= price t)%Q -> (0 <= revenue_in id txns)%Q.
Proof.
  intros Hpos. unfold revenue_in. apply Qsum_nonneg.
  intros x Hx. apply in_map_iff in Hx as (t & <- & Ht).
  apply filter_In in Ht as [Ht _]. now apply Hpos.
Qed.

(** C4, as the code has it. Given at least one transaction row, the ranker
    returns a selection whose set has at most targetCount members, each the
    id of a catalog row and of at least one transaction; the revenue summed
    for it is the sum of the prices of its transactions, which is positive
    when all prices are positive and only non-negative when prices may be
    zero. The ranker is a function of its four inputs: it changes nothing. *)
Theorem ranker_selection_sound :
  forall (batches : list (list Transaction)) (products_df : list Product)
         (target_count products_per_category : nat),
    concat batches <> [] ->
    exists selected_products : list Z,
      DownloadData.rank batches products_df target_count
                        products_per_category
      = Some selected_products
      /\ (length (DownloadData.target_set selected_products)
          <= target_count)%nat
      /\ forall id, In id (DownloadData.target_set selected_products) ->
           In id (map article_id products_df)
           /\ (exists t, In t (concat batches) /\ t_article_id t = id)
           /\ revenue_of (DownloadData.revenue_pass batches) id
              == revenue_in id (concat batches)
           /\ ((forall t, In t (concat batches) -> 0 < price t)%Q ->
               (0 < revenue_in id (concat batches))%Q)
           /\ ((forall t, In t (concat batches) -> 0 <= price t)%Q ->
               (0 <= revenue_in id (concat batches))%Q).
Proof.
  intros batches products_df target q Hrows. unfold DownloadData.rank.
  destruct (DownloadData.merge_revenue products_df
              (DownloadData.revenue_pass batches)) as [pwr|] eqn:Hm.
  - eexists. split; [reflexivity|]. split.
    + etransitivity; [apply nodup_length|].
      unfold DownloadData.select_products. apply firstn_le_length.
    + intros id Hid. unfold DownloadData.target_set in Hid.
      apply nodup_In, select_products_incl in Hid.
      unfold DownloadData.ids in Hid. rewrite <- map_map in Hid.
      rewrite (merge_candidates _ _ _ Hm) in Hid.
      apply in_map_iff in Hid as (p & <- & Hp).
      apply filter_In in Hp as [Hp Htx]. apply isin_In in Htx.
      split; [now apply in_map|].
      split.
      { apply in_map_iff in Htx as (t & Ht & Hin). eauto. }
      split; [apply revenue_pass_spec|].
      split; [now apply revenue_in_pos|apply revenue_in_nonneg].
  - exfalso. apply Hrows. unfold DownloadData.merge_revenue in Hm.
    destruct (DownloadData.revenue_pass batches) eqn:E; [|discriminate].
    now apply revenue_pass_nil.
Qed.

(** The selection of two among the three products of [three_batches]. *)
Lemma ranker_selection_sound_witness :
  exists selected_products : list Z,
    DownloadData.rank three_batches three_products 2 1 = Some selected_products
    /\ (length (DownloadData.target_set selected_products) <= 2)%nat.
Proof.
  destruct (ranker_selection_sound three_batches three_products 2 1)
    as (selected & Hrank & Hlen & _).
  - vm_compute. discriminate.
  - exists selected. split; [exact Hrank|exact Hlen].
Defined.

(** C4, as stated, fails: a product whose only sale is at price 0 is
    selected, and its summed revenue is not positive. *)
Lemma ranker_selects_zero_revenue :
  DownloadData.rank [[mkTransaction 108775001 19723 0]] [shoes] 150 10
  = Some [108775001]
  /\ ~ (0 < revenue_in 108775001
               (concat [[mkTransaction 108775001 19723 0]]))%Q.
Proof.
  split; [vm_compute; reflexivity|].
  vm_compute. discriminate.
Qed.

(** ** The selection within a category *)

Lemma filter_filter {A : Type} (f g : A -> bool) (l : list A) :
  filter f (filter g l) = filter (fun x => g x && f x) l.
Proof.
  induction l as [|x l IH]; simpl; [reflexivity|].
  destruct (g x); simpl; [destruct (f x)|]; now rewrite IH.
Qed.

(** C6, as the code has it. The groups of the selection are the candidates
    of each product type, in catalog order. From each group the ranker
    takes [perCategoryQuota] rows (all of them when the group is smaller),
    in descending order of revenue, none of the rows left out having a
    larger revenue than one taken; among rows of equal revenue the ones
    taken are the first in catalog order, whatever their article ids. *)
Theorem top_in_category_spec :
  forall (products_per_category : nat)
         (products_with_revenue : list (Product * Q)),
    Forall
      (fun g : string * list (Product * Q) =>
         snd g
         = filter (fun r => match product_type_name (fst r) with
                            | Some s => String.eqb s (fst g)
                            | None => false
                            end)
                  products_with_revenue
         /\ exists rest,
              let top :=
                DownloadData.top_in_category products_per_category (snd g) in
              let tied (v : Q) (r : Product * Q) :=
                Qeq_bool (DownloadData.revenue r) v in
              length top = Nat.min products_per_category (length (snd g))
              /\ StronglySorted
                   (fun a b => DownloadData.revenue b <= DownloadData.revenue a)%Q
                   top
              /\ Permutation (top ++ rest) (snd g)
              /\ (forall a b, In a top -> In b rest ->
                    (DownloadData.revenue b <= DownloadData.revenue a)%Q)
              /\ (forall v, filter (tied v) (snd g)
                            = filter (tied v) top ++ filter (tied v) rest))
      (DownloadData.by_product_type products_with_revenue).
Proof.
  intros q pwr. apply Forall_forall. intros g Hg.
  apply in_by_product_type in Hg as [Hrows _]. split.
  - rewrite Hrows, filter_filter. apply filter_ext. intros r.
    unfold DownloadData.has_type, DownloadData.type_of.
    destruct (product_type_name (fst r)); reflexivity.
  - exists (skipn q (Pandas.sort_desc DownloadData.revenue (snd g))).
    apply (nlargest_spec DownloadData.revenue q (snd g)).
Qed.

(** C6, as stated, fails: eleven products of one type with the same revenue,
    listed from article 11 down to article 1. The ten selected are 11 .. 2:
    article 1, the smallest id, is left out. Listed in the opposite order,
    the same products give 1 .. 10. *)
Lemma category_ties_follow_catalog_order :
  revenue_in 1 (concat tied_batches) == revenue_in 11 (concat tied_batches)
  /\ option_map (DownloadData.category_selection 10)
       (DownloadData.merge_revenue tied_catalog
          (DownloadData.revenue_pass tied_batches))
     = Some [11; 10; 9; 8; 7; 6; 5; 4; 3; 2]
  /\ option_map (DownloadData.category_selection 10)
       (DownloadData.merge_revenue (rev tied_catalog)
          (DownloadData.revenue_pass tied_batches))
     = Some [1; 2; 3; 4; 5; 6; 7; 8; 9; 10].
Proof.
  split; [vm_compute; reflexivity|].
  split; vm_compute; reflexivity.
Qed.

(** ** The top-up *)

Section DistinctIds.
Context {A B : Type} (f : A -> B).

Lemma NoDup_map_filter (g : A -> bool) (l : list A) :
  NoDup (map f l) -> NoDup (map f (filter g l)).
Proof.
  induction l as [|x l IH]; simpl; [trivial|].
  intros H. inversion H as [|? ? Hx Hl]; subst.
  destruct (g x); simpl; [|now apply IH].
  constructor; [|now apply IH].
  intros Hin. apply Hx. apply in_map_iff in Hin as (y & E & Hy).
  apply filter_In in Hy as [Hy _]. rewrite <- E. now apply in_map.
Qed.

Lemma NoDup_map_firstn (n : nat) (l : list A) :
  NoDup (map f l) -> NoDup (map f (firstn n l)).
Proof.
  intros H. rewrite <- (firstn_skipn n l), map_app in H.
  now apply NoDup_app_remove_r in H.
Qed.

Lemma NoDup_map_eq (l : list A) (a b : A) :
  NoDup (map f l) -> In a l -> In b l -> f a = f b -> a = b.
Proof.
  induction l as [|x l IH]; simpl; [tauto|].
  intros H. inversion H as [|? ? Hx Hl]; subst.
  intros [->|Ha] [->|Hb] E; auto.
  - exfalso. apply Hx. rewrite E. now apply in_map.
  - exfalso. apply Hx. rewrite <- E. now apply in_map.
Qed.

(** Lists that share no element, each duplicate-free, append to a
    duplicate-free list. *)
Lemma NoDup_flat_map_disjoint (h : A -> list B) (l : list A) :
  NoDup l ->
  (forall a, In a l -> NoDup (h a)) ->
  (forall a a' b, In a l -> In a' l -> In b (h a) -> In b (h a') -> a = a') ->
  NoDup (flat_map h l).
Proof.
  induction 1 as [|a l Ha Hl IH]; intros Hh Hdis; simpl; [constructor|].
  apply NoDup_app.
  - apply Hh. now left.
  - apply IH.
    + intros a' Ha'. apply Hh. now right.
    + intros a1 a2 b H1 H2. apply Hdis; now right.
  - intros b Hb Hin. apply in_flat_map in Hin as (a' & Ha' & Hb').
    apply Ha. rewrite (Hdis a a' b); auto. now left. now right.
Qed.
End DistinctIds.

Lemma filter_split_length {A : Type} (f : A -> bool) (l : list A) :
  (length (filter f l) + length (filter (fun x => negb (f x)) l)
   = length l)%nat.
Proof.
  induction l as [|x l IH]; simpl; [reflexivity|].
  destruct (f x); simpl; lia.
Qed.

Lemma sorted_filter {A : Type} (P : A -> A -> Prop) (f : A -> bool)
    (l : list A) :
  StronglySorted P l -> StronglySorted P (filter f l).
Proof.
  induction 1 as [|x l Hs IH Hx]; simpl; [constructor|].
  destruct (f x); [|exact IH].
  constructor; [exact IH|].
  rewrite Forall_forall in *. intros y Hy.
  apply filter_In in Hy as [Hy _]. now apply Hx.
Qed.

(** Taking the first rows that pass a filter: a prefix of the frame is
    enough when it holds that many, or is the whole frame. *)
Lemma firstn_filter_firstn {A : Type} (f : A -> bool) (n m : nat)
    (l : list A) :
  (n <= length (filter f (firstn m l)) \/ length l <= m)%nat ->
  firstn n (filter f (firstn m l)) = firstn n (filter f l).
Proof.
  intros [H|H].
  - transitivity (firstn n (filter f (firstn m l ++ skipn m l)));
      [|now rewrite firstn_skipn].
    rewrite filter_app, firstn_app.
    replace (n - length (filter f (firstn m l)))%nat with 0%nat by lia.
    simpl. now rewrite app_nil_r.
  - now rewrite (firstn_all2 l H).
Qed.

Section TopUp.
Import DownloadData.

Let id_of (r : Product * Q) : Z := article_id (fst r).

Lemma ids_NoDup products_df d pwr :
  NoDup (map article_id products_df) ->
  merge_revenue products_df d = Some pwr ->
  NoDup (ids pwr).
Proof.
  intros Hnd Hm. unfold ids. rewrite <- (map_map fst article_id).
  rewrite (merge_revenue_products _ _ _ Hm).
  now apply NoDup_map_filter.
Qed.

Lemma sort_desc_ids_NoDup pwr :
  NoDup (ids pwr) -> NoDup (ids (Pandas.sort_desc revenue pwr)).
Proof.
  intros H. unfold ids.
  apply (Permutation_NoDup (l := map id_of pwr)); [|exact H].
  apply Permutation_map. symmetry. apply sort_desc_perm.
Qed.

Lemma top_in_category_NoDup q pwr g :
  NoDup (ids pwr) -> In g (by_product_type pwr) ->
  NoDup (ids (top_in_category q (snd g))).
Proof.
  intros Hnd Hg. unfold top_in_category, Pandas.nlargest, ids.
  apply NoDup_map_firstn. apply (sort_desc_ids_NoDup (snd g)).
  apply in_by_product_type in Hg as [-> _].
  unfold ids. now do 2 apply NoDup_map_filter.
Qed.

Lemma category_selection_NoDup q pwr :
  NoDup (ids pwr) -> NoDup (category_selection q pwr).
Proof.
  intros Hnd. unfold category_selection.
  apply NoDup_flat_map_disjoint.
  - apply (NoDup_map_inv fst). unfold by_product_type.
    rewrite (groupby_keys String.eqb String.ltb).
    apply (group_index_NoDup String.eqb String.ltb String.eqb_eq
             string_ltb_irrefl string_ltb_trans string_ltb_total).
  - intros g Hg. exact (top_in_category_NoDup q pwr g Hnd Hg).
  - intros g g' id Hg Hg' Hid Hid'.
    assert (Hrow : forall g0, In g0 (by_product_type pwr) ->
              In id (ids (top_in_category q (snd g0))) ->
              exists r, In r pwr /\ id_of r = id /\ type_of r = fst g0).
    { intros g0 Hg0 H0. apply in_map_iff in H0 as (r & Hr & Hin).
      apply nlargest_incl in Hin. exists r.
      split; [now apply (group_incl pwr g0)|]. split; [exact Hr|].
      apply in_by_product_type in Hg0 as [Hrows _]. rewrite Hrows in Hin.
      apply filter_In in Hin as [_ E]. now apply String.eqb_eq in E. }
    destruct (Hrow g Hg Hid) as (r & Hr & Hi & Ht).
    destruct (Hrow g' Hg' Hid') as (r' & Hr' & Hi' & Ht').
    assert (r = r')
      by (apply (NoDup_map_eq id_of pwr); [exact Hnd|assumption..|congruence]).
    subst r'.
    apply in_by_product_type in Hg as [Hrows _].
    apply in_by_product_type in Hg' as [Hrows' _].
    destruct g as [c rows], g' as [c' rows'].
    simpl fst in *. simpl snd in *. subst c c'.
    rewrite Hrows, Hrows'. reflexivity.
Qed.

(** The rows of a frame with distinct ids whose id is among [selected]. *)
Lemma selected_rows_le (selected : list Z) (l : list (Product * Q)) :
  NoDup (ids l) ->
  (length (filter (fun r => Pandas.isin (id_of r) selected) l)
   <= length selected)%nat.
Proof.
  intros Hnd.
  rewrite <- (length_map id_of (filter _ l)).
  apply NoDup_incl_length; [now apply NoDup_map_filter|].
  intros x Hx. apply in_map_iff in Hx as (r & <- & Hr).
  apply filter_In in Hr as [_ Hr]. now apply isin_In.
Qed.

Lemma selected_rows_eq (selected : list Z) (l : list (Product * Q)) :
  NoDup (ids l) -> NoDup selected -> incl selected (ids l) ->
  length (filter (fun r => Pandas.isin (id_of r) selected) l)
  = length selected.
Proof.
  intros Hnd Hsel Hincl. apply Nat.le_antisymm.
  - now apply selected_rows_le.
  - rewrite <- (length_map id_of (filter _ l)).
    apply NoDup_incl_length; [exact Hsel|].
    intros x Hx. pose proof (Hincl x Hx) as Hin.
    apply in_map_iff in Hin as (r & <- & Hr).
    apply (in_map id_of), filter_In. split; [exact Hr|now apply isin_In].
Qed.
End TopUp.

(** C5, as the code has it. On a catalog of distinct article ids: when the
    per-category selections number fewer than targetCount, the ranker returns them
    followed by the top-up, which takes, from the candidates in descending
    order of revenue, the first not yet selected ones, as many as are missing
    or as there are. No article is selected twice, the selection has
    min(targetCount, number of candidates) members, and no candidate left
    out has a larger revenue than one the top-up added; the candidates are
    the catalog rows with at least one transaction. *)
Theorem top_up_fills_selection :
  forall (batches : list (list Transaction)) (products_df : list Product)
         (target_count products_per_category : nat)
         (products_with_revenue : list (Product * Q)),
    NoDup (map article_id products_df) ->
    DownloadData.merge_revenue products_df (DownloadData.revenue_pass batches)
    = Some products_with_revenue ->
    (length (DownloadData.category_selection products_per_category
                                             products_with_revenue)
     < target_count)%nat ->
    let quota :=
      DownloadData.category_selection products_per_category
                                      products_with_revenue in
    let added_rows :=
      firstn (target_count - length quota)
        (filter (fun r => negb (Pandas.isin (article_id (fst r)) quota))
           (Pandas.sort_desc DownloadData.revenue products_with_revenue)) in
    let added := DownloadData.ids added_rows in
    map fst products_with_revenue = candidates batches products_df
    /\ DownloadData.rank batches products_df target_count
                         products_per_category
       = Some (quota ++ added)
    /\ NoDup (quota ++ added)
    /\ length (quota ++ added)
       = Nat.min target_count (length (candidates batches products_df))
    /\ (forall a c,
          In a added_rows -> In c products_with_revenue ->
          ~ In (article_id (fst c)) (quota ++ added) ->
          (DownloadData.revenue c <= DownloadData.revenue a)%Q).
Proof.
  intros batches products_df target q pwr Hcat Hm Hlt quota added_rows added.
  fold quota in Hlt.
  pose proof (merge_candidates _ _ _ Hm) as Hcand.
  pose proof (ids_NoDup _ _ _ Hcat Hm) as Hids.
  pose proof (category_selection_NoDup q pwr Hids) as Hq_nd. fold quota in Hq_nd.
  set (S := Pandas.sort_desc DownloadData.revenue pwr) in *.
  set (notsel := fun r : Product * Q =>
                   negb (Pandas.isin (article_id (fst r)) quota)) in *.
  set (insel := fun r : Product * Q => Pandas.isin (article_id (fst r)) quota).
  pose proof (sort_desc_ids_NoDup pwr Hids) as HS_nd. fold S in HS_nd.
  assert (HS_len : length S = length pwr)
    by apply Permutation_length, sort_desc_perm.
  assert (Hq_incl : incl quota (DownloadData.ids S)).
  { intros x Hx. apply category_selection_incl in Hx.
    unfold DownloadData.ids in *.
    apply (Permutation_in x
             (Permutation_map _
                (Permutation_sym (sort_desc_perm DownloadData.revenue pwr)))).
    exact Hx. }
  assert (Hsplit : forall l,
            (length (filter insel l) + length (filter notsel l)
             = length l)%nat)
    by (intros l; exact (filter_split_length insel l)).
  assert (Hin_S : length (filter insel S) = length quota)
    by exact (selected_rows_eq quota S HS_nd Hq_nd Hq_incl).
  pose proof (Hsplit S) as HsplitS.
  assert (Hadded : length added
                   = Nat.min (target - length quota) (length pwr - length quota)).
  { unfold added, added_rows, DownloadData.ids.
    rewrite length_map, length_firstn. lia. }
  assert (Htop : DownloadData.top_up target pwr quota = added).
  { unfold DownloadData.top_up, Pandas.head, Pandas.nlargest, added,
      added_rows.
    fold S notsel. f_equal. apply firstn_filter_firstn.
    destruct (Nat.le_gt_cases (length S) (target + 50)) as [Hle|Hgt];
      [now right|left].
    pose proof (Hsplit (firstn (target + 50) S)) as Hsp.
    assert (Hle : (length (filter insel (firstn (target + 50) S))
                   <= length quota)%nat).
    { apply (selected_rows_le quota). unfold DownloadData.ids.
      now apply NoDup_map_firstn. }
    rewrite length_firstn in Hsp. lia. }
  assert (Hlen : length (quota ++ added) = Nat.min target (length pwr)).
  { rewrite length_app, Hadded. lia. }
  split; [exact Hcand|]. split; [|split; [|split]].
  - unfold DownloadData.rank. rewrite Hm. f_equal.
    unfold DownloadData.select_products. fold quota.
    rewrite (proj2 (Nat.ltb_lt _ _) Hlt), Htop.
    apply firstn_all2. rewrite Hlen. apply Nat.le_min_l.
  - apply NoDup_app; [exact Hq_nd| |].
    + unfold added, added_rows, DownloadData.ids.
      apply NoDup_map_firstn, NoDup_map_filter. exact HS_nd.
    + intros x Hx Hadd. unfold added, added_rows, DownloadData.ids in Hadd.
      apply in_map_iff in Hadd as (r & <- & Hr).
      apply in_firstn, filter_In in Hr as [_ Hr].
      apply negb_true_iff, isin_not_In in Hr. contradiction.
  - rewrite Hlen, <- Hcand, length_map. reflexivity.
  - intros a c Ha Hc Hout.
    assert (Hc' : In c (filter notsel S)).
    { apply filter_In. split.
      - apply (Permutation_in c
                 (Permutation_sym (sort_desc_perm DownloadData.revenue pwr))).
        exact Hc.
      - apply negb_true_iff, isin_not_In. intro Hq. apply Hout.
        apply in_or_app. now left. }
    pose proof (sorted_filter _ notsel _
                  (sort_desc_sorted DownloadData.revenue pwr)) as Hsorted.
    fold S in Hsorted.
    rewrite <- (firstn_skipn (target - length quota) (filter notsel S))
      in Hc', Hsorted.
    apply in_app_or in Hc' as [Hc'|Hc'].
    + exfalso. apply Hout. apply in_or_app. right.
      unfold added, DownloadData.ids.
      apply (in_map (fun r => article_id (fst r))). exact Hc'.
    + exact (sorted_app_ge DownloadData.revenue _ _ Hsorted a c Ha Hc').
Qed.

(** Three candidates, a quota of one per type and a target of three: the two
    quota selections are topped up with the remaining product. *)
Lemma top_up_fills_selection_witness :
  DownloadData.rank three_batches three_products 3 1
  = Some [108775002; 108775003; 108775001]
  /\ length [108775002; 108775003; 108775001]
     = Nat.min 3 (length (candidates three_batches three_products)).
Proof.
  destruct (top_up_fills_selection three_batches three_products 3 1
              [(shoes, 0 + 10 + 12); (jacket, 0 + 25); (sneakers, 0 + 30)]%Q)
    as (_ & Hrank & _ & Hlen & _).
  - simpl. repeat constructor; simpl; intuition discriminate.
  - vm_compute. reflexivity.
  - vm_compute. lia.
  - split; [exact Hrank|exact Hlen].
Defined.

(** C5, as stated, fails on a catalog that lists an article more than
    once. The catalog has 200 rows of article 1, of one type, and a row of
    article 2 without a type; article 1 is sold for 10 and article 2 for 5.
    The category selection is the ten best rows of the type, ten times
    article 1. The top-up looks for the 140 that are missing among the 200
    rows of the largest revenue, all of them rows of article 1, which is
    selected already: it adds nothing and article 2 is left out, in a
    selection of 10 members where the candidates number 201. *)
Lemma duplicate_ids_starve_the_top_up :
  exists products_with_revenue : list (Product * Q),
    DownloadData.merge_revenue repeated_catalog
      (DownloadData.revenue_pass repeated_batches)
    = Some products_with_revenue
    /\ (length (DownloadData.category_selection 10 products_with_revenue)
        < 150)%nat
    /\ DownloadData.rank repeated_batches repeated_catalog 150 10
       = Some (repeat 1 10)
    /\ length (candidates repeated_batches repeated_catalog) = 201%nat
    /\ In (mkProduct 2 None None)
          (candidates repeated_batches repeated_catalog)
    /\ ~ In 2 (repeat 1 10)
    /\ length (repeat 1 10)
       <> Nat.min 150 (length (candidates repeated_batches repeated_catalog)).
Proof.
  eexists. split; [vm_compute; reflexivity|].
  split; [vm_compute; lia|]. split; [vm_compute; reflexivity|].
  split; [vm_compute; reflexivity|].
  split; [unfold candidates; apply filter_In; split;
          [apply in_or_app; right; now left|vm_compute; reflexivity]|].
  split; [simpl; intuition discriminate|].
  vm_compute. discriminate.
Qed.

(** * The product table and the sales table of a run *)

Section Consistency.
Import DownloadData.

(** On the dataset path the product table is filtered: it holds exactly the
    articles of the sales table. *)
Lemma dataset_products_match_sales products_df batches saved id :
  process_dataset products_df batches = Some saved ->
  In id (map article_id (products saved))
  <-> In id (map s_article_id (rows (sales saved))).
Proof.
  unfold process_dataset, rank.
  destruct (merge_revenue products_df (revenue_pass batches))
    as [pwr|] eqn:Hm; [|discriminate].
  set (selected := select_products products_per_category target_count pwr).
  unfold aggregate.
  pose proof (concat_all_transactions batches (target_set selected)) as Hcat.
  destruct (all_transactions batches (target_set selected)) as [|df dfs];
    [discriminate|].
  rewrite Hcat. intros [= <-]. simpl products. simpl sales. split.
  - rewrite in_map_iff. intros (p & <- & Hp).
    apply filter_In in Hp as [_ Hp]. now apply isin_In.
  - intros Hid.
    assert (Hsel : In id selected).
    { apply in_map_iff in Hid as (r & <- & Hr).
      apply aggregate_row in Hr as (Hk & _).
      apply in_map_iff in Hk as (t & Ek & Ht).
      unfold matching in Ht. apply filter_In in Ht as [_ Ht].
      apply isin_In, nodup_In in Ht.
      unfold row_key, txn_key in Ek. injection Ek as E1 E2.
      now rewrite <- E1. }
    apply select_products_incl in Hsel. unfold ids in Hsel.
    rewrite <- map_map, (merge_revenue_products _ _ _ Hm) in Hsel.
    apply in_map_iff in Hsel as (p & <- & Hp).
    apply filter_In in Hp as [Hp _].
    apply in_map, filter_In. split; [exact Hp|now apply isin_In].
Qed.

(** The generator makes sales for the sampled products only. *)
Lemma generated_ids g now products_df fr r :
  generate_sample_sales_for_products g now products_df = Some fr ->
  In r (rows fr) ->
  In (s_article_id r)
     (map article_id
          (if (200 <? length products_df)%nat
           then Pandas.head 200 products_df else products_df)).
Proof.
  unfold generate_sample_sales_for_products, sample_aggregate.
  destruct (sample_records g now _) as [|r0 rs] eqn:E; [discriminate|].
  rewrite <- E. intros [= <-]. simpl. rewrite in_map_iff.
  intros (grp & <- & Hg). simpl.
  apply (in_groupby key_eqb key_ltb key_eqb_eq) in Hg as [Hk _].
  apply in_map_iff in Hk as (x & <- & Hx).
  now apply in_sample_records in Hx as [Hx _].
Qed.
End Consistency.

(** C2 at a failing input. The run finds 201 products and no transaction
    file: article 201 is in the product table it saves, and has no row in the
    sales table saved with it. *)
Theorem sample_path_keeps_products_without_sales :
  exists saved,
    DownloadData.main no_transactions_env = Some saved
    /\ In 201 (map article_id (DownloadData.products saved))
    /\ ~ In 201 (map s_article_id (rows (DownloadData.sales saved))).
Proof.
  assert (Hmain : forall fr,
            DownloadData.generate_sample_sales_for_products flat_rng 19800
              catalog_201 = Some fr ->
            DownloadData.main no_transactions_env
            = Some (DownloadData.mkStore catalog_201 fr)).
  { intros fr G.
    unfold DownloadData.main, DownloadData.try_download_from_s3,
      DownloadData.process_sample, DataLoader.create_product_index,
      no_transactions_env.
    cbn [DownloadData.articles_file DownloadData.transaction_files
         DownloadData.rng DownloadData.now].
    now rewrite G. }
  destruct (DownloadData.generate_sample_sales_for_products flat_rng 19800
              catalog_201) as [fr|] eqn:G.
  - exists (DownloadData.mkStore catalog_201 fr).
    split; [now apply Hmain|].
    cbn [DownloadData.products DownloadData.sales]. split.
    + apply isin_In. vm_compute. reflexivity.
    + rewrite in_map_iff. intros (r & E & Hr).
      pose proof (generated_ids _ _ _ _ _ G Hr) as Hin.
      rewrite E in Hin. apply isin_In in Hin.
      vm_compute in Hin. discriminate.
  - exfalso. unfold DownloadData.generate_sample_sales_for_products in G.
    unfold DownloadData.sample_aggregate in G.
    destruct (DownloadData.sample_records _ _ _) as [|r0 rs] eqn:E;
      [|discriminate].
    assert (Hin : In (DownloadData.mkSampleRecord 1 19680 (2000 # 100) 6)
                     (DownloadData.sample_records flat_rng 19800
                        (map article_id (Pandas.head 200 catalog_201)))).
    { unfold DownloadData.sample_records. apply in_flat_map.
      exists (0%nat, 1). split; [vm_compute; left; reflexivity|].
      unfold DownloadData.product_records. apply in_flat_map.
      exists 0%nat. split; [vm_compute; left; reflexivity|].
      vm_compute. left. reflexivity. }
    change (if (200 <? length catalog_201)%nat
            then Pandas.head 200 catalog_201 else catalog_201)
      with (Pandas.head 200 catalog_201) in E.
    rewrite E in Hin. destruct Hin.
Qed.

(** * Provenance of the saved tables *)

Lemma sample_aggregate_columns l fr :
  DownloadData.sample_aggregate l = Some fr -> columns fr = sample_columns.
Proof.
  unfold DownloadData.sample_aggregate. destruct l; [discriminate|].
  now intros [= <-].
Qed.

(** C7, as the code has it. No run saves a mark of provenance: a run
    leaves the two tables and nothing else, and its sales table has the five
    columns article_id, date, total_revenue, avg_price and units_sold and no
    other, whether its frame was aggregated or generated. A generated table
    lists avg_price before total_revenue, an aggregated one after it; a
    generated run saves the product table it was given, unchanged. A
    generated table and an aggregated table of the same frame differ in
    that the one holds ids and dates as text ([str(article_id)],
    ['%Y-%m-%d']) where the other holds the dataset's values, and in
    nothing else; the query service, which reads ids through [astype(str)]
    and dates through [pd.to_datetime], loads the same rows from both. *)
Theorem no_provenance_flag :
  (forall (e : DownloadData.Env) (saved : DownloadData.Store),
     DownloadData.main e = Some saved ->
     Permutation (columns (DownloadData.sales saved)) real_columns)
  /\ (forall (e : DownloadData.Env) (products_df : list Product)
             (saved : DownloadData.Store),
        DownloadData.process_sample e products_df = Some saved ->
        columns (DownloadData.sales saved) = sample_columns
        /\ DownloadData.products saved = products_df)
  /\ (forall (g : DownloadData.Rng) (now : Z) (products_df : list Product)
             (sales_agg : SalesFrame),
        DownloadData.create_sample_data g now = Some (products_df, sales_agg) ->
        columns sales_agg = sample_columns)
  /\ (forall transactions_df : list Transaction,
        columns (DataLoader.aggregate_sales_by_product transactions_df)
        = real_columns)
  /\ (forall (e : DownloadData.Env) (t : Saved.Tables),
        Saved.written e = Some t ->
        Permutation (Saved.sales_columns (Saved.sales_table t)) real_columns)
  /\ (forall (e : DownloadData.Env) (saved : DownloadData.Store)
             (t : Saved.Tables),
        DownloadData.try_download_from_s3 e = Some saved ->
        Saved.generates e = true ->
        Saved.written e = Some t ->
        Saved.sales_table t = Saved.generated (DownloadData.sales saved)
        /\ Saved.products_table t = Saved.write_products Saved.IntId (catalog e))
  /\ (forall fr : SalesFrame,
        Forall2 same_sale_written
          (Saved.sales_cells (Saved.generated fr))
          (Saved.sales_cells (Saved.aggregated fr)))
  /\ (forall fr : SalesFrame,
        map Saved.sale_row (Saved.sales_cells (Saved.generated fr))
        = map Saved.sale_row (Saved.sales_cells (Saved.aggregated fr)))
  /\ (forall t : Saved.Tables,
        AnalyticsService.load_data (Saved.data_dir t)
        = AnalyticsService.Ok
            {| AnalyticsService.products_df :=
                 map Saved.product_row (Saved.products_table t);
               AnalyticsService.sales_df :=
                 map Saved.sale_row
                     (Saved.sales_cells (Saved.sales_table t)) |}).
Proof.
  assert (Hperm : Permutation sample_columns real_columns)
    by (unfold sample_columns, real_columns; do 2 constructor; apply perm_swap).
  assert (Hsample : forall e products_df saved,
            DownloadData.process_sample e products_df = Some saved ->
            columns (DownloadData.sales saved) = sample_columns
            /\ DownloadData.products saved = products_df).
  { intros e products_df saved. unfold DownloadData.process_sample,
      DownloadData.generate_sample_sales_for_products.
    destruct (DownloadData.sample_aggregate _) as [fr|] eqn:G; [|discriminate].
    intros [= <-]. simpl. split; [|reflexivity].
    now apply sample_aggregate_columns in G. }
  assert (Hcreate : forall g now products_df sales_agg,
            DownloadData.create_sample_data g now
            = Some (products_df, sales_agg) ->
            columns sales_agg = sample_columns).
  { intros g now products_df sales_agg. unfold DownloadData.create_sample_data.
    destruct (DownloadData.sample_aggregate _) as [fr|] eqn:G; [|discriminate].
    intros [= _ <-]. now apply sample_aggregate_columns in G. }
  assert (Hmain : forall e saved,
            DownloadData.main e = Some saved ->
            Permutation (columns (DownloadData.sales saved)) real_columns).
  { intros e saved Hmain. unfold DownloadData.main in Hmain.
    destruct (DownloadData.try_download_from_s3 e) as [st|] eqn:Htry.
    - injection Hmain as ->.
      unfold DownloadData.try_download_from_s3 in Htry.
      destruct (DownloadData.articles_file e) as [[articles_df|]|];
        try discriminate;
        [|destruct (DownloadData.transaction_files e); discriminate].
      destruct (DownloadData.transaction_files e) as [|f fs].
      { apply Hsample in Htry as [-> _]. exact Hperm. }
      destruct (Nat.eqb _ 0).
      { apply Hsample in Htry as [-> _]. exact Hperm. }
      destruct (DownloadData.pyarrow e).
      + unfold DownloadData.process_dataset in Htry.
        destruct (DownloadData.rank _ _ _ _); [|discriminate].
        unfold DownloadData.aggregate in Htry.
        destruct (DownloadData.all_transactions _ _); [discriminate|].
        injection Htry as <-. reflexivity.
      + unfold DownloadData.process_first_file in Htry.
        destruct f; [|discriminate].
        injection Htry as <-. reflexivity.
    - destruct (DownloadData.create_sample_data _ _) as [[p fr]|] eqn:G;
        [|discriminate].
      injection Hmain as <-. simpl. apply Hcreate in G. now rewrite G. }
  split; [exact Hmain|]. split; [exact Hsample|]. split; [exact Hcreate|].
  split; [reflexivity|].
  split; [|split; [|split; [|split]]].
  - intros e t Hw.
    assert (Hsaved : exists saved,
              DownloadData.main e = Some saved
              /\ Saved.sales_columns (Saved.sales_table t)
                 = columns (DownloadData.sales saved)).
    { unfold Saved.written in Hw. unfold DownloadData.main.
      destruct (DownloadData.try_download_from_s3 e) as [st|].
      - injection Hw as <-. exists st. split; [reflexivity|]. simpl.
        destruct (Saved.generates e); reflexivity.
      - destruct (DownloadData.create_sample_data _ _) as [[p fr]|];
          [|discriminate].
        injection Hw as <-. eexists. split; reflexivity. }
    destruct Hsaved as (saved & Hm & ->). now apply (Hmain e).
  - intros e saved t Htry Hgen Hw. unfold Saved.written in Hw.
    rewrite Htry, Hgen in Hw. injection Hw as <-. simpl.
    split; [reflexivity|]. f_equal.
    unfold Saved.generates in Hgen. apply Nat.eqb_eq in Hgen.
    unfold DownloadData.try_download_from_s3 in Htry. unfold catalog.
    destruct (DownloadData.articles_file e) as [[articles_df|]|];
      try discriminate;
      [|destruct (DownloadData.transaction_files e); discriminate].
    unfold DataLoader.create_product_index in Htry.
    destruct (DownloadData.transaction_files e) as [|f fs].
    { now apply Hsample in Htry. }
    rewrite Hgen in Htry. simpl in Htry. now apply Hsample in Htry.
  - intros fr. unfold Saved.generated, Saved.aggregated, Saved.write_sales.
    simpl. induction (rows fr) as [|r l IH]; simpl; constructor; [|exact IH].
    exists (s_article_id r), (date r). simpl.
    repeat split; reflexivity.
  - intros fr. unfold Saved.generated, Saved.aggregated, Saved.write_sales.
    simpl. rewrite !map_map. reflexivity.
  - intros t. reflexivity.
Qed.

Lemma all2b_spec {A B : Type} (f : A -> B -> bool) (P : A -> B -> Prop) :
  (forall x y, f x y = true -> P x y) ->
  forall xs ys, all2b f xs ys = true -> Forall2 P xs ys.
Proof.
  intros Hf. induction xs as [|x xs IH]; intros [|y ys]; simpl;
    try discriminate.
  - constructor.
  - rewrite andb_true_iff. intros [Hxy Hrest].
    constructor; [now apply Hf|now apply IH].
Qed.

Lemma same_sale_written_b_spec (g a : Saved.SaleCells) :
  same_sale_written_b g a = true -> same_sale_written g a.
Proof.
  unfold same_sale_written_b, same_sale_written.
  destruct (Saved.c_article_id g) as [|s]; [discriminate|].
  destruct (Saved.c_article_id a) as [id|]; [|discriminate].
  destruct (Saved.c_date g) as [|d]; [discriminate|].
  destruct (Saved.c_date a) as [d'|]; [|discriminate].
  rewrite !andb_true_iff, String.eqb_eq, !Z.eqb_eq, !Qeq_bool_iff.
  intros ((((-> & ->) & Hr) & Hp) & Hu). exists id, d'. auto 10.
Qed.

(** C7, as stated, fails. A run that generates the sales of a one-product
    catalog and a run that aggregates them from a transaction file leave the
    same product table and two sales tables under the same five column
    names, none of them a flag. Row for row the sales tables hold the same
    numbers, with the article and the day as text in the generated one and
    as the dataset's values in the other; nothing else tells them apart, and
    the query service loads the same product rows and the same sales rows
    from the two runs. *)
Lemma generated_sales_read_like_aggregated_sales :
  exists real synthetic : Saved.Tables,
    Saved.written steady_env = Some real
    /\ Saved.written sample_env = Some synthetic
    /\ Saved.generates steady_env = false
    /\ Saved.generates sample_env = true
    /\ Saved.products_table real = Saved.products_table synthetic
    /\ Permutation (Saved.sales_columns (Saved.sales_table real))
                   (Saved.sales_columns (Saved.sales_table synthetic))
    /\ Forall2 same_sale_written
         (Saved.sales_cells (Saved.sales_table synthetic))
         (Saved.sales_cells (Saved.sales_table real))
    /\ exists from_real from_synthetic : AnalyticsService.Service,
         AnalyticsService.load_data (Saved.data_dir real)
         = AnalyticsService.Ok from_real
         /\ AnalyticsService.load_data (Saved.data_dir synthetic)
            = AnalyticsService.Ok from_synthetic
         /\ AnalyticsService.products_df from_real
            = AnalyticsService.products_df from_synthetic
         /\ Forall2 same_sale_read
              (AnalyticsService.sales_df from_real)
              (AnalyticsService.sales_df from_synthetic).
Proof.
  assert (Hruns :
    match Saved.written steady_env, Saved.written sample_env with
    | Some real, Some synthetic =>
        Saved.products_table real = Saved.products_table synthetic
        /\ Saved.sales_columns (Saved.sales_table real) = real_columns
        /\ Saved.sales_columns (Saved.sales_table synthetic) = sample_columns
        /\ all2b same_sale_written_b
             (Saved.sales_cells (Saved.sales_table synthetic))
             (Saved.sales_cells (Saved.sales_table real)) = true
    | _, _ => False
    end) by (vm_compute; repeat split; reflexivity).
  destruct (Saved.written steady_env) as [real|]; [|destruct Hruns].
  destruct (Saved.written sample_env) as [synthetic|]; [|destruct Hruns].
  destruct Hruns as (Hp & Hc & Hc' & Hcells).
  apply (all2b_spec _ _ same_sale_written_b_spec) in Hcells.
  exists real, synthetic.
  split; [reflexivity|]. split; [reflexivity|].
  split; [reflexivity|]. split; [reflexivity|].
  split; [exact Hp|]. split.
  { rewrite Hc, Hc'. unfold sample_columns, real_columns.
    do 2 constructor. apply perm_swap. }
  split; [exact Hcells|].
  eexists. eexists. split; [reflexivity|]. split; [reflexivity|].
  cbn [AnalyticsService.products_df AnalyticsService.sales_df].
  split; [now rewrite Hp|].
  induction Hcells as [|g a gs aas Hga _ IH]; simpl; constructor;
    [|exact IH].
  destruct Hga as (id & d & Hgi & Hai & Hgd & Had & Hr & _ & Hu).
  unfold same_sale_read, Saved.sale_row. simpl.
  rewrite Hgi, Hai, Hgd, Had. simpl.
  repeat split; [symmetry; exact Hr|symmetry; exact Hu].
Qed.

(** * The query service *)

Section SortValuesFacts.
Context {R : Type} (value : R -> Z).

Let le (a b : R) : Prop := value a <= value b.

Lemma insert_asc_perm r rs :
  Permutation (Pandas.insert_asc value r rs) (r :: rs).
Proof.
  induction rs as [|h t IH]; simpl; [reflexivity|].
  destruct (value r <=? value h); [reflexivity|].
  rewrite IH. apply perm_swap.
Qed.

Lemma sort_values_perm df : Permutation (Pandas.sort_values value df) df.
Proof.
  induction df as [|r df IH]; simpl; [reflexivity|].
  rewrite insert_asc_perm. now constructor.
Qed.

Lemma insert_asc_sorted r rs :
  StronglySorted le rs -> StronglySorted le (Pandas.insert_asc value r rs).
Proof.
  induction 1 as [|h t Hs IH Hh]; simpl.
  - repeat constructor.
  - destruct (Z.leb_spec (value r) (value h)) as [E|E].
    + constructor; [now constructor|].
      constructor; [exact E|].
      rewrite Forall_forall in *. intros x Hx. specialize (Hh x Hx).
      unfold le in *. lia.
    + constructor; [exact IH|].
      rewrite Forall_forall in *. intros x Hx.
      apply (Permutation_in _ (insert_asc_perm r t)) in Hx.
      destruct Hx as [<-|Hx]; [unfold le; lia|now apply Hh].
Qed.

Lemma sort_values_sorted df : StronglySorted le (Pandas.sort_values value df).
Proof.
  induction df; simpl; [constructor|now apply insert_asc_sorted].
Qed.
End SortValuesFacts.

Lemma Qsum_perm (xs ys : list Q) :
  Permutation xs ys -> Pandas.Qsum xs == Pandas.Qsum ys.
Proof.
  induction 1 as [|x l l' _ IH|x y l|l l' l'' _ IH1 _ IH2]; simpl.
  - reflexivity.
  - now rewrite IH.
  - ring.
  - now rewrite IH1.
Qed.

Lemma Zsum_perm (xs ys : list Z) :
  Permutation xs ys -> Pandas.Zsum xs = Pandas.Zsum ys.
Proof.
  induction 1; simpl; lia.
Qed.

Lemma sorted_map {A B : Type} (f : A -> B) (P : B -> B -> Prop) (l : list A) :
  StronglySorted (fun a b => P (f a) (f b)) l -> StronglySorted P (map f l).
Proof.
  induction 1 as [|x l Hs IH Hx]; simpl; constructor; [exact IH|].
  rewrite Forall_forall in *. intros y Hy.
  apply in_map_iff in Hy as (a & <- & Ha). now apply Hx.
Qed.

Section History.
Import AnalyticsService.

Lemma max_date_spec first others :
  In (max_date first others) (map sale_date (first :: others))
  /\ forall r, In r (first :: others) -> sale_date r <= max_date first others.
Proof.
  induction others as [|r rs [IHin IHle]]; simpl.
  - split; [now left|]. intros r [<-|[]]. lia.
  - unfold max_date in *. simpl.
    destruct (Z.max_spec (sale_date r)
                (fold_right (fun r m => Z.max (sale_date r) m)
                            (sale_date first) rs)) as [[Hlt ->]|[Hge ->]].
    + split.
      * simpl in IHin. tauto.
      * intros x [<-|[<-|Hx]].
        -- apply IHle. now left.
        -- lia.
        -- apply IHle. now right.
    + split; [tauto|].
      intros x [<-|[<-|Hx]].
      * specialize (IHle first (or_introl eq_refl)). lia.
      * lia.
      * specialize (IHle x (or_intror Hx)). lia.
Qed.
End History.

(** C10, as the code has it. For an article with a sales row and a [days]
    within the range of the date arithmetic ([timedelta] holds it, and the
    timestamps of the column hold it and the start of the window),
    [get_sales_history] returns the rows of the article dated no earlier
    than [days] before the article's own latest sale, and no other row, in
    ascending order of date; the window is set from that latest sale, no
    clock is read. The totals are the revenue and the units of the rows
    returned. *)
Theorem sales_history_window :
  forall (day_limit : Z) (self : AnalyticsService.Service)
         (article_id : string) (days latest : Z),
    latest_sale self article_id = Some latest ->
    Z.abs days <= 999999999 ->
    Z.abs days <= day_limit ->
    Z.abs (latest - days) <= day_limit ->
    let product_sales :=
      filter (fun r => String.eqb (AnalyticsService.sale_article_id r)
                                  article_id)
             (AnalyticsService.sales_df self) in
    exists history : AnalyticsService.SalesHistory,
      AnalyticsService.get_sales_history day_limit self article_id days
      = AnalyticsService.Ok history
      /\ In latest (map AnalyticsService.sale_date product_sales)
      /\ (forall r, In r product_sales -> AnalyticsService.sale_date r <= latest)
      /\ Permutation
           (AnalyticsService.data history)
           (map AnalyticsService.data_point
                (filter (fun r => latest - days <=? AnalyticsService.sale_date r)
                        product_sales))
      /\ StronglySorted
           (fun a b => AnalyticsService.dp_date a <= AnalyticsService.dp_date b)
           (AnalyticsService.data history)
      /\ AnalyticsService.h_total_revenue history
         == Pandas.Qsum (map AnalyticsService.dp_revenue
                             (AnalyticsService.data history))
      /\ AnalyticsService.total_units history
         = Pandas.Zsum (map AnalyticsService.dp_units_sold
                            (AnalyticsService.data history))
      /\ AnalyticsService.h_total_revenue history
         == Pandas.Qsum
              (map AnalyticsService.sale_total_revenue
                   (filter (fun r => latest - days
                                     <=? AnalyticsService.sale_date r)
                           product_sales))
      /\ AnalyticsService.total_units history
         = Pandas.Zsum
             (map AnalyticsService.sale_units_sold
                  (filter (fun r => latest - days
                                    <=? AnalyticsService.sale_date r)
                          product_sales)).
Proof.
  intros day_limit self article_id days latest Hlatest Htd Hspan Hstart.
  cbv zeta. unfold latest_sale in Hlatest.
  unfold AnalyticsService.get_sales_history.
  destruct (AnalyticsService.sales_df self) as [|s0 ss] eqn:Hdf;
    [discriminate|].
  set (product_sales :=
         filter (fun r => String.eqb (AnalyticsService.sale_article_id r)
                                     article_id)
                (s0 :: ss)) in *.
  clearbody product_sales. clear Hdf.
  destruct product_sales as [|first others]; [discriminate|].
  injection Hlatest as <-.
  destruct (max_date_spec first others) as [Hmax_in Hmax_le].
  unfold AnalyticsService.timedelta, AnalyticsService.timestamp_sub,
    AnalyticsService.in_bounds.
  rewrite (proj2 (Z.leb_le _ _) Htd). cbn [AnalyticsService.bind].
  rewrite (proj2 (Z.leb_le _ _) Hspan), (proj2 (Z.leb_le _ _) Hstart).
  cbn [andb AnalyticsService.bind].
  eexists. split; [reflexivity|].
  split; [exact Hmax_in|]. split; [exact Hmax_le|].
  cbn [AnalyticsService.data AnalyticsService.h_total_revenue
       AnalyticsService.total_units].
  split; [|split; [|split; [|split; [|split]]]].
  - apply Permutation_map, sort_values_perm.
  - apply sorted_map. apply sort_values_sorted.
  - rewrite map_map. reflexivity.
  - rewrite map_map. reflexivity.
  - apply Qsum_perm, Permutation_map, sort_values_perm.
  - apply Zsum_perm, Permutation_map, sort_values_perm.
Qed.

(** The last 90 days of article 108775001 in [small_service]: its sale of
    day 19600 is out of the window, the other product's row is no part of
    it. *)
Lemma sales_history_window_witness :
  exists history : AnalyticsService.SalesHistory,
    AnalyticsService.get_sales_history 106751 small_service "108775001" 90
    = AnalyticsService.Ok history
    /\ Permutation
         (AnalyticsService.data history)
         [AnalyticsService.mkDataPoint 19730 40 4;
          AnalyticsService.mkDataPoint 19723 32 3].
Proof.
  destruct (sales_history_window 106751 small_service "108775001" 90 19730)
    as (history & Hget & _ & _ & Hperm & _).
  - vm_compute. reflexivity.
  - lia.
  - lia.
  - lia.
  - exists history. split; [exact Hget|exact Hperm].
Defined.

(** C10, as stated, fails: a [days] of 1000000000 is more than [timedelta]
    holds, and the call raises instead of returning rows. *)
Lemma sales_history_days_overflow :
  AnalyticsService.get_sales_history 106751 small_service "108775001"
                                     1000000000
  = AnalyticsService.Raise AnalyticsService.OverflowError
  /\ Routes.get_product_sales 106751 small_service "108775001" 1000000000
     = Routes.Http500.
Proof.
  split; reflexivity.
Qed.

(** ** Missing tables and absent articles *)

Section NotFound.
Import AnalyticsService Routes.

Lemma load_data_total data_dir : exists frames, load_data data_dir = Ok frames.
Proof.
  unfold load_data, try_except, bind.
  destruct (products_parquet data_dir), (sales_parquet data_dir); simpl;
    eauto.
Qed.

Lemma history_without_rows day_limit (self : Service) article_id days :
  sales_df self = []
  \/ ~ In article_id (map sale_article_id (sales_df self)) ->
  exists history,
    get_sales_history day_limit self article_id days = Ok history
    /\ data history = [].
Proof.
  unfold get_sales_history. intros H.
  destruct (sales_df self) as [|s0 ss] eqn:Hdf; [eauto|].
  destruct H as [H|H]; [discriminate|].
  destruct (filter _ (s0 :: ss)) as [|first others] eqn:Hf; [eauto|].
  exfalso. apply H.
  assert (Hin : In first (filter (fun r => String.eqb (sale_article_id r)
                                                     article_id)
                                 (s0 :: ss)))
    by (rewrite Hf; now left).
  apply filter_In in Hin as [Hin E]. apply String.eqb_eq in E.
  rewrite <- E. now apply in_map.
Qed.

Lemma product_absent (self : Service) article_id :
  products_df self = []
  \/ ~ In article_id (map p_article_id (products_df self)) ->
  get_product_by_id self article_id = None.
Proof.
  unfold get_product_by_id. intros H.
  destruct (products_df self) as [|p0 ps] eqn:Hdf; [reflexivity|].
  destruct H as [H|H]; [discriminate|].
  destruct (filter _ (p0 :: ps)) as [|product others] eqn:Hf; [reflexivity|].
  exfalso. apply H.
  assert (Hin : In product (filter (fun p => String.eqb (p_article_id p)
                                                       article_id)
                                   (p0 :: ps)))
    by (rewrite Hf; now left).
  apply filter_In in Hin as [Hin E]. apply String.eqb_eq in E.
  rewrite <- E. now apply in_map.
Qed.
End NotFound.

(** C8, as the code has it. [load_data] never fails: when a table file is
    missing (the pipeline has not run) or cannot be read, it leaves the
    service with two empty tables. The endpoints then answer 404, not the
    500 of an unhandled exception: the sales and forecast endpoints whenever
    the sales table is empty or has no row of the requested article, the
    segments endpoint whenever the product table is empty or lacks the
    article. *)
Theorem missing_tables_serve_not_found :
  (forall data_dir : AnalyticsService.DataDir,
     exists frames, AnalyticsService.load_data data_dir
                    = AnalyticsService.Ok frames)
  /\ (forall data_dir : AnalyticsService.DataDir,
        AnalyticsService.products_parquet data_dir = AnalyticsService.Missing
        \/ AnalyticsService.sales_parquet data_dir = AnalyticsService.Missing ->
        AnalyticsService.load_data data_dir
        = AnalyticsService.Ok AnalyticsService.empty_frames)
  /\ (forall (day_limit : Z) (analytics : AnalyticsService.Service)
             (article_id : string) (days : Z),
        AnalyticsService.sales_df analytics = []
        \/ ~ In article_id (map AnalyticsService.sale_article_id
                                (AnalyticsService.sales_df analytics)) ->
        Routes.get_product_sales day_limit analytics article_id days
        = Routes.Http404 Routes.no_sales
        /\ forall (F : Type)
                  (generate_forecast :
                     string -> list AnalyticsService.DataPoint -> Z -> F),
             Routes.get_product_forecast day_limit generate_forecast
                                         analytics article_id days
             = Routes.Http404 Routes.no_sales)
  /\ (forall (S : Type)
             (customer_segments : string -> AnalyticsService.ProductRow -> S)
             (analytics : AnalyticsService.Service) (article_id : string),
        AnalyticsService.products_df analytics = []
        \/ ~ In article_id (map AnalyticsService.p_article_id
                                (AnalyticsService.products_df analytics)) ->
        Routes.get_customer_segments customer_segments analytics article_id
        = Routes.Http404 "Product not found"%string).
Proof.
  split; [exact load_data_total|]. split; [|split].
  - intros data_dir H. unfold AnalyticsService.load_data.
    destruct H as [-> | ->]; simpl;
      [|rewrite andb_false_r]; reflexivity.
  - intros day_limit analytics article_id days H. split.
    + unfold Routes.get_product_sales.
      destruct (history_without_rows day_limit analytics article_id days H)
        as (history & -> & ->).
      reflexivity.
    + intros F generate_forecast. unfold Routes.get_product_forecast.
      destruct (history_without_rows day_limit analytics article_id 90 H)
        as (history & -> & ->).
      reflexivity.
  - intros S customer_segments analytics article_id H.
    unfold Routes.get_customer_segments.
    now rewrite (product_absent analytics article_id H).
Qed.

(** C8, as stated, fails: with no table on disk [load_data] raises nothing,
    it returns empty tables. *)
Lemma load_data_without_tables_returns :
  AnalyticsService.load_data
    {| AnalyticsService.products_parquet := AnalyticsService.Missing;
       AnalyticsService.sales_parquet := AnalyticsService.Missing |}
  = AnalyticsService.Ok AnalyticsService.empty_frames
  /\ forall e : AnalyticsService.exn,
       AnalyticsService.load_data
         {| AnalyticsService.products_parquet := AnalyticsService.Missing;
            AnalyticsService.sales_parquet := AnalyticsService.Missing |}
       <> AnalyticsService.Raise e.
Proof.
  split; [reflexivity|]. intros e. discriminate.
Qed.

(** * Further properties of the pipeline *)

(** ** The aggregate as a whole *)

Section GroupSums.
Context {K R : Type} (eqb : K -> K -> bool) (key : R -> K) (value : R -> Q).
Hypothesis eqb_eq : forall a b, eqb a b = true <-> a = b.

Lemma Qsum_filter_split (f : R -> bool) (df : list R) :
  Pandas.Qsum (map value (filter f df))
  + Pandas.Qsum (map value (filter (fun r => negb (f r)) df))
  == Pandas.Qsum (map value df).
Proof.
  induction df as [|r df IH]; simpl; [ring|].
  destruct (f r); simpl; rewrite <- IH; ring.
Qed.

Lemma filter_other_key (k k' : K) (df : list R) :
  k' <> k ->
  filter (fun r => eqb (key r) k') df
  = filter (fun r => eqb (key r) k')
           (filter (fun r => negb (eqb (key r) k)) df).
Proof.
  intros Hne. induction df as [|r df IH]; simpl; [reflexivity|].
  destruct (eqb (key r) k) eqn:E; simpl.
  - apply eqb_eq in E. destruct (eqb (key r) k') eqn:E'; [|exact IH].
    apply eqb_eq in E'. congruence.
  - destruct (eqb (key r) k'); now rewrite IH.
Qed.

(** The sums of the groups of distinct keys that cover a frame add up to
    the sum of the frame. *)
Lemma group_sums ks : forall df,
  NoDup ks -> (forall r, In r df -> In (key r) ks) ->
  Pandas.Qsum
    (map (fun k => Pandas.Qsum
                     (map value (filter (fun r => eqb (key r) k) df))) ks)
  == Pandas.Qsum (map value df).
Proof.
  induction ks as [|k ks IH]; intros df Hnd Hcov.
  - destruct df as [|r df]; [reflexivity|].
    destruct (Hcov r (or_introl eq_refl)).
  - inversion Hnd as [|? ? Hk Hnd']; subst. simpl.
    set (rest := filter (fun r => negb (eqb (key r) k)) df).
    assert (Hrest :
      map (fun k' => Pandas.Qsum
                       (map value (filter (fun r => eqb (key r) k') df))) ks
      = map (fun k' => Pandas.Qsum
                         (map value (filter (fun r => eqb (key r) k') rest)))
            ks).
    { apply map_ext_in. intros k' Hk'. unfold rest.
      rewrite <- filter_other_key; [reflexivity|]. congruence. }
    rewrite Hrest, IH; [|exact Hnd'|].
    + apply Qsum_filter_split.
    + intros r Hr. unfold rest in Hr. apply filter_In in Hr as [Hr Hne].
      destruct (Hcov r Hr) as [E|Hin]; [|exact Hin].
      apply negb_true_iff in Hne.
      assert (eqb (key r) k = true) by (apply eqb_eq; congruence).
      congruence.
Qed.
End GroupSums.

Lemma revenue_sum df :
  Pandas.Qsum (map total_revenue
                   (rows (DataLoader.aggregate_sales_by_product df)))
  == Pandas.Qsum (map price df).
Proof.
  unfold DataLoader.aggregate_sales_by_product, Pandas.groupby. simpl.
  rewrite !map_map. simpl.
  apply (group_sums key_eqb txn_key price key_eqb_eq).
  - apply key_index_NoDup.
  - intros r Hr. apply in_group_index; [apply key_eqb_eq|].
    now apply in_map.
Qed.

(** X1. The aggregation keeps the revenue: when at least one transaction
    row is of a selected article, the total_revenue of the rows of the
    aggregate add up to the sum of the prices of the selected rows of all
    batches. *)
Theorem aggregate_revenue_total :
  forall (batches : list (list Transaction)) (selected : list Z),
    matching batches selected <> [] ->
    exists out : SalesFrame,
      DownloadData.aggregate batches selected = Some out
      /\ Pandas.Qsum (map total_revenue (rows out))
         == Pandas.Qsum (map price (matching batches selected)).
Proof.
  intros batches selected Hne.
  exists (DataLoader.aggregate_sales_by_product (matching batches selected)).
  split; [now apply aggregate_Some|apply revenue_sum].
Qed.

(** The four selected rows of [three_batches] are sold for 77 in all. *)
Lemma aggregate_revenue_total_witness :
  exists out : SalesFrame,
    DownloadData.aggregate three_batches [108775001; 108775002; 108775003]
    = Some out
    /\ Pandas.Qsum (map total_revenue (rows out)) == 77.
Proof.
  destruct (aggregate_revenue_total three_batches
              [108775001; 108775002; 108775003])
    as (out & Hout & Hsum).
  - vm_compute. discriminate.
  - exists out. split; [exact Hout|]. rewrite Hsum. vm_compute. reflexivity.
Defined.

Lemma sorted_unmap {A B : Type} (f : A -> B) (P : B -> B -> Prop)
    (l : list A) :
  StronglySorted P (map f l) -> StronglySorted (fun a b => P (f a) (f b)) l.
Proof.
  induction l as [|x l IH]; simpl; intros H; [constructor|].
  inversion H as [|? ? Hs Hx]; subst. constructor; [now apply IH|].
  rewrite Forall_forall in *. intros y Hy. apply Hx. now apply in_map.
Qed.

Lemma key_ltb_before (a b : SalesRow) :
  key_ltb (row_key a) (row_key b) = true <-> row_before a b.
Proof.
  unfold key_ltb, row_key, row_before. simpl.
  rewrite orb_true_iff, andb_true_iff, !Z.ltb_lt, Z.eqb_eq. reflexivity.
Qed.

(** X2. The rows of a sales aggregate come in ascending order of
    (article_id, date), each key strictly after the one before: [groupby]
    sorts its keys, whatever the order of the transaction rows. *)
Theorem aggregate_rows_ascending :
  forall transactions_df : list Transaction,
    StronglySorted row_before
      (rows (DataLoader.aggregate_sales_by_product transactions_df)).
Proof.
  intros df.
  pose proof (group_index_sorted key_eqb key_ltb key_eqb_eq key_ltb_trans
                key_ltb_total (map txn_key df)) as Hs.
  rewrite <- aggregate_keys in Hs. apply sorted_unmap in Hs.
  induction Hs as [|r l Hs IH Hr]; constructor; [exact IH|].
  rewrite Forall_forall in *. intros y Hy. apply key_ltb_before.
  now apply Hr.
Qed.

(** X3. The first pass does not depend on how the dataset cuts the
    transaction log into batches: two sequences of batches with the same
    rows in the same order give every article the same total, and the same
    set of articles a total. *)
Theorem revenue_pass_any_batching :
  forall (batches batches' : list (list Transaction)) (k : Z),
    concat batches = concat batches' ->
    revenue_of (DownloadData.revenue_pass batches) k
    == revenue_of (DownloadData.revenue_pass batches') k
    /\ dict_has (DownloadData.revenue_pass batches) k
       = dict_has (DownloadData.revenue_pass batches') k.
Proof.
  intros batches batches' k Hcat.
  destruct (revenue_pass_spec batches k) as [Hrev Hhas].
  destruct (revenue_pass_spec batches' k) as [Hrev' Hhas'].
  rewrite Hrev, Hrev', Hhas, Hhas', Hcat. split; reflexivity.
Qed.

(** The rows of [three_batches] in two batches and in one. *)
Lemma revenue_pass_any_batching_witness :
  revenue_of (DownloadData.revenue_pass three_batches) 108775001
  == revenue_of (DownloadData.revenue_pass [concat three_batches]) 108775001
  /\ dict_has (DownloadData.revenue_pass three_batches) 108775001
     = dict_has (DownloadData.revenue_pass [concat three_batches]) 108775001.
Proof.
  apply (revenue_pass_any_batching three_batches [concat three_batches]
           108775001).
  reflexivity.
Defined.

(** ** The selection and the categories *)

Section Categories.
Import DownloadData.

Lemma nlargest_nonempty {R : Type} (value : R -> Q) (n : nat) (df : list R) :
  (0 < n)%nat -> df <> [] -> Pandas.nlargest value n df <> [].
Proof.
  intros Hn Hdf. unfold Pandas.nlargest.
  pose proof (Permutation_length (sort_desc_perm value df)) as Hlen.
  destruct (Pandas.sort_desc value df) as [|r rs].
  - destruct df; [congruence|discriminate].
  - destruct n; [lia|]. simpl. discriminate.
Qed.

Lemma in_category_group pwr r :
  In r pwr -> has_type r = true ->
  In (type_of r,
      filter (fun r' => String.eqb (type_of r') (type_of r))
             (filter has_type pwr))
     (by_product_type pwr).
Proof.
  intros Hr Ht. unfold by_product_type.
  apply (in_groupby String.eqb String.ltb String.eqb_eq). simpl.
  split; [|reflexivity].
  apply (in_map type_of). apply filter_In. now split.
Qed.

Lemma category_row q pwr id :
  In id (category_selection q pwr) ->
  exists r, In r pwr /\ article_id (fst r) = id /\ has_type r = true.
Proof.
  unfold category_selection, top_in_category, ids.
  rewrite in_flat_map. intros (g & Hg & Hid).
  apply in_map_iff in Hid as (r & <- & Hr).
  apply nlargest_incl in Hr.
  apply in_by_product_type in Hg as [Hrows _].
  rewrite Hrows in Hr. apply filter_In in Hr as [Hr _].
  apply filter_In in Hr as [Hr Ht].
  exists r. auto.
Qed.

Lemma firstn_keeps_prefix {A : Type} (n : nat) (l l' : list A) (x : A) :
  (length l <= n)%nat -> In x l -> In x (firstn n (l ++ l')).
Proof.
  intros Hlen Hx. rewrite firstn_app. apply in_or_app. left.
  now rewrite firstn_all2.
Qed.

Lemma filter_not_isin_nil (l : list (Product * Q)) :
  filter (fun r => negb (Pandas.isin (article_id (fst r)) [])) l = l.
Proof.
  induction l as [|x l IH]; simpl; [reflexivity|]. f_equal. exact IH.
Qed.

Lemma select_products_nonempty q target pwr :
  (0 < target)%nat -> pwr <> [] -> select_products q target pwr <> [].
Proof.
  intros Ht Hpwr. unfold select_products.
  destruct (category_selection q pwr) as [|c cs] eqn:Hcs.
  - change (length (@nil Z)) with 0%nat.
    destruct (Nat.ltb_spec 0 target) as [_|]; [|lia].
    rewrite app_nil_l. unfold top_up, Pandas.head, ids.
    change (length (@nil Z)) with 0%nat.
    rewrite Nat.sub_0_r, filter_not_isin_nil.
    pose proof (nlargest_nonempty revenue (target + 50) pwr) as Hn.
    destruct (Pandas.nlargest revenue (target + 50) pwr) as [|r rs].
    + exfalso. apply Hn; [lia|exact Hpwr|reflexivity].
    + destruct target; [lia|]. simpl. discriminate.
  - destruct target; [lia|].
    destruct (length (c :: cs) <? S target)%nat; simpl; discriminate.
Qed.
End Categories.

(** X4. The loop over the categories leaves no category out: with a quota
    of at least one, every product type that has a candidate has one of its
    candidates in the category selection, and that product is in the final
    selection whenever the category selection fits the target count. *)
Theorem every_category_is_represented :
  forall (products_per_category target_count : nat)
         (products_with_revenue : list (Product * Q)) (r : Product * Q),
    (0 < products_per_category)%nat ->
    In r products_with_revenue ->
    DownloadData.has_type r = true ->
    exists r' : Product * Q,
      In r' products_with_revenue
      /\ DownloadData.type_of r' = DownloadData.type_of r
      /\ In (article_id (fst r'))
            (DownloadData.category_selection products_per_category
               products_with_revenue)
      /\ ((length (DownloadData.category_selection products_per_category
                     products_with_revenue) <= target_count)%nat ->
          In (article_id (fst r'))
             (DownloadData.select_products products_per_category target_count
                products_with_revenue)).
Proof.
  intros q target pwr r Hq Hr Ht.
  pose proof (in_category_group pwr r Hr Ht) as Hg.
  set (group := filter (fun r' => String.eqb (DownloadData.type_of r')
                                             (DownloadData.type_of r))
                       (filter DownloadData.has_type pwr)) in *.
  assert (Hgroup : In r group).
  { apply filter_In. split; [now apply filter_In|apply String.eqb_refl]. }
  pose proof (nlargest_nonempty DownloadData.revenue q group Hq) as Hne.
  destruct (Pandas.nlargest DownloadData.revenue q group) as [|r' rs] eqn:Htop.
  { exfalso. apply Hne; [|reflexivity]. intros E. rewrite E in Hgroup.
    destruct Hgroup. }
  assert (Hr' : In r' group).
  { apply (nlargest_incl DownloadData.revenue q). rewrite Htop. now left. }
  assert (Hsel : In (article_id (fst r'))
                    (DownloadData.category_selection q pwr)).
  { unfold DownloadData.category_selection. apply in_flat_map.
    exists (DownloadData.type_of r, group). split; [exact Hg|].
    unfold DownloadData.ids, DownloadData.top_in_category. simpl.
    rewrite Htop. now left. }
  exists r'. apply filter_In in Hr' as [Hin Heq].
  apply filter_In in Hin as [Hin _]. apply String.eqb_eq in Heq.
  split; [exact Hin|]. split; [exact Heq|]. split; [exact Hsel|].
  intros Hlen. unfold DownloadData.select_products.
  destruct (Nat.ltb_spec
              (length (DownloadData.category_selection q pwr)) target).
  - now apply firstn_keeps_prefix.
  - rewrite firstn_all2; [exact Hsel|exact Hlen].
Qed.

(** The shoes of [ranked_products]: one of the two is selected. *)
Lemma every_category_is_represented_witness :
  exists r' : Product * Q,
    In r' ranked_products
    /\ DownloadData.type_of r' = "Shoes"%string
    /\ In (article_id (fst r'))
          (DownloadData.category_selection 1 ranked_products).
Proof.
  destruct (every_category_is_represented 1 150 ranked_products
              (shoes, 22%Q))
    as (r' & Hin & Ht & Hsel & _).
  - lia.
  - simpl. left. reflexivity.
  - reflexivity.
  - exists r'. split; [exact Hin|]. split; [exact Ht|exact Hsel].
Defined.

(** X5. A product whose product_type_name is null belongs to no group of
    the loop over the categories: on candidates with distinct ids it is not
    in the category selection, only the top-up can select it. *)
Theorem untyped_products_skip_the_categories :
  forall (products_per_category : nat)
         (products_with_revenue : list (Product * Q)) (r : Product * Q),
    NoDup (DownloadData.ids products_with_revenue) ->
    In r products_with_revenue ->
    product_type_name (fst r) = None ->
    ~ In (article_id (fst r))
         (DownloadData.category_selection products_per_category
            products_with_revenue).
Proof.
  intros q pwr r Hnd Hr Hnull Hsel.
  apply category_row in Hsel as (r' & Hr' & Hid & Ht).
  assert (E : r' = r)
    by exact (NoDup_map_eq (fun x : Product * Q => article_id (fst x))
                pwr r' r Hnd Hr' Hr Hid).
  subst r'. unfold DownloadData.has_type in Ht. rewrite Hnull in Ht.
  discriminate.
Qed.

(** The product without a type of [ranked_products] has the largest
    revenue, and no quota selects it. *)
Lemma untyped_products_skip_the_categories_witness :
  ~ In 7 (DownloadData.category_selection 10 ranked_products).
Proof.
  apply (untyped_products_skip_the_categories 10 ranked_products
           (untyped, 90%Q)).
  - simpl. repeat constructor; simpl; intuition discriminate.
  - simpl. right. right. left. reflexivity.
  - reflexivity.
Defined.

(** ** The dataset branch *)

Section DatasetBranch.
Import DownloadData.

Lemma aggregate_None batches selected :
  matching batches selected = [] -> aggregate batches selected = None.
Proof.
  intros Hm. unfold aggregate.
  pose proof (concat_all_transactions batches selected) as Hcat.
  destruct (all_transactions batches selected) as [|df dfs] eqn:E;
    [reflexivity|].
  exfalso.
  assert (Hin : In df (all_transactions batches selected))
    by (rewrite E; now left).
  unfold all_transactions in Hin. apply filter_In in Hin as [_ Hlen].
  rewrite Hm in Hcat. simpl in Hcat.
  apply app_eq_nil in Hcat as [-> _]. discriminate.
Qed.

(** The tables of the dataset branch, when it saves any. *)
Lemma process_dataset_Some products_df batches saved :
  process_dataset products_df batches = Some saved ->
  exists pwr,
    merge_revenue products_df (revenue_pass batches) = Some pwr
    /\ let selected :=
         select_products products_per_category target_count pwr in
       sales saved
       = DataLoader.aggregate_sales_by_product
           (matching batches (target_set selected))
       /\ products saved
          = filter (fun p => Pandas.isin (article_id p)
                               (map s_article_id (rows (sales saved))))
                   products_df.
Proof.
  unfold process_dataset, rank.
  destruct (merge_revenue products_df (revenue_pass batches))
    as [pwr|] eqn:Hm; [|discriminate].
  unfold aggregate.
  pose proof (concat_all_transactions batches
                (target_set (select_products products_per_category
                               target_count pwr))) as Hcat.
  destruct (all_transactions batches _) as [|df dfs]; [discriminate|].
  rewrite Hcat. intros [= <-]. exists pwr. split; [reflexivity|].
  split; reflexivity.
Qed.

Lemma sold_articles_selected batches selected id :
  In id (map s_article_id
             (rows (DataLoader.aggregate_sales_by_product
                      (matching batches (target_set selected))))) ->
  In id selected.
Proof.
  intros Hid. apply in_map_iff in Hid as (r & <- & Hr).
  apply aggregate_row in Hr as (Hk & _).
  apply in_map_iff in Hk as (t & Ek & Ht).
  unfold matching in Ht. apply filter_In in Ht as [_ Ht].
  apply isin_In, nodup_In in Ht.
  unfold row_key, txn_key in Ek. injection Ek as E1 E2.
  now rewrite <- E1.
Qed.

Lemma select_products_length q target pwr :
  (length (select_products q target pwr) <= target)%nat.
Proof.
  unfold select_products. rewrite length_firstn. apply Nat.le_min_l.
Qed.
End DatasetBranch.

(** X6. On the dataset branch the two saved tables agree: the product
    table holds exactly the articles that have a row in the sales table, all
    of them rows of the catalog, and on a catalog with distinct ids it has
    no more than 150 rows. *)
Theorem dataset_branch_tables_agree :
  forall (e : DownloadData.Env) (articles_df : list Product)
         (saved : DownloadData.Store),
    DownloadData.articles_file e = Some (Some articles_df) ->
    DownloadData.pyarrow e = true ->
    DownloadData.downloaded_count (DownloadData.transaction_files e)
    <> 0%nat ->
    DownloadData.try_download_from_s3 e = Some saved ->
    (forall id, In id (map article_id (DownloadData.products saved))
                <-> In id (map s_article_id
                               (rows (DownloadData.sales saved))))
    /\ (forall p, In p (DownloadData.products saved) -> In p articles_df)
    /\ (NoDup (map article_id articles_df) ->
        (length (DownloadData.products saved) <= 150)%nat).
Proof.
  intros e articles_df saved Ha Hpy Hcount Htry.
  unfold DownloadData.try_download_from_s3 in Htry.
  rewrite Ha, Hpy in Htry.
  unfold DataLoader.create_product_index in Htry.
  destruct (DownloadData.transaction_files e) as [|f fs];
    [exfalso; apply Hcount; reflexivity|].
  destruct (Nat.eqb_spec (DownloadData.downloaded_count (f :: fs)) 0)
    as [E|_]; [congruence|].
  split; [|split].
  - intros id.
    exact (dataset_products_match_sales _ _ _ id Htry).
  - intros p Hp.
    apply process_dataset_Some in Htry as (pwr & _ & _ & Hprod).
    rewrite Hprod in Hp. now apply filter_In in Hp.
  - intros Hnd.
    apply process_dataset_Some in Htry as (pwr & Hm & Hsales & Hprod).
    cbv zeta in Hsales.
    set (selected := DownloadData.select_products
                       DownloadData.products_per_category
                       DownloadData.target_count pwr) in *.
    assert (Hids : NoDup (map article_id (DownloadData.products saved))).
    { rewrite Hprod. now apply NoDup_map_filter. }
    assert (Hincl : incl (map article_id (DownloadData.products saved))
                         selected).
    { intros id Hid. rewrite Hprod in Hid.
      apply in_map_iff in Hid as (p & <- & Hp).
      apply filter_In in Hp as [_ Hp]. apply isin_In in Hp.
      rewrite Hsales in Hp. now apply sold_articles_selected in Hp. }
    pose proof (NoDup_incl_length Hids Hincl) as Hlen.
    rewrite length_map in Hlen.
    pose proof (select_products_length DownloadData.products_per_category
                  DownloadData.target_count pwr) as Hsel.
    fold selected in Hsel. unfold DownloadData.target_count in Hsel.
    lia.
Qed.

(** The run over [real_env]: the jacket has no transaction and is not
    saved. *)
Lemma dataset_branch_tables_agree_witness :
  (forall id, In id [108775001] <-> In id [108775001])
  /\ (forall p, In p [shoes] -> In p [shoes; jacket])
  /\ (NoDup (map article_id [shoes; jacket]) -> (1 <= 150)%nat).
Proof.
  apply (dataset_branch_tables_agree real_env [shoes; jacket]
           (DownloadData.mkStore [shoes]
              (mkSalesFrame
                 ["article_id"; "date"; "total_revenue"; "avg_price";
                  "units_sold"]%string
                 [mkSalesRow 108775001 19723 32 (32 # 3) 3]))).
  - reflexivity.
  - reflexivity.
  - vm_compute. discriminate.
  - vm_compute. reflexivity.
Defined.

(** X7. The dataset branch saves tables exactly when some catalog article
    has a transaction in the downloaded files: with no such article the
    branch ends in an exception (the merge of an empty revenue frame, or the
    concatenation of no batch) and the run goes on to the sample data. *)
Theorem dataset_branch_needs_a_sold_article :
  forall (products_df : list Product) (batches : list (list Transaction)),
    DownloadData.process_dataset products_df batches = None
    <-> candidates batches products_df = [].
Proof.
  intros products_df batches. split.
  - intros Hnone.
    destruct (candidates batches products_df) as [|p ps] eqn:Hc;
      [reflexivity|exfalso].
    assert (Hp : In p (candidates batches products_df))
      by (rewrite Hc; now left).
    unfold candidates in Hp. apply filter_In in Hp as [Hp Hsold].
    apply isin_In in Hsold.
    assert (Hrev : DownloadData.revenue_pass batches <> []).
    { intros E. apply revenue_pass_nil in E. rewrite E in Hsold.
      destruct Hsold. }
    unfold DownloadData.process_dataset, DownloadData.rank in Hnone.
    destruct (DownloadData.merge_revenue products_df
                (DownloadData.revenue_pass batches)) as [pwr|] eqn:Hm.
    + pose proof (merge_candidates _ _ _ Hm) as Hcand.
      assert (Hpwr : pwr <> []).
      { intros E. rewrite E, Hc in Hcand. discriminate. }
      pose proof (select_products_nonempty
                    DownloadData.products_per_category
                    DownloadData.target_count pwr) as Hsel.
      set (selected := DownloadData.select_products
                         DownloadData.products_per_category
                         DownloadData.target_count pwr) in *.
      destruct selected as [|id ids'] eqn:Hs.
      { apply Hsel; [unfold DownloadData.target_count; lia|exact Hpwr|].
        reflexivity. }
      assert (Hid : In id (DownloadData.ids pwr)).
      { apply (select_products_incl DownloadData.products_per_category
                 DownloadData.target_count).
        fold selected. rewrite Hs. now left. }
      unfold DownloadData.ids in Hid.
      rewrite <- map_map, Hcand in Hid.
      apply in_map_iff in Hid as (p' & Hid & Hp').
      unfold candidates in Hp'. apply filter_In in Hp' as [_ Hsold'].
      apply isin_In, in_map_iff in Hsold' as (t & Ht & Hin).
      assert (Hmatch : matching batches (DownloadData.target_set (id :: ids'))
                       <> []).
      { intros E.
        assert (Hin' : In t (matching batches
                               (DownloadData.target_set (id :: ids')))).
        { unfold matching. apply filter_In. split; [exact Hin|].
          apply isin_In. unfold DownloadData.target_set. apply nodup_In.
          left. congruence. }
        rewrite E in Hin'. destruct Hin'. }
      rewrite (aggregate_Some _ _ Hmatch) in Hnone. discriminate.
    + unfold DownloadData.merge_revenue in Hm.
      destruct (DownloadData.revenue_pass batches); [congruence|discriminate].
  - intros Hc. unfold DownloadData.process_dataset, DownloadData.rank.
    destruct (DownloadData.merge_revenue products_df
                (DownloadData.revenue_pass batches)) as [pwr|] eqn:Hm;
      [|reflexivity].
    pose proof (merge_candidates _ _ _ Hm) as Hcand.
    rewrite Hc in Hcand. apply map_eq_nil in Hcand. subst pwr.
    rewrite aggregate_None; [reflexivity|].
    unfold matching. simpl.
    induction (concat batches) as [|t ts IH]; [reflexivity|exact IH].
Qed.

(** ** The synthetic generator *)

Section Generator.
Import DownloadData.

Lemma product_records_drawn g start i id :
  product_records g start i id
  = flat_map (fun n => if 0 <? drawn_units g start i n
                       then [drawn_record g start i id n] else [])
             (seq 0 121).
Proof. reflexivity. Qed.

Lemma product_records_dates g start i id r :
  In r (product_records g start i id) ->
  start <= r_t_dat r <= start + 120.
Proof.
  rewrite product_records_drawn, in_flat_map. intros (n & Hn & Hr).
  apply in_seq in Hn.
  destruct (0 <? drawn_units g start i n); [|destruct Hr].
  destruct Hr as [<-|[]]. simpl. lia.
Qed.

Lemma sample_records_dates g now ids r :
  In r (sample_records g now ids) -> now - 120 <= r_t_dat r <= now.
Proof.
  unfold sample_records. rewrite in_flat_map. intros ([i id] & _ & Hr).
  apply product_records_dates in Hr. lia.
Qed.

Lemma product_records_length g start i id :
  (length (product_records g start i id) <= 121)%nat.
Proof.
  rewrite product_records_drawn.
  change 121%nat with (length (seq 0 121)) at 2.
  generalize (seq 0 121). intros l.
  induction l as [|n l IH]; simpl; [lia|].
  rewrite length_app. destruct (0 <? drawn_units g start i n); simpl; lia.
Qed.

Lemma sample_records_length g now ids :
  (length (sample_records g now ids) <= 121 * length ids)%nat.
Proof.
  unfold sample_records.
  assert (H : forall l : list (nat * Z),
            (length (flat_map
                       (fun p => product_records g (now - 120) (fst p) (snd p))
                       l) <= 121 * length l)%nat).
  { induction l as [|p l IH]; simpl; [lia|].
    rewrite length_app.
    pose proof (product_records_length g (now - 120) (fst p) (snd p)). lia. }
  specialize (H (combine (seq 0 (length ids)) ids)).
  rewrite length_combine, length_seq, Nat.min_id in H. exact H.
Qed.
End Generator.

Section IndexLength.
Context {K : Type} (eqb ltb : K -> K -> bool).
Hypothesis eqb_eq : forall a b, eqb a b = true <-> a = b.

Lemma insert_key_length_le k ks :
  (length (Pandas.insert_key eqb ltb k ks) <= S (length ks))%nat.
Proof.
  induction ks as [|h t IH]; simpl; [lia|].
  destruct (eqb k h); [simpl; lia|]. destruct (ltb k h); simpl; lia.
Qed.

Lemma group_index_length_le ks :
  (length (Pandas.group_index eqb ltb ks) <= length ks)%nat.
Proof.
  induction ks as [|k ks IH]; simpl; [lia|].
  pose proof (insert_key_length_le k (Pandas.group_index eqb ltb ks)). lia.
Qed.

Lemma insert_key_length k ks :
  ~ In k ks -> length (Pandas.insert_key eqb ltb k ks) = S (length ks).
Proof.
  induction ks as [|h t IH]; simpl; [reflexivity|]. intros Hk.
  destruct (eqb k h) eqn:E.
  - apply eqb_eq in E. subst h. exfalso. apply Hk. now left.
  - destruct (ltb k h); simpl; [reflexivity|]. rewrite IH; tauto.
Qed.

Lemma group_index_length ks :
  NoDup ks -> length (Pandas.group_index eqb ltb ks) = length ks.
Proof.
  induction 1 as [|k ks Hk Hnd IH]; simpl; [reflexivity|].
  rewrite insert_key_length, IH; [reflexivity|].
  now rewrite (in_group_index eqb ltb eqb_eq).
Qed.
End IndexLength.

Lemma sample_aggregate_rows l fr :
  DownloadData.sample_aggregate l = Some fr ->
  map row_key (rows fr)
  = Pandas.group_index key_eqb key_ltb (map DownloadData.record_key l).
Proof.
  unfold DownloadData.sample_aggregate.
  destruct l as [|r0 rs] eqn:E; [discriminate|]. rewrite <- E.
  intros [= <-]. simpl. rewrite map_map. unfold row_key. simpl.
  rewrite <- (groupby_keys key_eqb key_ltb DownloadData.record_key l).
  apply map_ext. now intros [[a d] grp].
Qed.

Lemma sample_aggregate_row l fr r :
  DownloadData.sample_aggregate l = Some fr ->
  In r (rows fr) ->
  exists x, In x l /\ DownloadData.record_key x = row_key r.
Proof.
  intros Hfr Hr.
  assert (Hk : In (row_key r) (map row_key (rows fr))) by now apply in_map.
  rewrite (sample_aggregate_rows _ _ Hfr) in Hk.
  apply (proj1 (in_group_index key_eqb key_ltb key_eqb_eq _ _)) in Hk.
  apply in_map_iff in Hk as (x & Hx & Hin). eauto.
Qed.

(** X8. The generated sales stay within the generator's window and its
    sample: every row is dated within the 121 days that end at the day of
    the run, is of one of the first 200 catalog rows, and there are no more
    than 121 rows per sampled product. *)
Theorem generated_sales_window :
  forall (g : DownloadData.Rng) (now : Z) (products_df : list Product)
         (fr : SalesFrame),
    DownloadData.generate_sample_sales_for_products g now products_df
    = Some fr ->
    (forall r, In r (rows fr) ->
       now - 120 <= date r <= now
       /\ In (s_article_id r) (map article_id (firstn 200 products_df)))
    /\ (length (rows fr) <= 121 * Nat.min 200 (length products_df))%nat.
Proof.
  intros g now products_df fr Hfr.
  unfold DownloadData.generate_sample_sales_for_products in Hfr.
  fold (sampled products_df) in Hfr.
  assert (Hsampled : sampled products_df = firstn 200 products_df).
  { unfold sampled, Pandas.head.
    destruct (Nat.ltb_spec 200 (length products_df)); [reflexivity|].
    symmetry. apply firstn_all2. lia. }
  rewrite Hsampled in Hfr. split.
  - intros r Hr.
    destruct (sample_aggregate_row _ _ r Hfr Hr) as (x & Hx & Hkey).
    unfold DownloadData.record_key, row_key in Hkey.
    injection Hkey as Hid Hdate. rewrite <- Hid, <- Hdate. split.
    + now apply sample_records_dates in Hx.
    + now apply in_sample_records in Hx.
  - rewrite <- (length_map row_key), (sample_aggregate_rows _ _ Hfr).
    pose proof (group_index_length_le key_eqb key_ltb
                  (map DownloadData.record_key
                       (DownloadData.sample_records g now
                          (map article_id (firstn 200 products_df)))))
      as Hle.
    rewrite length_map in Hle.
    pose proof (sample_records_length g now
                  (map article_id (firstn 200 products_df))) as Hrec.
    rewrite length_map, length_firstn in Hrec. lia.
Qed.

(** The generated sales of the one product of [sample_env], on day 19800. *)
Lemma generated_sales_window_witness :
  exists fr : SalesFrame,
    DownloadData.generate_sample_sales_for_products flat_rng 19800 [shoes]
    = Some fr
    /\ (forall r, In r (rows fr) ->
          19800 - 120 <= date r <= 19800
          /\ In (s_article_id r) (map article_id (firstn 200 [shoes])))
    /\ (length (rows fr) <= 121 * Nat.min 200 (length [shoes]))%nat.
Proof.
  destruct (DownloadData.generate_sample_sales_for_products flat_rng 19800
              [shoes]) as [fr|] eqn:G.
  - exists fr. split; [reflexivity|].
    exact (generated_sales_window flat_rng 19800 [shoes] fr G).
  - vm_compute in G. discriminate.
Defined.

Section InRange.
Import DownloadData.

Lemma trend_factor_bound (t N : Q) :
  (- (2 # 1000) <= t)%Q -> (0 <= N)%Q -> (N <= 120)%Q ->
  (76 # 100 <= 1 + t * N)%Q.
Proof. intros. nra. Qed.

Lemma units_product_bound (b w tf u : Q) :
  (5 <= b)%Q -> (1 <= w)%Q -> (76 # 100 <= tf)%Q -> (7 # 10 <= u)%Q ->
  (2 <= b * w * tf * u)%Q.
Proof.
  intros.
  assert (5 <= b * w)%Q by nra.
  assert (38 # 10 <= b * w * tf)%Q by nra.
  nra.
Qed.

Lemma int_of_float_floor (x : Q) : (2 <= x)%Q -> 2 <= int_of_float x.
Proof.
  intros Hx. unfold int_of_float.
  assert (H0 : (0 <= x)%Q) by lra.
  apply Qle_bool_iff in H0. rewrite H0.
  change 2 with (Qfloor (inject_Z 2)). now apply Qfloor_resp_le.
Qed.

(** With draws in range a product sells two units or more on each day. *)
Lemma drawn_units_bound g start i n :
  draws_in_range g -> (n < 121)%nat -> 2 <= drawn_units g start i n.
Proof.
  intros (Hbase & _ & Htrend & Hnoise & _) Hn.
  unfold drawn_units. apply int_of_float_floor.
  apply units_product_bound.
  - destruct (Hbase i) as [H5 _]. rewrite Zle_Qle in H5. exact H5.
  - destruct ((_ =? 5) || (_ =? 6)); lra.
  - apply trend_factor_bound.
    + apply Htrend.
    + change 0%Q with (inject_Z 0). rewrite <- Zle_Qle. lia.
    + change 120%Q with (inject_Z 120). rewrite <- Zle_Qle. lia.
  - apply Hnoise.
Qed.

Lemma product_records_full g start i id :
  draws_in_range g ->
  product_records g start i id = map (drawn_record g start i id) (seq 0 121).
Proof.
  intros Hg. rewrite product_records_drawn.
  assert (H : forall l, (forall n, In n l -> (n < 121)%nat) ->
            flat_map (fun n => if 0 <? drawn_units g start i n
                               then [drawn_record g start i id n] else []) l
            = map (drawn_record g start i id) l).
  { induction l as [|n l IH]; intros Hl; simpl; [reflexivity|].
    pose proof (drawn_units_bound g start i n Hg (Hl n (or_introl eq_refl)))
      as Hu.
    destruct (Z.ltb_spec 0 (drawn_units g start i n)) as [_|]; [|lia].
    simpl. f_equal. apply IH. intros m Hm. apply Hl. now right. }
  apply H. intros n Hn. apply in_seq in Hn. lia.
Qed.

Lemma sample_records_full g now ids :
  draws_in_range g ->
  length (sample_records g now ids) = (121 * length ids)%nat
  /\ (forall r, In r (sample_records g now ids) -> 2 <= units r)
  /\ (forall id d, In id ids -> now - 120 <= d <= now ->
        In (id, d) (map record_key (sample_records g now ids))).
Proof.
  intros Hg. unfold sample_records. split; [|split].
  - assert (H : forall l : list (nat * Z),
              length (flat_map
                        (fun p => product_records g (now - 120) (fst p)
                                                  (snd p)) l)
              = (121 * length l)%nat).
    { induction l as [|p l IH]; simpl; [lia|].
      rewrite length_app, IH, (product_records_full _ _ _ _ Hg), length_map,
        length_seq. lia. }
    rewrite H, length_combine, length_seq, Nat.min_id. reflexivity.
  - intros r Hr. apply in_flat_map in Hr as ([i id] & _ & Hr).
    rewrite (product_records_full _ _ _ _ Hg) in Hr.
    apply in_map_iff in Hr as (n & <- & Hn). apply in_seq in Hn. simpl.
    apply drawn_units_bound; [exact Hg|lia].
  - intros id d Hid Hd. apply in_map_iff.
    assert (Hpos : exists i, In (i, id) (combine (seq 0 (length ids)) ids)).
    { apply (In_nth _ _ 0) in Hid as (i & Hi & Hnth). exists i.
      rewrite <- Hnth at 1.
      replace i with (nth i (seq 0 (length ids)) 0%nat) at 1
        by (rewrite seq_nth; lia).
      rewrite <- combine_nth by (now rewrite length_seq).
      apply nth_In. rewrite length_combine, length_seq, Nat.min_id.
      exact Hi. }
    destruct Hpos as (i & Hi).
    exists (drawn_record g (now - 120) i id (Z.to_nat (d - (now - 120)))).
    split.
    + unfold record_key, drawn_record. simpl. f_equal. lia.
    + apply in_flat_map. exists (i, id). split; [exact Hi|]. simpl.
      rewrite (product_records_full _ _ _ _ Hg). apply in_map.
      apply in_seq. lia.
Qed.

Lemma Zsum_at_least (xs : list Z) :
  xs <> [] -> (forall x, In x xs -> 2 <= x) -> 2 <= Pandas.Zsum xs.
Proof.
  destruct xs as [|x xs]; [congruence|]. intros _ H. simpl.
  assert (Hx : 2 <= x) by (apply H; now left).
  assert (Hs : 0 <= Pandas.Zsum xs).
  { clear Hx. induction xs as [|y ys IH]; simpl; [lia|].
    assert (2 <= y) by (apply H; right; now left).
    assert (0 <= Pandas.Zsum ys).
    { apply IH. intros z [<-|Hz]; apply H; [now left|right; now right]. }
    lia. }
  lia.
Qed.

(** The aggregate of records that count two units or more. *)
Lemma sample_aggregate_full l :
  l <> [] -> (forall x, In x l -> 2 <= units x) ->
  exists fr,
    sample_aggregate l = Some fr
    /\ (forall k, In k (map record_key l) ->
          exists r, In r (rows fr) /\ row_key r = k /\ 2 <= units_sold r).
Proof.
  intros Hne Hunits. unfold sample_aggregate.
  destruct l as [|r0 rs] eqn:E; [congruence|]. rewrite <- E in *.
  eexists. split; [reflexivity|]. intros k Hk. simpl.
  exists {| s_article_id := fst k; date := snd k;
            avg_price :=
              Pandas.Qmean
                (map r_price (filter (fun x => key_eqb (record_key x) k) l));
            total_revenue :=
              Pandas.Qsum
                (map (fun x => (r_price x * inject_Z (units x))%Q)
                     (filter (fun x => key_eqb (record_key x) k) l));
            units_sold :=
              Pandas.Zsum
                (map units (filter (fun x => key_eqb (record_key x) k) l)) |}.
  split; [|split].
  - apply in_map_iff. exists (k, filter (fun x => key_eqb (record_key x) k) l).
    split; [reflexivity|].
    apply (in_groupby key_eqb key_ltb key_eqb_eq). now split.
  - unfold row_key. simpl. now destruct k.
  - simpl. apply Zsum_at_least.
    + pose proof (group_nonempty key_eqb key_eqb_eq record_key l k Hk) as Hg.
      destruct (filter _ l); [congruence|discriminate].
    + intros u Hu. apply in_map_iff in Hu as (x & <- & Hx).
      apply filter_In in Hx as [Hx _]. now apply Hunits.
Qed.
End InRange.

(** X9. With draws within the ranges of its calls the generator leaves no
    day out: for a catalog that has a row it returns a sales table with a
    row for each of the first 200 catalog rows on each of the 121 days of
    the window, of two units or more (the [units > 0] test never drops a
    day); on a catalog with distinct ids that makes 121 rows per sampled
    product. *)
Theorem generator_covers_every_day :
  forall (g : DownloadData.Rng) (now : Z) (products_df : list Product),
    draws_in_range g ->
    products_df <> [] ->
    exists fr : SalesFrame,
      DownloadData.generate_sample_sales_for_products g now products_df
      = Some fr
      /\ (forall p d, In p (firstn 200 products_df) ->
            now - 120 <= d <= now ->
            exists r, In r (rows fr)
                      /\ s_article_id r = article_id p /\ date r = d
                      /\ 2 <= units_sold r)
      /\ (NoDup (map article_id products_df) ->
          length (rows fr)
          = (121 * Nat.min 200 (length products_df))%nat).
Proof.
  intros g now products_df Hg Hne.
  unfold DownloadData.generate_sample_sales_for_products.
  fold (sampled products_df).
  assert (Hsampled : sampled products_df = firstn 200 products_df).
  { unfold sampled, Pandas.head.
    destruct (Nat.ltb_spec 200 (length products_df)); [reflexivity|].
    symmetry. apply firstn_all2. lia. }
  rewrite Hsampled.
  set (ids := map article_id (firstn 200 products_df)).
  destruct (sample_records_full g now ids Hg) as (Hlen & Hunits & Hkeys).
  assert (Hids : length ids = Nat.min 200 (length products_df)).
  { unfold ids. now rewrite length_map, length_firstn. }
  destruct (sample_aggregate_full (DownloadData.sample_records g now ids))
    as (fr & Hfr & Hrows).
  - intros E. rewrite E, Hids in Hlen.
    destruct products_df as [|p ps]; [congruence|].
    cbn [length] in Hlen. lia.
  - exact Hunits.
  - exists fr. split; [exact Hfr|]. split.
    + intros p d Hp Hd.
      destruct (Hrows (article_id p, d)) as (r & Hr & Hkey & Hu).
      { apply Hkeys; [|exact Hd]. unfold ids. now apply in_map. }
      exists r. unfold row_key in Hkey. injection Hkey as H1 H2. auto.
    + intros Hnd.
      rewrite <- (length_map row_key), (sample_aggregate_rows _ _ Hfr).
      rewrite (group_index_length key_eqb key_ltb key_eqb_eq).
      * rewrite length_map, Hlen, Hids. reflexivity.
      * apply sample_records_keys. unfold ids. rewrite <- firstn_map.
        now apply head_NoDup.
Qed.

(** The generated sales of the one product of [sample_env]: 121 rows. *)
Lemma generator_covers_every_day_witness :
  exists fr : SalesFrame,
    DownloadData.generate_sample_sales_for_products flat_rng 19800 [shoes]
    = Some fr
    /\ (NoDup (map article_id [shoes]) -> length (rows fr) = 121%nat).
Proof.
  destruct (generator_covers_every_day flat_rng 19800 [shoes])
    as (fr & Hfr & _ & Hlen).
  - unfold draws_in_range, flat_rng. simpl.
    repeat split; try lia; unfold Qle, Qlt; simpl; lia.
  - discriminate.
  - exists fr. split; [exact Hfr|exact Hlen].
Defined.

(** X10. With draws within the ranges of the generator's calls a run never
    ends in an exception: it saves the tables of the S3 attempt, or, when
    the attempt fails, the ten products of the sample catalog with
    1210 sales rows (121 days of each). *)
Theorem main_saves_tables :
  forall e : DownloadData.Env,
    draws_in_range (DownloadData.rng e) ->
    exists saved : DownloadData.Store,
      DownloadData.main e = Some saved
      /\ (DownloadData.try_download_from_s3 e = Some saved
          \/ (DownloadData.try_download_from_s3 e = None
              /\ DownloadData.products saved = DownloadData.sample_products_df
              /\ length (rows (DownloadData.sales saved)) = 1210%nat)).
Proof.
  intros e Hg. unfold DownloadData.main.
  destruct (DownloadData.try_download_from_s3 e) as [saved|].
  - exists saved. split; [reflexivity|now left].
  - unfold DownloadData.create_sample_data.
    set (ids := map article_id DownloadData.sample_products_df).
    destruct (sample_records_full (DownloadData.rng e) (DownloadData.now e)
                ids Hg) as (Hlen & Hunits & _).
    destruct (sample_aggregate_full
                (DownloadData.sample_records (DownloadData.rng e)
                   (DownloadData.now e) ids))
      as (fr & Hfr & _).
    + intros E. rewrite E in Hlen. discriminate.
    + exact Hunits.
    + rewrite Hfr. eexists. split; [reflexivity|]. right.
      split; [reflexivity|]. split; [reflexivity|]. simpl.
      rewrite <- (length_map row_key), (sample_aggregate_rows _ _ Hfr).
      rewrite (group_index_length key_eqb key_ltb key_eqb_eq).
      * rewrite length_map, Hlen. reflexivity.
      * apply sample_records_keys. exact sample_products_NoDup.
Qed.

(** A run that finds no articles file saves the sample catalog. *)
Lemma main_saves_tables_witness :
  exists saved : DownloadData.Store,
    DownloadData.main offline_env = Some saved
    /\ DownloadData.products saved = DownloadData.sample_products_df
    /\ length (rows (DownloadData.sales saved)) = 1210%nat.
Proof.
  destruct (main_saves_tables offline_env) as (saved & Hmain & Hcase).
  - unfold draws_in_range, offline_env, flat_rng. simpl.
    repeat split; try lia; unfold Qle, Qlt; simpl; lia.
  - exists saved. split; [exact Hmain|].
    destruct Hcase as [Htry|(_ & Hp & Hl)]; [discriminate Htry|].
    split; [exact Hp|exact Hl].
Defined.

(** ** The branch without pyarrow *)

(** X11. Without [pyarrow] the run reads the first listed transaction file
    and no other: it saves the whole catalog and an aggregate that counts
    every row of that file, whatever its article; when that file was not
    downloaded the attempt fails, even if another file was. *)
Theorem first_file_branch :
  forall (e : DownloadData.Env) (articles_df : list Product)
         (first : option (list (list Transaction)))
         (others : list (option (list (list Transaction)))),
    DownloadData.articles_file e = Some (Some articles_df) ->
    DownloadData.pyarrow e = false ->
    DownloadData.transaction_files e = first :: others ->
    DownloadData.downloaded_count (first :: others) <> 0%nat ->
    match first with
    | Some batches =>
        exists saved : DownloadData.Store,
          DownloadData.try_download_from_s3 e = Some saved
          /\ DownloadData.products saved = articles_df
          /\ Pandas.Zsum (map units_sold (rows (DownloadData.sales saved)))
             = Z.of_nat (length (concat batches))
          /\ Pandas.Qsum (map total_revenue
                              (rows (DownloadData.sales saved)))
             == Pandas.Qsum (map price (concat batches))
    | None => DownloadData.try_download_from_s3 e = None
    end.
Proof.
  intros e articles_df first others Ha Hpy Hfiles Hcount.
  unfold DownloadData.try_download_from_s3.
  rewrite Ha, Hpy, Hfiles.
  destruct (Nat.eqb_spec (DownloadData.downloaded_count (first :: others)) 0)
    as [E|_]; [congruence|].
  unfold DataLoader.create_product_index, DownloadData.process_first_file.
  destruct first as [batches|]; [|reflexivity].
  eexists. split; [reflexivity|]. simpl.
  split; [reflexivity|]. split; [apply units_sum|apply revenue_sum].
Qed.

(** The run over [pandas_env]: the four rows of the first file are
    counted, of three articles, next to a catalog of one. *)
Lemma first_file_branch_witness :
  exists saved : DownloadData.Store,
    DownloadData.try_download_from_s3 pandas_env = Some saved
    /\ DownloadData.products saved = [shoes]
    /\ Pandas.Zsum (map units_sold (rows (DownloadData.sales saved)))
       = Z.of_nat (length (concat three_batches))
    /\ Pandas.Qsum (map total_revenue (rows (DownloadData.sales saved)))
       == Pandas.Qsum (map price (concat three_batches)).
Proof.
  apply (first_file_branch pandas_env [shoes] (Some three_batches)
           [Some [[mkTransaction 108775001 19725 10]]]).
  - reflexivity.
  - reflexivity.
  - reflexivity.
  - vm_compute. discriminate.
Defined.

(** * Further properties of the query service *)

Section HistoryFacts.
Import AnalyticsService.

(** The history of an article that has a sale, for a [days] in range. *)
Lemma history_in_range day_limit (self : Service) article_id days
    first others :
  filter (fun r => String.eqb (sale_article_id r) article_id) (sales_df self)
  = first :: others ->
  Z.abs days <= 999999999 ->
  Z.abs days <= day_limit ->
  Z.abs (max_date first others - days) <= day_limit ->
  exists name,
    get_sales_history day_limit self article_id days
    = Ok (let window :=
            Pandas.sort_values sale_date
              (filter (fun r => max_date first others - days <=? sale_date r)
                      (first :: others)) in
          {| h_article_id := article_id; product_name := name;
             data := map data_point window;
             h_total_revenue := Pandas.Qsum (map sale_total_revenue window);
             total_units := Pandas.Zsum (map sale_units_sold window) |}).
Proof.
  intros Hf Htd Hspan Hstart. unfold get_sales_history.
  destruct (sales_df self) as [|s0 ss] eqn:Hdf; [discriminate|].
  rewrite Hf.
  unfold timedelta, timestamp_sub, in_bounds.
  rewrite (proj2 (Z.leb_le _ _) Htd). cbn [bind].
  rewrite (proj2 (Z.leb_le _ _) Hspan), (proj2 (Z.leb_le _ _) Hstart).
  cbn [andb bind]. eexists. reflexivity.
Qed.

(** The name of a history of a sales table that has a row. *)
Lemma history_product_name day_limit (self : Service) article_id days
    history :
  sales_df self <> [] ->
  get_sales_history day_limit self article_id days = Ok history ->
  product_name history
  = match get_product_by_id self article_id with
    | Some product => p_prod_name product
    | None => Some "Unknown Product"%string
    end.
Proof.
  intros Hne. unfold get_sales_history.
  destruct (sales_df self) as [|s0 ss]; [congruence|].
  destruct (filter _ (s0 :: ss)) as [|first others];
    [intros [= <-]; reflexivity|].
  destruct (timedelta days) as [delta|]; [|discriminate]. cbn [bind].
  destruct (timestamp_sub day_limit (max_date first others) delta)
    as [start_date|]; [|discriminate].
  cbn [bind]. intros [= <-]. reflexivity.
Qed.

Lemma sorted_last_max (l : list SaleRow) (x : SaleRow) :
  StronglySorted (fun a b => sale_date a <= sale_date b) (l ++ [x]) ->
  forall r, In r (l ++ [x]) -> sale_date r <= sale_date x.
Proof.
  induction l as [|a l IH]; simpl; intros Hs r Hr.
  - destruct Hr as [<-|[]]. lia.
  - inversion Hs as [|? ? Hs' Ha]; subst. destruct Hr as [<-|Hr].
    + rewrite Forall_forall in Ha. apply Ha. apply in_or_app. right.
      now left.
    + now apply IH.
Qed.
End HistoryFacts.

(** X12. For an article that has a sale and a [days] that is not negative
    (and in the range of the date arithmetic) the sales endpoint never
    answers 404: [get_sales_history] returns a history that is not empty,
    whose points are dated within the [days] before the article's latest
    sale and whose last point is that latest sale. The endpoint answers 200
    with this history when its product_name is a text (the name of the
    first product row of the id, or 'Unknown Product' when no row has the
    id); when that product's prod_name is null the body fails the check of
    the response model and the answer is 500. *)
Theorem sales_endpoint_serves_latest_sale :
  forall (day_limit : Z) (analytics : AnalyticsService.Service)
         (article_id : string) (days latest : Z),
    latest_sale analytics article_id = Some latest ->
    0 <= days <= 999999999 ->
    days <= day_limit ->
    Z.abs (latest - days) <= day_limit ->
    exists (history : AnalyticsService.SalesHistory)
           (before : list AnalyticsService.DataPoint)
           (last_point : AnalyticsService.DataPoint),
      AnalyticsService.get_sales_history day_limit analytics article_id days
      = AnalyticsService.Ok history
      /\ AnalyticsService.data history = before ++ [last_point]
      /\ AnalyticsService.dp_date last_point = latest
      /\ (forall p, In p (AnalyticsService.data history) ->
            latest - days <= AnalyticsService.dp_date p <= latest)
      /\ AnalyticsService.product_name history
         = match AnalyticsService.get_product_by_id analytics article_id with
           | Some product => AnalyticsService.p_prod_name product
           | None => Some "Unknown Product"%string
           end
      /\ Routes.get_product_sales day_limit analytics article_id days
         = match AnalyticsService.product_name history with
           | Some _ => Routes.Http200 history
           | None => Routes.Http500
           end
      /\ (forall detail,
            Routes.get_product_sales day_limit analytics article_id days
            <> Routes.Http404 detail).
Proof.
  intros day_limit analytics article_id days latest Hlatest Hdays Hspan
    Hstart.
  unfold latest_sale in Hlatest.
  destruct (filter _ (AnalyticsService.sales_df analytics))
    as [|first others] eqn:Hf; [discriminate|].
  injection Hlatest as Hmax.
  assert (Htable : AnalyticsService.sales_df analytics <> []).
  { intros E. rewrite E in Hf. discriminate. }
  destruct (history_in_range day_limit analytics article_id days first others
              Hf) as (name & Hget); [lia|lia|now rewrite Hmax|].
  pose proof (history_product_name day_limit analytics article_id days _
                Htable Hget) as Hname.
  rewrite Hmax in Hget. cbv zeta in Hget, Hname.
  cbn [AnalyticsService.product_name] in Hname.
  destruct (max_date_spec first others) as [Hin Hle].
  rewrite Hmax in Hin, Hle.
  set (window := Pandas.sort_values AnalyticsService.sale_date
                   (filter (fun r => latest - days
                                     <=? AnalyticsService.sale_date r)
                           (first :: others))) in *.
  assert (Hperm : Permutation window
                    (filter (fun r => latest - days
                                      <=? AnalyticsService.sale_date r)
                            (first :: others)))
    by apply sort_values_perm.
  assert (Hwin : forall r, In r window ->
            latest - days <= AnalyticsService.sale_date r <= latest).
  { intros r Hr. apply (Permutation_in _ Hperm) in Hr.
    apply filter_In in Hr as [Hr Hd]. apply Z.leb_le in Hd.
    specialize (Hle r Hr). lia. }
  assert (Hhas : exists r, In r window /\ AnalyticsService.sale_date r = latest).
  { apply in_map_iff in Hin as (r & Hd & Hr). exists r. split; [|exact Hd].
    apply (Permutation_in _ (Permutation_sym Hperm)).
    apply filter_In. split; [exact Hr|]. apply Z.leb_le. lia. }
  assert (Hsorted : StronglySorted
                      (fun a b => AnalyticsService.sale_date a
                                  <= AnalyticsService.sale_date b) window)
    by apply sort_values_sorted.
  destruct Hhas as (top & Htop & Htopd).
  destruct (exists_last (l := window)) as (front & x & Hx).
  { intros E. rewrite E in Htop. destruct Htop. }
  assert (Hroute :
    Routes.get_product_sales day_limit analytics article_id days
    = match name with
      | Some _ =>
          Routes.Http200
            {| AnalyticsService.h_article_id := article_id;
               AnalyticsService.product_name := name;
               AnalyticsService.data :=
                 map AnalyticsService.data_point window;
               AnalyticsService.h_total_revenue :=
                 Pandas.Qsum (map AnalyticsService.sale_total_revenue window);
               AnalyticsService.total_units :=
                 Pandas.Zsum (map AnalyticsService.sale_units_sold window) |}
      | None => Routes.Http500
      end).
  { unfold Routes.get_product_sales. rewrite Hget.
    cbn [AnalyticsService.data AnalyticsService.product_name].
    rewrite Hx, map_app.
    destruct (map AnalyticsService.data_point front); reflexivity. }
  exists {| AnalyticsService.h_article_id := article_id;
            AnalyticsService.product_name := name;
            AnalyticsService.data := map AnalyticsService.data_point window;
            AnalyticsService.h_total_revenue :=
              Pandas.Qsum (map AnalyticsService.sale_total_revenue window);
            AnalyticsService.total_units :=
              Pandas.Zsum (map AnalyticsService.sale_units_sold window) |},
         (map AnalyticsService.data_point front),
         (AnalyticsService.data_point x).
  split; [exact Hget|].
  cbn [AnalyticsService.data AnalyticsService.product_name].
  split; [|split; [|split; [|split; [|split]]]].
  - now rewrite Hx, map_app.
  - simpl. rewrite Hx in Hsorted, Htop, Hwin.
    pose proof (sorted_last_max front x Hsorted top Htop) as Hmaxd.
    assert (Hxin : In x (front ++ [x])) by (apply in_or_app; right; now left).
    specialize (Hwin x Hxin). lia.
  - intros p Hp.
    apply in_map_iff in Hp as (r & <- & Hr). simpl. now apply Hwin.
  - exact Hname.
  - exact Hroute.
  - intros detail. rewrite Hroute. destruct name; discriminate.
Qed.

(** The last 90 days of article 108775001 in [small_service], whose
    product has a name, end with its sale of day 19730: the answer is 200. *)
Lemma sales_endpoint_serves_latest_sale_witness :
  exists (history : AnalyticsService.SalesHistory)
         (before : list AnalyticsService.DataPoint)
         (last_point : AnalyticsService.DataPoint),
    Routes.get_product_sales 106751 small_service "108775001" 90
    = Routes.Http200 history
    /\ AnalyticsService.data history = before ++ [last_point]
    /\ AnalyticsService.dp_date last_point = 19730.
Proof.
  destruct (sales_endpoint_serves_latest_sale 106751 small_service
              "108775001" 90 19730)
    as (history & before & last_point & Hget & Hdata & Hlast & _ & Hname
        & Hroute & _).
  - vm_compute. reflexivity.
  - lia.
  - lia.
  - lia.
  - exists history, before, last_point.
    split; [|split; [exact Hdata|exact Hlast]].
    rewrite Hroute, Hname. reflexivity.
Defined.

(** X13. A negative [days] empties the window: for an article that has
    sales the history starts after its latest sale, holds no point, and the
    sales endpoint answers 404 as for an unknown product. *)
Theorem negative_days_serve_not_found :
  forall (day_limit : Z) (analytics : AnalyticsService.Service)
         (article_id : string) (days latest : Z),
    latest_sale analytics article_id = Some latest ->
    - 999999999 <= days < 0 ->
    - days <= day_limit ->
    Z.abs (latest - days) <= day_limit ->
    exists history : AnalyticsService.SalesHistory,
      AnalyticsService.get_sales_history day_limit analytics article_id days
      = AnalyticsService.Ok history
      /\ AnalyticsService.data history = []
      /\ AnalyticsService.h_total_revenue history == 0
      /\ AnalyticsService.total_units history = 0
      /\ Routes.get_product_sales day_limit analytics article_id days
         = Routes.Http404 Routes.no_sales.
Proof.
  intros day_limit analytics article_id days latest Hlatest Hdays Hspan
    Hstart.
  unfold latest_sale in Hlatest.
  destruct (filter _ (AnalyticsService.sales_df analytics))
    as [|first others] eqn:Hf; [discriminate|].
  injection Hlatest as Hmax.
  destruct (history_in_range day_limit analytics article_id days first others
              Hf) as (name & Hget); [lia|lia|now rewrite Hmax|].
  rewrite Hmax in Hget. cbv zeta in Hget.
  destruct (max_date_spec first others) as [_ Hle]. rewrite Hmax in Hle.
  assert (Hnone : filter (fun r => latest - days
                                   <=? AnalyticsService.sale_date r)
                         (first :: others) = []).
  { generalize (first :: others) Hle. intros l Hl.
    induction l as [|r l IH]; [reflexivity|]. simpl.
    destruct (Z.leb_spec (latest - days) (AnalyticsService.sale_date r))
      as [Hd|_].
    - specialize (Hl r (or_introl eq_refl)). lia.
    - apply IH. intros x Hx. apply Hl. now right. }
  rewrite Hnone in Hget. simpl in Hget.
  eexists. split; [exact Hget|]. simpl.
  split; [reflexivity|]. split; [reflexivity|]. split; [reflexivity|].
  unfold Routes.get_product_sales. rewrite Hget. reflexivity.
Qed.

(** Article 108775001 of [small_service] has three sales; asked for the
    last -1 days the endpoint answers 404. *)
Lemma negative_days_serve_not_found_witness :
  exists history : AnalyticsService.SalesHistory,
    AnalyticsService.get_sales_history 106751 small_service "108775001" (-1)
    = AnalyticsService.Ok history
    /\ AnalyticsService.data history = []
    /\ Routes.get_product_sales 106751 small_service "108775001" (-1)
       = Routes.Http404 Routes.no_sales.
Proof.
  destruct (negative_days_serve_not_found 106751 small_service "108775001"
              (-1) 19730)
    as (history & Hget & Hdata & _ & _ & Hroute).
  - vm_compute. reflexivity.
  - lia.
  - lia.
  - lia.
  - exists history. auto.
Defined.

(** ** Looking a product up *)

Lemma filter_first {A : Type} (f : A -> bool) (l : list A) (x : A) :
  (exists rest, filter f l = x :: rest)
  <-> exists before after,
        l = before ++ x :: after /\ f x = true
        /\ forall y, In y before -> f y = false.
Proof.
  split.
  - induction l as [|a l IH]; simpl; [intros (rest & E); discriminate|].
    destruct (f a) eqn:Fa.
    + intros (rest & [= -> _]). exists [], l. simpl. repeat split; tauto.
    + intros H. destruct (IH H) as (before & after & -> & Fx & Hb).
      exists (a :: before), after. repeat split; [exact Fx|].
      intros y [<-|Hy]; [exact Fa|now apply Hb].
  - intros (before & after & -> & Fx & Hb).
    induction before as [|b before IH]; simpl.
    + rewrite Fx. eauto.
    + rewrite (Hb b (or_introl eq_refl)). apply IH.
      intros y Hy. apply Hb. now right.
Qed.

(** X14. [get_product_by_id] returns the first row of the product table
    that has the requested id, whatever rows of the same id come after it,
    and nothing when no row has it. *)
Theorem get_product_by_id_first_match :
  forall (self : AnalyticsService.Service) (article_id : string)
         (product : AnalyticsService.ProductRow),
    AnalyticsService.get_product_by_id self article_id = Some product
    <-> exists before after,
          AnalyticsService.products_df self = before ++ product :: after
          /\ AnalyticsService.p_article_id product = article_id
          /\ forall p, In p before ->
                       AnalyticsService.p_article_id p <> article_id.
Proof.
  intros self article_id product.
  assert (Hget : AnalyticsService.get_product_by_id self article_id
                 = Some product
                 <-> exists rest,
                       filter (fun p => String.eqb
                                          (AnalyticsService.p_article_id p)
                                          article_id)
                              (AnalyticsService.products_df self)
                       = product :: rest).
  { unfold AnalyticsService.get_product_by_id.
    destruct (AnalyticsService.products_df self) as [|p0 ps].
    - simpl. split; [discriminate|intros (rest & E); discriminate].
    - destruct (filter _ (p0 :: ps)) as [|x xs].
      + split; [discriminate|intros (rest & E); discriminate].
      + split; [intros [= ->]; eauto|intros (rest & [= -> _]); reflexivity]. }
  rewrite Hget, filter_first. split.
  - intros (before & after & Hdf & Hx & Hb). exists before, after.
    split; [exact Hdf|]. split; [now apply String.eqb_eq|].
    intros p Hp. apply String.eqb_neq. now apply Hb.
  - intros (before & after & Hdf & Hx & Hb). exists before, after.
    split; [exact Hdf|]. split; [now apply String.eqb_eq|].
    intros p Hp. apply String.eqb_neq. now apply Hb.
Qed.

(** ** Loading the tables *)

(** X15. [load_data] leaves the service with both tables as read or with
    both empty, never with one table of a pair: when both files are read
    the service holds the two frames, and a service that holds any row
    holds the frames of two files that were both read. *)
Theorem load_data_both_or_neither :
  forall data_dir : AnalyticsService.DataDir,
    (forall products sales,
       AnalyticsService.products_parquet data_dir
       = AnalyticsService.Parquet products ->
       AnalyticsService.sales_parquet data_dir
       = AnalyticsService.Parquet sales ->
       AnalyticsService.load_data data_dir
       = AnalyticsService.Ok
           {| AnalyticsService.products_df := products;
              AnalyticsService.sales_df := sales |})
    /\ (forall frames,
          AnalyticsService.load_data data_dir = AnalyticsService.Ok frames ->
          frames <> AnalyticsService.empty_frames ->
          AnalyticsService.products_parquet data_dir
          = AnalyticsService.Parquet (AnalyticsService.products_df frames)
          /\ AnalyticsService.sales_parquet data_dir
             = AnalyticsService.Parquet (AnalyticsService.sales_df frames))
    /\ (AnalyticsService.products_parquet data_dir
        = AnalyticsService.Unreadable
        \/ AnalyticsService.sales_parquet data_dir
           = AnalyticsService.Unreadable ->
        AnalyticsService.load_data data_dir
        = AnalyticsService.Ok AnalyticsService.empty_frames).
Proof.
  intros data_dir. unfold AnalyticsService.load_data. split; [|split].
  - intros products sales -> ->. reflexivity.
  - intros frames.
    destruct (AnalyticsService.products_parquet data_dir),
             (AnalyticsService.sales_parquet data_dir);
      simpl; intros [= <-] Hne; try congruence.
    split; reflexivity.
  - destruct (AnalyticsService.products_parquet data_dir),
             (AnalyticsService.sales_parquet data_dir);
      simpl; intros [H|H]; try discriminate; reflexivity.
Qed.

(** ** The summary of a product's sales *)

Lemma bounded_distinct_length (l : list Z) (a : Z) (n : nat) :
  NoDup l -> (forall x, In x l -> a <= x < a + Z.of_nat n) ->
  (length l <= n)%nat.
Proof.
  intros Hnd Hb.
  assert (Hmap : NoDup (map (fun x => Z.to_nat (x - a)) l)).
  { apply NoDup_map_NoDup_ForallPairs; [|exact Hnd].
    intros x y Hx Hy E. specialize (Hb x Hx) as Hbx.
    specialize (Hb y Hy) as Hby. lia. }
  assert (Hincl : incl (map (fun x => Z.to_nat (x - a)) l) (seq 0 n)).
  { intros m Hm. apply in_map_iff in Hm as (x & <- & Hx).
    specialize (Hb x Hx). apply in_seq. lia. }
  pose proof (NoDup_incl_length Hmap Hincl) as Hlen.
  now rewrite length_map, length_seq in Hlen.
Qed.

Lemma python_sum_from (xs : list Q) : forall a : Q,
  fold_left Qplus xs a == a + Pandas.Qsum xs.
Proof.
  induction xs as [|x xs IH]; intros a; simpl; [ring|].
  rewrite IH. ring.
Qed.

Lemma python_sum_Qsum (xs : list Q) : Python.sum xs == Pandas.Qsum xs.
Proof. unfold Python.sum. rewrite python_sum_from. ring. Qed.

Section SummaryFacts.
Import AnalyticsService.

(** The rows of the window of a [days] that is not negative. *)
Lemma window_has_latest first others days :
  0 <= days ->
  filter (fun r => max_date first others - days <=? sale_date r)
         (first :: others) <> [].
Proof.
  intros Hdays E.
  destruct (max_date_spec first others) as [Hin _].
  apply in_map_iff in Hin as (r & Hd & Hr).
  assert (Hw : In r (filter (fun r => max_date first others - days
                                      <=? sale_date r) (first :: others))).
  { apply filter_In. split; [exact Hr|]. apply Z.leb_le. lia. }
  rewrite E in Hw. destruct Hw.
Qed.

(** The summary of an article that has a sale. *)
Lemma summary_in_range day_limit (self : Service) article_id first others :
  filter (fun r => String.eqb (sale_article_id r) article_id) (sales_df self)
  = first :: others ->
  90 <= day_limit ->
  Z.abs (max_date first others - 90) <= day_limit ->
  let window :=
    filter (fun r => max_date first others - 90 <=? sale_date r)
           (first :: others) in
  exists s,
    get_sales_summary day_limit self article_id = Ok s
    /\ days_of_data s = Some (length window)
    /\ (1 <= length window)%nat
    /\ avg_daily_revenue s * inject_Z (Z.of_nat (length window))
       == sum_total_revenue s
    /\ avg_daily_units s * inject_Z (Z.of_nat (length window))
       == inject_Z (sum_total_units s)
    /\ sum_total_revenue s == Pandas.Qsum (map sale_total_revenue window)
    /\ sum_total_units s = Pandas.Zsum (map sale_units_sold window)
    /\ trend s <> "unknown"%string
    /\ ((length window < 14)%nat <-> trend s = "insufficient_data"%string).
Proof.
  intros Hf Hspan Hstart window.
  destruct (history_in_range day_limit self article_id 90 first others Hf)
    as (name & Hget); [lia|lia|exact Hstart|].
  cbv zeta in Hget. fold window in Hget.
  set (sorted := Pandas.sort_values sale_date window) in *.
  assert (Hperm : Permutation sorted window) by apply sort_values_perm.
  assert (Hlen : length sorted = length window)
    by now apply Permutation_length.
  assert (Hpos : (1 <= length window)%nat).
  { pose proof (window_has_latest first others 90) as Hne.
    fold window in Hne. destruct window; [exfalso; apply Hne; [lia|easy]|].
    simpl. lia. }
  unfold get_sales_summary. rewrite Hget. cbn [bind data].
  destruct (map data_point sorted) as [|d ds] eqn:Hdata.
  { apply (f_equal (@length DataPoint)) in Hdata.
    rewrite length_map in Hdata. simpl in Hdata. lia. }
  rewrite <- Hdata.
  assert (Hn : length (map data_point sorted) = length window)
    by now rewrite length_map.
  assert (Hnz : ~ inject_Z (Z.of_nat (length window)) == 0)
    by (apply inject_Z_nonzero; lia).
  eexists. split; [reflexivity|].
  cbn [days_of_data avg_daily_revenue avg_daily_units sum_total_revenue
       sum_total_units trend h_total_revenue total_units].
  rewrite Hn.
  split; [reflexivity|]. split; [exact Hpos|].
  split; [field; exact Hnz|]. split; [field; exact Hnz|].
  split; [now apply Qsum_perm, Permutation_map|].
  split; [now apply Zsum_perm, Permutation_map|].
  destruct (Nat.leb_spec 14 (length window)) as [H14|H14].
  - split.
    + destruct (negb _); [discriminate|]. destruct (negb _); discriminate.
    + split; [lia|].
      destruct (negb _); [discriminate|]. destruct (negb _); discriminate.
  - split; [discriminate|]. split; [reflexivity|lia].
Qed.
End SummaryFacts.

(** X16. The summary of an article that has a sale (within the range of
    the date arithmetic): it is computed over the rows of the 90 days before
    the article's latest sale, of which there is at least one; the daily
    averages times the number of rows give back the totals; the trend is
    never 'unknown', and it is 'insufficient_data' exactly when the window
    has fewer than 14 rows. *)
Theorem summary_of_a_sold_article :
  forall (day_limit : Z) (analytics : AnalyticsService.Service)
         (article_id : string) (latest : Z),
    latest_sale analytics article_id = Some latest ->
    90 <= day_limit ->
    Z.abs (latest - 90) <= day_limit ->
    let window :=
      filter (fun r => latest - 90 <=? AnalyticsService.sale_date r)
             (filter (fun r => String.eqb (AnalyticsService.sale_article_id r)
                                          article_id)
                     (AnalyticsService.sales_df analytics)) in
    exists s : AnalyticsService.SalesSummary,
      AnalyticsService.get_sales_summary day_limit analytics article_id
      = AnalyticsService.Ok s
      /\ AnalyticsService.days_of_data s = Some (length window)
      /\ (1 <= length window)%nat
      /\ AnalyticsService.avg_daily_revenue s
         * inject_Z (Z.of_nat (length window))
         == AnalyticsService.sum_total_revenue s
      /\ AnalyticsService.avg_daily_units s
         * inject_Z (Z.of_nat (length window))
         == inject_Z (AnalyticsService.sum_total_units s)
      /\ AnalyticsService.sum_total_revenue s
         == Pandas.Qsum (map AnalyticsService.sale_total_revenue window)
      /\ AnalyticsService.sum_total_units s
         = Pandas.Zsum (map AnalyticsService.sale_units_sold window)
      /\ AnalyticsService.trend s <> "unknown"%string
      /\ ((length window < 14)%nat
          <-> AnalyticsService.trend s = "insufficient_data"%string).
Proof.
  intros day_limit analytics article_id latest Hlatest Hspan Hstart.
  unfold latest_sale in Hlatest.
  destruct (filter _ (AnalyticsService.sales_df analytics))
    as [|first others] eqn:Hf; [discriminate|].
  injection Hlatest as Hmax. rewrite <- Hmax in *.
  exact (summary_in_range day_limit analytics article_id first others Hf
           Hspan Hstart).
Qed.

(** The sixteen daily sales of [growing_service]: 240 in all, 15 a day. *)
Lemma summary_of_a_sold_article_witness :
  exists s : AnalyticsService.SalesSummary,
    AnalyticsService.get_sales_summary 106751 growing_service "108775001"
    = AnalyticsService.Ok s
    /\ AnalyticsService.days_of_data s = Some 16%nat
    /\ AnalyticsService.avg_daily_revenue s * inject_Z (Z.of_nat 16)
       == AnalyticsService.sum_total_revenue s
    /\ AnalyticsService.sum_total_revenue s == 240.
Proof.
  destruct (summary_of_a_sold_article 106751 growing_service "108775001"
              19715)
    as (s & Hget & Hdays & _ & Havg & _ & Hsum & _).
  - vm_compute. reflexivity.
  - lia.
  - lia.
  - exists s. split; [exact Hget|]. split; [exact Hdays|].
    split; [exact Havg|]. rewrite Hsum. vm_compute. reflexivity.
Defined.

(** X17. On a sales table with one row per article and day, as the
    aggregator writes it, the summary of an article that has a sale covers
    between 1 and 91 days. *)
Theorem summary_covers_at_most_91_days :
  forall (day_limit : Z) (analytics : AnalyticsService.Service)
         (article_id : string) (latest : Z),
    latest_sale analytics article_id = Some latest ->
    90 <= day_limit ->
    Z.abs (latest - 90) <= day_limit ->
    NoDup (map AnalyticsService.sale_date
               (filter (fun r => String.eqb
                                   (AnalyticsService.sale_article_id r)
                                   article_id)
                       (AnalyticsService.sales_df analytics))) ->
    exists (s : AnalyticsService.SalesSummary) (n : nat),
      AnalyticsService.get_sales_summary day_limit analytics article_id
      = AnalyticsService.Ok s
      /\ AnalyticsService.days_of_data s = Some n
      /\ (1 <= n <= 91)%nat.
Proof.
  intros day_limit analytics article_id latest Hlatest Hspan Hstart Hnd.
  unfold latest_sale in Hlatest.
  destruct (filter _ (AnalyticsService.sales_df analytics))
    as [|first others] eqn:Hf; [discriminate|].
  injection Hlatest as Hmax.
  destruct (summary_in_range day_limit analytics article_id first others Hf
              Hspan) as (s & Hget & Hdays & Hpos & _);
    [now rewrite Hmax|].
  rewrite Hmax in Hdays, Hpos.
  destruct (max_date_spec first others) as [_ Hle]. rewrite Hmax in Hle.
  exists s, (length (filter (fun r => latest - 90
                                      <=? AnalyticsService.sale_date r)
                            (first :: others))).
  split; [exact Hget|]. split; [exact Hdays|]. split; [exact Hpos|].
  rewrite <- (length_map AnalyticsService.sale_date).
  apply (bounded_distinct_length _ (latest - 90)).
  - now apply NoDup_map_filter.
  - intros d Hd. apply in_map_iff in Hd as (r & <- & Hr).
    apply filter_In in Hr as [Hr Hlo]. apply Z.leb_le in Hlo.
    specialize (Hle r Hr). lia.
Qed.

(** The dates of the sixteen sales of [growing_service] are distinct. *)
Lemma summary_covers_at_most_91_days_witness :
  exists (s : AnalyticsService.SalesSummary) (n : nat),
    AnalyticsService.get_sales_summary 106751 growing_service "108775001"
    = AnalyticsService.Ok s
    /\ AnalyticsService.days_of_data s = Some n
    /\ (1 <= n <= 91)%nat.
Proof.
  apply (summary_covers_at_most_91_days 106751 growing_service "108775001"
           19715).
  - vm_compute. reflexivity.
  - lia.
  - lia.
  - vm_compute. repeat constructor; simpl; intuition discriminate.
Defined.

(** * The forecast *)

Section Loops.
Context {A B : Type} (f : A -> option B).

Lemma collect_Forall2 (l : list A) : forall ys,
  Python.collect (map f l) = Some ys ->
  Forall2 (fun x y => f x = Some y) l ys.
Proof.
  induction l as [|x l IH]; simpl; intros ys.
  - intros [= <-]. constructor.
  - destruct (f x) as [y|] eqn:Fx; [|discriminate].
    destruct (Python.collect (map f l)) as [ys'|]; [|discriminate].
    intros [= <-]. constructor; [exact Fx|now apply IH].
Qed.

Lemma collect_exists (l : list A) :
  (forall x, In x l -> exists y, f x = Some y) ->
  exists ys, Python.collect (map f l) = Some ys.
Proof.
  induction l as [|x l IH]; simpl; intros H; [eauto|].
  destruct (H x (or_introl eq_refl)) as (y & ->).
  destruct IH as (ys & ->); [intros z Hz; apply H; now right|]. eauto.
Qed.

Lemma collect_None (l : list A) (x : A) :
  In x l -> f x = None -> Python.collect (map f l) = None.
Proof.
  induction l as [|a l IH]; simpl; [tauto|].
  intros [->|Hx] Fx.
  - now rewrite Fx.
  - destruct (f a); [|reflexivity]. now rewrite IH.
Qed.

Lemma Forall2_source (l : list A) (ys : list B) (P : A -> B -> Prop) :
  Forall2 P l ys -> forall y, In y ys -> exists x, In x l /\ P x y.
Proof.
  induction 1 as [|x y l ys Hxy _ IH]; intros z; simpl; [tauto|].
  intros [<-|Hz]; [eauto|].
  destruct (IH z Hz) as (x' & Hx' & Hp). eauto.
Qed.

Lemma Forall2_nth (l : list A) (ys : list B) (P : A -> B -> Prop) :
  Forall2 P l ys -> forall k y, nth_error ys k = Some y ->
  exists x, nth_error l k = Some x /\ P x y.
Proof.
  induction 1 as [|x y l ys Hxy _ IH]; intros k z.
  - destruct k; discriminate.
  - destruct k as [|k]; simpl; [intros [= <-]; eauto|apply IH].
Qed.
End Loops.

Section Rounding.
Import DownloadData.

Lemma round_half_even_mono (x y : Q) :
  (x <= y)%Q -> round_half_even x <= round_half_even y.
Proof.
  intros Hxy. unfold round_half_even.
  pose proof (Qfloor_resp_le x y Hxy) as Hfl.
  pose proof (Qfloor_le x) as Hx1. pose proof (Qlt_floor x) as Hx2.
  pose proof (Qfloor_le y) as Hy1. pose proof (Qlt_floor y) as Hy2.
  set (f := Qfloor x) in *. set (g := Qfloor y) in *.
  destruct (Z.eq_dec f g) as [E|E].
  - rewrite <- E in *. clear E.
    destruct (Qcompare_spec (x - inject_Z f) (1 # 2)) as [Ex|Ex|Ex];
      destruct (Qcompare_spec (y - inject_Z f) (1 # 2)) as [Ey|Ey|Ey];
      try lia; try (exfalso; lra);
      destruct (Z.even f); lia.
  - assert (Hlt : f + 1 <= g) by lia.
    destruct (x - inject_Z f ?= 1 # 2)%Q; destruct (y - inject_Z g ?= 1 # 2)%Q;
      try destruct (Z.even f); try destruct (Z.even g); lia.
Qed.

Lemma round_half_even_Z (z : Z) : round_half_even (inject_Z z) = z.
Proof.
  unfold round_half_even. rewrite Qfloor_Z.
  destruct (Qcompare_spec (inject_Z z - inject_Z z) (1 # 2)) as [E|E|E];
    [exfalso; lra|reflexivity|exfalso; lra].
Qed.
End Rounding.

Section ForecastFacts.
Import AnalyticsService ForecastService.

Lemma round1_mono (x y : Q) : (x <= y)%Q -> (round1 x <= round1 y)%Q.
Proof.
  intros Hxy. unfold round1.
  assert (H : DownloadData.round_half_even (x * 10)
              <= DownloadData.round_half_even (y * 10)).
  { apply round_half_even_mono. lra. }
  rewrite Zle_Qle in H.
  unfold Qdiv. apply Qmult_le_compat_r; [exact H|]. discriminate.
Qed.

Lemma round1_zero : round1 0 == 0.
Proof. vm_compute. reflexivity. Qed.

Lemma max0_nonneg (x : Q) : (0 <= max0 x)%Q.
Proof.
  unfold max0. destruct (Qle_bool x 0) eqn:E; [lra|].
  destruct (Qlt_le_dec 0 x) as [H|H]; [lra|].
  apply Qle_bool_iff in H. congruence.
Qed.

(** One iteration of the loop. *)
Lemma forecast_point_Some uniform avg_units trend last_date i p :
  forecast_point uniform avg_units trend last_date i = Some p ->
  fp_date p = last_date + Z.of_nat i
  /\ (0 <= predicted_units p)%Q
  /\ (confidence_lower p <= predicted_units p)%Q
  /\ (predicted_units p <= confidence_upper p)%Q
  /\ ((90 <= i)%nat -> (confidence_lower p <= 0)%Q).
Proof.
  unfold forecast_point, add_days.
  destruct (_ && _); [|discriminate]. intros [= <-]. simpl.
  match goal with
  | |- context [max0 ?x] => set (predicted := max0 x);
                            pose proof (max0_nonneg x) as Hp
  end.
  fold predicted in Hp.
  set (u := ((1 # 10) + (1 # 100) * inject_Z (Z.of_nat i))%Q).
  assert (Hu : (0 <= u)%Q).
  { unfold u.
    assert (0 <= inject_Z (Z.of_nat i))%Q
      by (change 0%Q with (inject_Z 0); rewrite <- Zle_Qle; lia).
    lra. }
  split; [reflexivity|]. split; [|split; [|split]].
  - rewrite <- round1_zero. now apply round1_mono.
  - apply round1_mono. nra.
  - apply round1_mono. nra.
  - intros Hi. rewrite <- round1_zero. apply round1_mono.
    assert (Hu1 : (1 <= u)%Q).
    { unfold u.
      assert (90 <= inject_Z (Z.of_nat i))%Q
        by (change 90%Q with (inject_Z 90); rewrite <- Zle_Qle; lia).
      lra. }
    nra.
Qed.

Lemma forecast_point_in_range uniform avg_units trend last_date i :
  in_datetime (last_date + Z.of_nat i) = true ->
  Z.of_nat i <= 999999999 ->
  exists p, forecast_point uniform avg_units trend last_date i = Some p.
Proof.
  intros Hd Hi. unfold forecast_point, add_days.
  rewrite Hd, andb_true_r.
  destruct (Z.leb_spec (Z.abs (Z.of_nat i)) 999999999) as [_|]; [|lia].
  eauto.
Qed.

Lemma last_of_app (front : list DataPoint) (x first : DataPoint) others :
  first :: others = front ++ [x] -> last others first = x.
Proof.
  intros E. destruct front as [|a front]; simpl in E; injection E as -> ->.
  - reflexivity.
  - apply last_last.
Qed.

(** The forecast of a history that has a point. *)
Lemma generate_forecast_points uniform article_id front last_point days :
  exists avg_units trend,
    generate_forecast uniform article_id (front ++ [last_point]) days
    = match strptime (dp_date last_point) with
      | None => None
      | Some last_date =>
          match Python.collect
                  (map (forecast_point uniform avg_units trend last_date)
                       (seq 1 (Z.to_nat days))) with
          | None => None
          | Some forecast_points =>
              Some {| f_article_id := article_id;
                      forecast := forecast_points;
                      method := "moving_average_with_trend" |}
          end
      end.
Proof.
  unfold generate_forecast.
  destruct (front ++ [last_point]) as [|first others] eqn:E.
  - destruct front; discriminate.
  - rewrite (last_of_app front last_point first others (eq_sym E)).
    eexists _, _. reflexivity.
Qed.
End ForecastFacts.

(** X18. For a history that has a point and a horizon that stays within
    the dates a [datetime] holds (up to 9999-12-31), [generate_forecast]
    returns one point per day of the horizon, dated on the consecutive days
    after the last point of the history, under the method
    'moving_average_with_trend'; a horizon of zero or fewer days gives no
    point. *)
Theorem forecast_covers_the_horizon :
  forall (uniform : nat -> Q) (article_id : string)
         (front : list AnalyticsService.DataPoint)
         (last_point : AnalyticsService.DataPoint) (days : Z),
    ForecastService.datetime_min <= AnalyticsService.dp_date last_point ->
    AnalyticsService.dp_date last_point + Z.max days 0
    <= ForecastService.datetime_max ->
    exists f : ForecastService.Forecast,
      ForecastService.generate_forecast uniform article_id
        (front ++ [last_point]) days = Some f
      /\ ForecastService.method f = "moving_average_with_trend"%string
      /\ length (ForecastService.forecast f) = Z.to_nat days
      /\ map ForecastService.fp_date (ForecastService.forecast f)
         = map (fun i => AnalyticsService.dp_date last_point + Z.of_nat i)
               (seq 1 (Z.to_nat days)).
Proof.
  intros uniform article_id front last_point days Hmin Hmax.
  destruct (generate_forecast_points uniform article_id front last_point days)
    as (avg_units & trend & ->).
  set (last_date := AnalyticsService.dp_date last_point) in *.
  assert (Hlast : ForecastService.strptime last_date = Some last_date).
  { unfold ForecastService.strptime, ForecastService.in_datetime.
    destruct (Z.leb_spec ForecastService.datetime_min last_date); [|lia].
    destruct (Z.leb_spec last_date ForecastService.datetime_max);
      [reflexivity|lia]. }
  rewrite Hlast.
  destruct (collect_exists
              (ForecastService.forecast_point uniform avg_units trend
                 last_date)
              (seq 1 (Z.to_nat days))) as (ys & Hys).
  { intros i Hi. apply in_seq in Hi.
    apply forecast_point_in_range.
    - unfold ForecastService.in_datetime.
      destruct (Z.leb_spec ForecastService.datetime_min
                  (last_date + Z.of_nat i)); [|lia].
      destruct (Z.leb_spec (last_date + Z.of_nat i)
                  ForecastService.datetime_max); [reflexivity|lia].
    - unfold ForecastService.datetime_min, ForecastService.datetime_max in *.
      lia. }
  rewrite Hys. eexists. split; [reflexivity|]. split; [reflexivity|].
  cbn [ForecastService.forecast].
  apply collect_Forall2 in Hys.
  split.
  - apply Forall2_length in Hys. now rewrite <- Hys, length_seq.
  - induction Hys as [|i p l ys Hp _ IH]; simpl; [reflexivity|].
    apply forecast_point_Some in Hp as (-> & _). now rewrite IH.
Qed.

(** Three days after [short_history]. *)
Lemma forecast_covers_the_horizon_witness :
  exists f : ForecastService.Forecast,
    ForecastService.generate_forecast even_draws "108775001" short_history 3
    = Some f
    /\ ForecastService.method f = "moving_average_with_trend"%string
    /\ length (ForecastService.forecast f) = 3%nat
    /\ map ForecastService.fp_date (ForecastService.forecast f)
       = [19731; 19732; 19733].
Proof.
  apply (forecast_covers_the_horizon even_draws "108775001"
           [AnalyticsService.mkDataPoint 19729 40 4]
           (AnalyticsService.mkDataPoint 19730 32 3) 3).
  - vm_compute. discriminate.
  - vm_compute. discriminate.
Defined.

(** X19. A horizon that leaves the dates a [datetime] holds makes
    [generate_forecast] raise: the endpoint passes [days] unchecked, and a
    forecast that would reach past 9999-12-31 ends in an exception instead
    of a response. *)
Theorem forecast_past_the_last_date_raises :
  forall (uniform : nat -> Q) (article_id : string)
         (front : list AnalyticsService.DataPoint)
         (last_point : AnalyticsService.DataPoint) (days : Z),
    ForecastService.datetime_max
    < AnalyticsService.dp_date last_point + days ->
    0 < days ->
    ForecastService.generate_forecast uniform article_id
      (front ++ [last_point]) days = None.
Proof.
  intros uniform article_id front last_point days Hmax Hdays.
  destruct (generate_forecast_points uniform article_id front last_point days)
    as (avg_units & trend & ->).
  unfold ForecastService.strptime.
  destruct (ForecastService.in_datetime (AnalyticsService.dp_date last_point));
    [|reflexivity].
  rewrite (collect_None _ _ (Z.to_nat days)); [reflexivity| |].
  - apply in_seq. lia.
  - unfold ForecastService.forecast_point, ForecastService.add_days,
      ForecastService.in_datetime.
    rewrite Z2Nat.id by lia.
    destruct (Z.leb_spec (AnalyticsService.dp_date last_point + days)
                ForecastService.datetime_max) as [H|_]; [lia|].
    now rewrite !andb_false_r.
Qed.

(** Three million days after [short_history]. *)
Lemma forecast_past_the_last_date_raises_witness :
  ForecastService.generate_forecast even_draws "108775001" short_history
    3000000 = None.
Proof.
  apply (forecast_past_the_last_date_raises even_draws "108775001"
           [AnalyticsService.mkDataPoint 19729 40 4]
           (AnalyticsService.mkDataPoint 19730 32 3) 3000000).
  - vm_compute. reflexivity.
  - lia.
Defined.

(** X20. Every point of a forecast has a prediction that is not negative
    and lies between its two confidence bounds; from the 90th day of the
    horizon on the uncertainty reaches 100% and the lower bound is zero or
    negative. *)
Theorem forecast_points_are_ordered :
  forall (uniform : nat -> Q) (article_id : string)
         (historical_data : list AnalyticsService.DataPoint) (days : Z)
         (f : ForecastService.Forecast),
    ForecastService.generate_forecast uniform article_id historical_data days
    = Some f ->
    (forall p, In p (ForecastService.forecast f) ->
       (0 <= ForecastService.predicted_units p)%Q
       /\ (ForecastService.confidence_lower p
           <= ForecastService.predicted_units p)%Q
       /\ (ForecastService.predicted_units p
           <= ForecastService.confidence_upper p)%Q)
    /\ (forall k p, nth_error (ForecastService.forecast f) k = Some p ->
          (89 <= k)%nat -> (ForecastService.confidence_lower p <= 0)%Q).
Proof.
  intros uniform article_id historical_data days f.
  destruct historical_data as [|first others] eqn:E.
  - simpl. intros [= <-]. simpl. split; [tauto|].
    intros [|k] p; discriminate.
  - rewrite <- E.
    destruct (exists_last (l := historical_data)) as (front & x & ->);
      [congruence|].
    destruct (generate_forecast_points uniform article_id front x days)
      as (avg_units & trend & ->).
    destruct (ForecastService.strptime _) as [last_date|]; [|discriminate].
    destruct (Python.collect _) as [ys|] eqn:Hys; [|discriminate].
    intros [= <-]. cbn [ForecastService.forecast].
    apply collect_Forall2 in Hys. split.
    + intros p Hp.
      destruct (Forall2_source _ _ _ Hys p Hp) as (i & _ & Hi).
      apply forecast_point_Some in Hi as (_ & H0 & Hlo & Hhi & _). auto.
    + intros k p Hk H89.
      destruct (Forall2_nth _ _ _ Hys k p Hk) as (i & Hnth & Hi).
      apply forecast_point_Some in Hi as (_ & _ & _ & _ & H90).
      apply H90.
      assert (Hlt : (k < length (seq 1 (Z.to_nat days)))%nat).
      { apply nth_error_Some. congruence. }
      rewrite length_seq in Hlt.
      rewrite (nth_error_nth' _ 0%nat) in Hnth
        by (now rewrite length_seq).
      rewrite seq_nth in Hnth by exact Hlt.
      injection Hnth as <-. lia.
Qed.

(** The three points after [short_history]. *)
Lemma forecast_points_are_ordered_witness :
  exists f : ForecastService.Forecast,
    ForecastService.generate_forecast even_draws "108775001" short_history 3
    = Some f
    /\ forall p, In p (ForecastService.forecast f) ->
         (0 <= ForecastService.predicted_units p)%Q
         /\ (ForecastService.confidence_lower p
             <= ForecastService.predicted_units p)%Q
         /\ (ForecastService.predicted_units p
             <= ForecastService.confidence_upper p)%Q.
Proof.
  destruct (ForecastService.generate_forecast even_draws "108775001"
              short_history 3) as [f|] eqn:G.
  - exists f. split; [reflexivity|].
    exact (proj1 (forecast_points_are_ordered even_draws "108775001"
                    short_history 3 f G)).
  - vm_compute in G. discriminate.
Defined.

(** X21. Through the forecast endpoint the method of a forecast is always
    'moving_average_with_trend': the endpoint answers 404 before it calls
    [generate_forecast] on an empty history, so that the
    'insufficient_data' forecast of the service is never served. The
    forecast is of the requested article. *)
Theorem forecast_endpoint_method :
  forall (day_limit : Z) (uniform : nat -> Q)
         (analytics : AnalyticsService.Service) (article_id : string)
         (days : Z) (f : ForecastService.Forecast),
    Routes.get_product_forecast day_limit
      (ForecastService.generate_forecast uniform) analytics article_id days
    = Routes.Http200 (Some f) ->
    ForecastService.method f = "moving_average_with_trend"%string
    /\ ForecastService.f_article_id f = article_id.
Proof.
  intros day_limit uniform analytics article_id days f.
  unfold Routes.get_product_forecast.
  destruct (AnalyticsService.get_sales_history _ _ _ _) as [history|];
    [|discriminate].
  destruct (AnalyticsService.data history) as [|d ds] eqn:Hdata;
    [discriminate|].
  intros Hroute.
  assert (Hf : ForecastService.generate_forecast uniform article_id (d :: ds)
                 days = Some f) by congruence.
  clear Hroute.
  destruct (exists_last (l := d :: ds)) as (front & x & E); [discriminate|].
  rewrite E in Hf.
  destruct (generate_forecast_points uniform article_id front x days)
    as (avg_units & trend & Hgen).
  rewrite Hgen in Hf.
  destruct (ForecastService.strptime _); [|discriminate].
  destruct (Python.collect _); [|discriminate].
  injection Hf as <-. split; reflexivity.
Qed.

(** The forecast of article 108775001 of [small_service]. *)
Lemma forecast_endpoint_method_witness :
  exists f : ForecastService.Forecast,
    Routes.get_product_forecast 106751
      (ForecastService.generate_forecast even_draws) small_service
      "108775001" 3
    = Routes.Http200 (Some f)
    /\ ForecastService.method f = "moving_average_with_trend"%string
    /\ ForecastService.f_article_id f = "108775001"%string.
Proof.
  destruct (Routes.get_product_forecast 106751
              (ForecastService.generate_forecast even_draws) small_service
              "108775001" 3) as [[f|]| |] eqn:G;
    try (vm_compute in G; discriminate).
  exists f. split; [reflexivity|].
  exact (forecast_endpoint_method 106751 even_draws small_service
           "108775001" 3 f G).
Defined.

(** * The customer segments *)

Section SegmentFacts.
Import SegmentationService.

Lemma generate_segments_cases product_type department :
  let segments := generate_segments_for_product product_type department in
  segments = active_segments \/ segments = ladies_segments
  \/ segments = men_segments \/ segments = generic_segments.
Proof.
  unfold generate_segments_for_product.
  destruct (_ || _ || _); [tauto|].
  destruct (_ || _); [tauto|].
  destruct (_ || _); tauto.
Qed.

Lemma segments_Some lower article_id product_info segments :
  get_customer_segments lower article_id product_info = Some segments ->
  exists product_type department,
    segments = generate_segments_for_product product_type department.
Proof.
  unfold get_customer_segments.
  destruct product_info as [info|]; [|intros [= <-]; eauto].
  destruct (lowered lower (product_type_name info)); [|discriminate].
  destruct (lowered lower (department_name info)); [|discriminate].
  intros [= <-]. eauto.
Qed.
End SegmentFacts.

(** X22. Whatever the product, the segments the service returns are three
    buyer personas whose percentages add up to 100, each with a share and a
    purchase likelihood strictly between 0 and 1 (0 and 100 for the
    share). *)
Theorem segments_partition_the_buyers :
  forall (lower : string -> string) (article_id : string)
         (product_info : option SegmentationService.ProductInfo)
         (segments : list SegmentationService.Segment),
    SegmentationService.get_customer_segments lower article_id product_info
    = Some segments ->
    length segments = 3%nat
    /\ Pandas.Qsum (map SegmentationService.percentage segments) == 100
    /\ forall s, In s segments ->
         (0 < SegmentationService.percentage s)%Q
         /\ (SegmentationService.percentage s < 100)%Q
         /\ (0 < SegmentationService.purchase_likelihood s)%Q
         /\ (SegmentationService.purchase_likelihood s < 1)%Q.
Proof.
  intros lower article_id product_info segments Hget.
  apply segments_Some in Hget as (product_type & department & ->).
  destruct (generate_segments_cases product_type department)
    as [-> | [-> | [-> | ->]]];
    (split; [reflexivity|]; split; [vm_compute; reflexivity|];
     intros s Hs; simpl in Hs;
     repeat (destruct Hs as [<-|Hs]; [vm_compute; auto|]);
     destruct Hs).
Qed.

(** The segments of a women's top. *)
Lemma segments_partition_the_buyers_witness :
  exists segments : list SegmentationService.Segment,
    SegmentationService.get_customer_segments ascii_lower "108775001"
      (Some womens_top) = Some segments
    /\ length segments = 3%nat
    /\ Pandas.Qsum (map SegmentationService.percentage segments) == 100.
Proof.
  destruct (SegmentationService.get_customer_segments ascii_lower
              "108775001" (Some womens_top)) as [segments|] eqn:G.
  - exists segments. split; [reflexivity|].
    destruct (segments_partition_the_buyers ascii_lower "108775001"
                (Some womens_top) segments G) as (Hlen & Hsum & _).
    split; [exact Hlen|exact Hsum].
  - vm_compute in G. discriminate.
Defined.

(** X23. The segmentation raises exactly on a null cell: for a product
    dict, [get_customer_segments] ends in an exception when the product's
    product_type_name or department_name is null (a null has no [lower]),
    and returns segments in every other case, a missing key included. *)
Theorem segments_raise_on_null_cells :
  forall (lower : string -> string) (article_id : string)
         (info : SegmentationService.ProductInfo),
    SegmentationService.get_customer_segments lower article_id (Some info)
    = None
    <-> SegmentationService.product_type_name info = SegmentationService.Null
        \/ SegmentationService.department_name info
           = SegmentationService.Null.
Proof.
  intros lower article_id info.
  unfold SegmentationService.get_customer_segments,
    SegmentationService.lowered.
  destruct (SegmentationService.product_type_name info),
           (SegmentationService.department_name info);
    split; try discriminate; try (intros [H|H]; discriminate); auto.
Qed.

(** X24. The order of the tests decides for a department that names
    women: its lowercase text contains 'men' as well, and the test on
    'women' comes first, so that it never gets the men's segments. *)
Theorem womens_departments_never_get_mens_segments :
  forall product_type department : string,
    Python.contains "women" department = true ->
    SegmentationService.generate_segments_for_product product_type department
    <> SegmentationService.men_segments.
Proof.
  intros product_type department Hw.
  unfold SegmentationService.generate_segments_for_product.
  destruct (_ || _ || _); [discriminate|].
  rewrite Hw, orb_true_r. discriminate.
Qed.

(** The segments of a women's top are the ladies' ones. *)
Lemma womens_departments_never_get_mens_segments_witness :
  SegmentationService.generate_segments_for_product "vest top"
    "womens casual"
  <> SegmentationService.men_segments.
Proof.
  apply (womens_departments_never_get_mens_segments "vest top"
           "womens casual").
  vm_compute. reflexivity.
Defined.

(** * The product search *)

Section Slices.
Context {A : Type}.

Lemma slice_to_incl (n : Z) (xs : list A) (x : A) :
  In x (Python.slice_to n xs) -> In x xs.
Proof.
  unfold Python.slice_to. destruct (0 <=? n); apply in_firstn.
Qed.

Lemma slice_to_length (n : Z) (xs : list A) :
  0 <= n -> (length (Python.slice_to n xs) <= Z.to_nat n)%nat.
Proof.
  intros Hn. unfold Python.slice_to.
  destruct (Z.leb_spec 0 n); [|lia]. rewrite length_firstn. lia.
Qed.

Lemma slice_to_NoDup {B : Type} (f : A -> B) (n : Z) (xs : list A) :
  NoDup (map f xs) -> NoDup (map f (Python.slice_to n xs)).
Proof.
  unfold Python.slice_to. destruct (0 <=? n); apply NoDup_map_firstn.
Qed.

Lemma slice_to_nil (n : Z) : Python.slice_to n (@nil A) = [].
Proof.
  unfold Python.slice_to. destruct (0 <=? n); apply firstn_nil.
Qed.
End Slices.

Section SearchFacts.
Import ProductSearch.
Variable lower : string -> string.
Variable df : Frame.

Let cell (product : Row) : Cell := get df product "article_id" Null.

Lemma cell_eqb_eq (a b : Cell) : cell_eqb a b = true <-> a = b.
Proof.
  destruct a, b; simpl; try (split; [discriminate|congruence]);
    try (split; congruence).
  - rewrite String.eqb_eq. split; congruence.
  - rewrite Z.eqb_eq. split; congruence.
Qed.

Lemma seen_In (c : Cell) (seen : list Cell) :
  existsb (cell_eqb c) seen = true <-> In c seen.
Proof.
  rewrite existsb_exists. split.
  - intros (x & Hx & E). apply cell_eqb_eq in E. now subst.
  - intros H. exists c. split; [exact H|now apply cell_eqb_eq].
Qed.

Lemma search_products_rows query limit product :
  In product (search_products lower df query limit) ->
  In product (frame_rows df)
  /\ (existing_columns df <> [] ->
      Python.contains (lower query) (search_text lower df product) = true).
Proof.
  unfold search_products. destruct (empty df); [intros []|].
  destruct (existing_columns df) as [|c cs].
  - intros H. apply slice_to_incl in H. split; [exact H|congruence].
  - intros H. apply slice_to_incl, filter_In in H as [H Hc]. auto.
Qed.

Lemma search_products_NoDup {B : Type} (f : Row -> B) query limit :
  NoDup (map f (frame_rows df)) ->
  NoDup (map f (search_products lower df query limit)).
Proof.
  intros Hnd. unfold search_products. destruct (empty df); [constructor|].
  destruct (existing_columns df).
  - now apply slice_to_NoDup.
  - now apply slice_to_NoDup, NoDup_map_filter.
Qed.

Lemma search_products_empty query limit :
  empty df = true -> search_products lower df query limit = [].
Proof. intros H. unfold search_products. now rewrite H. Qed.

(** What the two loops keep true of [all_results] and [seen_ids]: the rows
    are rows of the table, no two have the same id, and the ids seen are the
    ids of the rows. *)
Let kept (state : list Row * list Cell) : Prop :=
  (forall p, In p (fst state) -> In p (frame_rows df))
  /\ NoDup (map cell (fst state))
  /\ (forall c, In c (snd state) <-> In c (map cell (fst state))).

Lemma add_products_kept limit products : forall all_results seen_ids,
  (forall p, In p products -> In p (frame_rows df)) ->
  kept (all_results, seen_ids) ->
  kept (add_products df limit products all_results seen_ids).
Proof.
  induction products as [|p ps IH]; intros all_results seen_ids Hsrc Hk;
    simpl; [exact Hk|].
  fold (cell p).
  assert (Hps : forall q, In q ps -> In q (frame_rows df))
    by (intros q Hq; apply Hsrc; now right).
  destruct (truthy (cell p) && negb (existsb (cell_eqb (cell p)) seen_ids))
    eqn:Hnew; [|now apply IH].
  apply andb_true_iff in Hnew as [_ Hnot]. apply negb_true_iff in Hnot.
  assert (Hfresh : ~ In (cell p) seen_ids).
  { intros Hin. apply seen_In in Hin. congruence. }
  destruct Hk as (Hrows & Hnd & Hseen). simpl in Hrows, Hnd, Hseen.
  assert (Hk' : kept (all_results ++ [p], cell p :: seen_ids)).
  { unfold kept. simpl. split; [|split].
    - intros q Hq. apply in_app_or in Hq as [Hq|[<-|[]]];
        [now apply Hrows|apply Hsrc; now left].
    - rewrite map_app. simpl. apply NoDup_app; [exact Hnd| |].
      + repeat constructor. simpl. tauto.
      + intros c Hc [<-|[]]. apply Hfresh. now apply Hseen.
    - intros c. rewrite map_app, in_app_iff. simpl. rewrite Hseen. tauto. }
  destruct (limit <=? Z.of_nat (length (all_results ++ [p])));
    [exact Hk'|now apply IH].
Qed.

Lemma add_terms_kept limit search_terms : forall all_results seen_ids,
  kept (all_results, seen_ids) ->
  kept (add_terms lower df limit search_terms all_results seen_ids).
Proof.
  induction search_terms as [|term rest IH]; intros all_results seen_ids Hk;
    simpl; [exact Hk|].
  assert (Hk' : kept (add_products df limit
                        (search_products lower df term limit)
                        all_results seen_ids)).
  { apply add_products_kept; [|exact Hk].
    intros p Hp. now apply search_products_rows in Hp. }
  destruct (add_products df limit (search_products lower df term limit)
              all_results seen_ids) as [all' seen'].
  simpl. destruct (limit <=? Z.of_nat (length all')); [exact Hk'|].
  now apply IH.
Qed.

Lemma add_products_nil limit all_results seen_ids :
  add_products df limit [] all_results seen_ids = (all_results, seen_ids).
Proof. reflexivity. Qed.

Lemma add_terms_empty limit search_terms :
  empty df = true ->
  add_terms lower df limit search_terms [] [] = ([], []).
Proof.
  intros He. induction search_terms as [|term rest IH]; simpl; [reflexivity|].
  rewrite (search_products_empty term limit He). simpl.
  destruct (limit <=? 0); [reflexivity|exact IH].
Qed.

Variable extract_search_terms : string -> list string.

(** The rows [search] formats. *)
Let formatted_rows (query : string) (limit : Z) : list Row :=
  let all_results :=
    fst (add_terms lower df limit (extract_search_terms query) [] []) in
  Python.slice_to limit
    (match all_results with
     | [] => search_products lower df query limit
     | _ => all_results
     end).

Lemma search_formats query limit :
  search lower df extract_search_terms query limit
  = match Python.collect (map (format df) (formatted_rows query limit)) with
    | None => None
    | Some formatted_results =>
        Some {| ProductSearch.query := query;
                results := formatted_results;
                count := length formatted_results |}
    end.
Proof. reflexivity. Qed.

Lemma formatted_rows_rows query limit product :
  In product (formatted_rows query limit) -> In product (frame_rows df).
Proof.
  unfold formatted_rows. cbv zeta. intros H. apply slice_to_incl in H.
  pose proof (add_terms_kept limit (extract_search_terms query) [] []) as Hk.
  destruct (add_terms lower df limit (extract_search_terms query) [] [])
    as [all_results seen_ids].
  simpl fst in H. destruct all_results as [|a rest].
  - now apply search_products_rows in H.
  - apply Hk; [|exact H]. unfold kept. simpl.
    split; [tauto|]. split; [constructor|tauto].
Qed.

Lemma formatted_rows_distinct query limit :
  has_column df "article_id" = true ->
  NoDup (map rendered_id (frame_rows df)) ->
  NoDup (map rendered_id (formatted_rows query limit)).
Proof.
  intros Hcol Hnd. unfold formatted_rows. cbv zeta. apply slice_to_NoDup.
  pose proof (add_terms_kept limit (extract_search_terms query) [] []) as Hk.
  destruct (add_terms lower df limit (extract_search_terms query) [] [])
    as [all_results seen_ids].
  simpl fst. destruct all_results as [|a rest].
  - now apply search_products_NoDup.
  - destruct Hk as (Hrows & Hcells & _).
    { unfold kept. simpl. split; [tauto|]. split; [constructor|tauto]. }
    simpl in Hrows, Hcells.
    apply NoDup_map_NoDup_ForallPairs.
    + intros x y Hx Hy E.
      exact (NoDup_map_eq rendered_id (frame_rows df) x y Hnd
               (Hrows x Hx) (Hrows y Hy) E).
    + exact (NoDup_map_inv cell (a :: rest) Hcells).
Qed.

Lemma format_article_id product hit :
  has_column df "article_id" = true ->
  format df product = Some hit -> hit_article_id hit = rendered_id product.
Proof.
  intros Hcol. unfold format.
  destruct (create_description df product); [|discriminate].
  intros [= <-]. simpl. unfold get. now rewrite Hcol.
Qed.

Lemma format_text_columns product :
  (forall z, product "colour_group_name"%string <> Int z
             /\ product "product_group_name"%string <> Int z) ->
  exists hit, format df product = Some hit.
Proof.
  intros Htext. unfold format, create_description, get.
  assert (Hc : forall z, (if has_column df "colour_group_name"
                          then product "colour_group_name"%string else Null)
                         <> Int z).
  { intros z. destruct (has_column df "colour_group_name");
      [apply Htext|discriminate]. }
  assert (Hg : forall z, (if has_column df "product_group_name"
                          then product "product_group_name"%string else Null)
                         <> Int z).
  { intros z. destruct (has_column df "product_group_name");
      [apply Htext|discriminate]. }
  destruct (if has_column df "colour_group_name"
            then product "colour_group_name"%string else Null)
    as [|s1|z1]; [| |exfalso; now apply (Hc z1)];
    destruct (if has_column df "product_group_name"
              then product "product_group_name"%string else Null)
      as [|s2|z2]; try (exfalso; now apply (Hg z2));
    destruct (truthy (if has_column df "department_name"
                      then product "department_name"%string else Null));
    simpl;
    repeat match goal with
           | |- context [negb ?b] => destruct b; simpl
           end;
    eauto.
Qed.
End SearchFacts.

(** X25. The text search returns rows of the product table, each of which
    holds the lowercased query in the lowercased text of its search columns
    (when the table has any of them); it returns no more than [limit] rows
    for a [limit] that is not negative, and nothing on an empty table. *)
Theorem search_products_sound :
  forall (lower : string -> string) (df : ProductSearch.Frame)
         (query : string) (limit : Z),
    (forall product,
       In product (ProductSearch.search_products lower df query limit) ->
       In product (ProductSearch.frame_rows df)
       /\ (ProductSearch.existing_columns df <> [] ->
           Python.contains (lower query)
             (ProductSearch.search_text lower df product) = true))
    /\ (0 <= limit ->
        (length (ProductSearch.search_products lower df query limit)
         <= Z.to_nat limit)%nat)
    /\ (ProductSearch.empty df = true ->
        ProductSearch.search_products lower df query limit = []).
Proof.
  intros lower df query limit. split; [|split].
  - intros product. apply search_products_rows.
  - intros Hlimit. unfold ProductSearch.search_products.
    destruct (ProductSearch.empty df); [simpl; lia|].
    destruct (ProductSearch.existing_columns df);
      now apply slice_to_length.
  - apply search_products_empty.
Qed.

(** X26. On a product table whose description columns hold no number, a
    search with a [limit] that is not negative returns a response; its
    count is the number of its results, no more than [limit], all of them
    formatted from rows of the table, and the response repeats the query. *)
Theorem search_returns_at_most_limit :
  forall (lower : string -> string) (df : ProductSearch.Frame)
         (extract_search_terms : string -> list string)
         (query : string) (limit : Z),
    text_columns df ->
    0 <= limit ->
    exists response : ProductSearch.Response,
      ProductSearch.search lower df extract_search_terms query limit
      = Some response
      /\ ProductSearch.query response = query
      /\ ProductSearch.count response
         = length (ProductSearch.results response)
      /\ (ProductSearch.count response <= Z.to_nat limit)%nat
      /\ forall hit, In hit (ProductSearch.results response) ->
           exists product,
             In product (ProductSearch.frame_rows df)
             /\ ProductSearch.format df product = Some hit.
Proof.
  intros lower df extract_search_terms query limit Htext Hlimit.
  rewrite search_formats. cbv beta zeta.
  destruct (collect_exists (ProductSearch.format df)
              (Python.slice_to limit
                 match fst (ProductSearch.add_terms lower df limit
                              (extract_search_terms query) [] []) with
                 | [] => ProductSearch.search_products lower df query limit
                 | _ => fst (ProductSearch.add_terms lower df limit
                               (extract_search_terms query) [] [])
                 end)) as (hits & Hhits).
  { intros product Hp. apply format_text_columns. intros z.
    apply Htext.
    exact (formatted_rows_rows lower df extract_search_terms query limit
             product Hp). }
  rewrite Hhits. eexists. split; [reflexivity|]. simpl.
  split; [reflexivity|]. split; [reflexivity|].
  apply collect_Forall2 in Hhits. split.
  - rewrite <- (Forall2_length Hhits). now apply slice_to_length.
  - intros hit Hhit.
    destruct (Forall2_source _ _ _ Hhits hit Hhit) as (product & Hp & Hf).
    exists product. split; [|exact Hf].
    exact (formatted_rows_rows lower df extract_search_terms query limit
             product Hp).
Qed.

(** A search of [small_catalog] with a limit of 10. *)
Lemma search_returns_at_most_limit_witness :
  exists response : ProductSearch.Response,
    ProductSearch.search ascii_lower small_catalog two_terms
      "black running shoes" 10 = Some response
    /\ ProductSearch.count response
       = length (ProductSearch.results response)
    /\ (ProductSearch.count response <= 10)%nat.
Proof.
  destruct (search_returns_at_most_limit ascii_lower small_catalog two_terms
              "black running shoes" 10)
    as (response & Hsearch & _ & Hcount & Hlimit & _).
  - intros row z Hrow. simpl in Hrow.
    destruct Hrow as [<-|[<-|[<-|[]]]]; split; discriminate.
  - lia.
  - exists response. split; [exact Hsearch|].
    split; [exact Hcount|exact Hlimit].
Defined.

(** X27. No product is listed twice: on a product table that has the
    article_id column, with ids that differ as texts, the results of a
    search have pairwise different article ids, also when a product matches
    several of the extracted terms. *)
Theorem search_lists_a_product_once :
  forall (lower : string -> string) (df : ProductSearch.Frame)
         (extract_search_terms : string -> list string)
         (query : string) (limit : Z) (response : ProductSearch.Response),
    ProductSearch.has_column df "article_id" = true ->
    NoDup (map rendered_id (ProductSearch.frame_rows df)) ->
    ProductSearch.search lower df extract_search_terms query limit
    = Some response ->
    NoDup (map ProductSearch.hit_article_id
               (ProductSearch.results response)).
Proof.
  intros lower df extract_search_terms query limit response Hcol Hnd.
  rewrite search_formats. cbv beta zeta.
  destruct (Python.collect _) as [hits|] eqn:Hhits; [|discriminate].
  intros [= <-]. simpl.
  apply collect_Forall2 in Hhits.
  pose proof (formatted_rows_distinct lower df extract_search_terms query
                limit Hcol Hnd) as Hrows.
  cbv zeta in Hrows.
  assert (Hids : map ProductSearch.hit_article_id hits
                 = map rendered_id
                       (Python.slice_to limit
                          match fst (ProductSearch.add_terms lower df limit
                                       (extract_search_terms query) [] [])
                          with
                          | [] => ProductSearch.search_products lower df
                                    query limit
                          | _ => fst (ProductSearch.add_terms lower df limit
                                        (extract_search_terms query) [] [])
                          end)).
  { induction Hhits as [|product hit l hits' Hf _ IH]; simpl; [reflexivity|].
    now rewrite (format_article_id df product hit Hcol Hf), IH. }
  rewrite Hids. exact Hrows.
Qed.

(** The first product of [small_catalog] matches both terms of
    [two_terms], and is listed once. *)
Lemma search_lists_a_product_once_witness :
  exists response : ProductSearch.Response,
    ProductSearch.search ascii_lower small_catalog two_terms
      "black running shoes" 10 = Some response
    /\ NoDup (map ProductSearch.hit_article_id
                  (ProductSearch.results response)).
Proof.
  destruct (ProductSearch.search ascii_lower small_catalog two_terms
              "black running shoes" 10) as [response|] eqn:G.
  - exists response. split; [reflexivity|].
    apply (search_lists_a_product_once ascii_lower small_catalog two_terms
             "black running shoes" 10 response).
    + reflexivity.
    + vm_compute. repeat constructor; simpl; intuition discriminate.
    + exact G.
  - vm_compute in G. discriminate.
Defined.

(** X28. On an empty product table (no pipeline run, or tables that could
    not be read) every search returns an empty response with a count of 0,
    whatever the query, the extracted terms and the limit. *)
Theorem search_of_an_empty_table :
  forall (lower : string -> string) (df : ProductSearch.Frame)
         (extract_search_terms : string -> list string)
         (query : string) (limit : Z),
    ProductSearch.empty df = true ->
    ProductSearch.search lower df extract_search_terms query limit
    = Some {| ProductSearch.query := query;
              ProductSearch.results := [];
              ProductSearch.count := 0 |}.
Proof.
  intros lower df extract_search_terms query limit He.
  unfold ProductSearch.search.
  rewrite (add_terms_empty lower df limit (extract_search_terms query) He).
  simpl. rewrite (search_products_empty lower df query limit He).
  rewrite slice_to_nil. reflexivity.
Qed.

(** The frame of a service that found no table has no column and no row. *)
Lemma search_of_an_empty_table_witness :
  ProductSearch.search ascii_lower (ProductSearch.mkFrame [] []) two_terms
    "black running shoes" 10
  = Some {| ProductSearch.query := "black running shoes";
            ProductSearch.results := [];
            ProductSearch.count := 0 |}.
Proof.
  apply (search_of_an_empty_table ascii_lower (ProductSearch.mkFrame [] [])
           two_terms "black running shoes" 10).
  reflexivity.
Defined.

(** * The summary and the trend *)

(** X29. The summary of an article without sales: when the sales table is
    empty or has no row of the article, [get_sales_summary] returns zero
    totals and averages under the trend 'unknown', and no [days_of_data]. *)
Theorem summary_of_an_unsold_article :
  forall (day_limit : Z) (analytics : AnalyticsService.Service)
         (article_id : string),
    AnalyticsService.sales_df analytics = []
    \/ ~ In article_id (map AnalyticsService.sale_article_id
                            (AnalyticsService.sales_df analytics)) ->
    AnalyticsService.get_sales_summary day_limit analytics article_id
    = AnalyticsService.Ok
        {| AnalyticsService.sum_total_revenue := 0;
           AnalyticsService.sum_total_units := 0;
           AnalyticsService.avg_daily_revenue := 0;
           AnalyticsService.avg_daily_units := 0;
           AnalyticsService.trend := "unknown";
           AnalyticsService.days_of_data := None |}.
Proof.
  intros day_limit analytics article_id H.
  unfold AnalyticsService.get_sales_summary.
  destruct (history_without_rows day_limit analytics article_id 90 H)
    as (history & -> & Hdata).
  cbn [AnalyticsService.bind]. now rewrite Hdata.
Qed.

(** [small_service] has no sale of article 108775009. *)
Lemma summary_of_an_unsold_article_witness :
  AnalyticsService.get_sales_summary 106751 small_service "108775009"
  = AnalyticsService.Ok
      {| AnalyticsService.sum_total_revenue := 0;
         AnalyticsService.sum_total_units := 0;
         AnalyticsService.avg_daily_revenue := 0;
         AnalyticsService.avg_daily_units := 0;
         AnalyticsService.trend := "unknown";
         AnalyticsService.days_of_data := None |}.
Proof.
  apply (summary_of_an_unsold_article 106751 small_service "108775009").
  right. simpl. intuition discriminate.
Defined.

(** X30. On revenues that are not negative the trend says what it names:
    a summary is 'increasing' only if the revenue of the last seven points
    of the 90-day history is larger than the revenue of its first seven
    points, and 'decreasing' only if it is smaller. *)
Theorem trend_compares_the_two_weeks :
  forall (day_limit : Z) (analytics : AnalyticsService.Service)
         (article_id : string) (history : AnalyticsService.SalesHistory)
         (s : AnalyticsService.SalesSummary),
    AnalyticsService.get_sales_history day_limit analytics article_id 90
    = AnalyticsService.Ok history ->
    AnalyticsService.get_sales_summary day_limit analytics article_id
    = AnalyticsService.Ok s ->
    (forall p, In p (AnalyticsService.data history) ->
               (0 <= AnalyticsService.dp_revenue p)%Q) ->
    let first_week :=
      Pandas.Qsum (map AnalyticsService.dp_revenue
                       (firstn 7 (AnalyticsService.data history))) in
    let last_week :=
      Pandas.Qsum (map AnalyticsService.dp_revenue
                       (Python.last_n 7 (AnalyticsService.data history))) in
    (AnalyticsService.trend s = "increasing"%string ->
     (first_week < last_week)%Q)
    /\ (AnalyticsService.trend s = "decreasing"%string ->
        (last_week < first_week)%Q).
Proof.
  intros day_limit analytics article_id history s Hhist Hsum Hpos
    first_week last_week.
  assert (Hf : Python.sum (map AnalyticsService.dp_revenue
                               (firstn 7 (AnalyticsService.data history)))
               == first_week) by apply python_sum_Qsum.
  assert (Hl : Python.sum (map AnalyticsService.dp_revenue
                               (Python.last_n 7
                                  (AnalyticsService.data history)))
               == last_week) by apply python_sum_Qsum.
  assert (Hfirst : (0 <= first_week)%Q).
  { unfold first_week. apply Qsum_nonneg. intros x Hx.
    apply in_map_iff in Hx as (p & <- & Hp). apply Hpos.
    now apply in_firstn in Hp. }
  clearbody first_week last_week.
  unfold AnalyticsService.get_sales_summary in Hsum.
  rewrite Hhist in Hsum. cbn [AnalyticsService.bind] in Hsum.
  apply (f_equal (fun r => match r with
                           | AnalyticsService.Ok x => AnalyticsService.trend x
                           | AnalyticsService.Raise _ => EmptyString
                           end)) in Hsum.
  destruct (AnalyticsService.data history) as [|d ds];
    cbn [AnalyticsService.trend] in Hsum; rewrite <- Hsum.
  { split; discriminate. }
  destruct (14 <=? length (d :: ds))%nat; [|split; discriminate].
  match goal with
  | |- context [negb (Qle_bool ?a ?b)] => destruct (Qle_bool a b) eqn:Hup
  end; cbn [negb].
  - match goal with
    | |- context [negb (Qle_bool ?a ?b)] => destruct (Qle_bool a b) eqn:Hdown
    end; cbn [negb].
    + split; discriminate.
    + split; [discriminate|]. intros _.
      destruct (Qlt_le_dec last_week (first_week * (9 # 10))) as [Hlt|Hle].
      * lra.
      * rewrite <- Hf, <- Hl in Hle. apply Qle_bool_iff in Hle. congruence.
  - split; [|discriminate]. intros _.
    destruct (Qlt_le_dec (first_week * (11 # 10)) last_week) as [Hlt|Hle].
    + lra.
    + rewrite <- Hf, <- Hl in Hle. apply Qle_bool_iff in Hle. congruence.
Qed.

(** The sales of [growing_service] double from the first week to the
    last: the trend is 'increasing', 70 against 140. *)
Lemma trend_compares_the_two_weeks_witness :
  exists (history : AnalyticsService.SalesHistory)
         (s : AnalyticsService.SalesSummary),
    AnalyticsService.get_sales_summary 106751 growing_service "108775001"
    = AnalyticsService.Ok s
    /\ AnalyticsService.trend s = "increasing"%string
    /\ (Pandas.Qsum (map AnalyticsService.dp_revenue
                         (firstn 7 (AnalyticsService.data history)))
        < Pandas.Qsum (map AnalyticsService.dp_revenue
                           (Python.last_n 7
                              (AnalyticsService.data history))))%Q.
Proof.
  destruct (AnalyticsService.get_sales_history 106751 growing_service
              "108775001" 90) as [history|] eqn:H;
    [|vm_compute in H; discriminate].
  destruct (AnalyticsService.get_sales_summary 106751 growing_service
              "108775001") as [s|] eqn:G;
    [|vm_compute in G; discriminate].
  assert (Htrend : AnalyticsService.trend s = "increasing"%string).
  { vm_compute in G. injection G as <-. reflexivity. }
  exists history, s. split; [reflexivity|]. split; [exact Htrend|].
  apply (trend_compares_the_two_weeks 106751 growing_service "108775001"
           history s H G); [|exact Htrend].
  intros p Hp. vm_compute in H. injection H as <-.
  simpl in Hp.
  repeat (destruct Hp as [<-|Hp]; [vm_compute; discriminate|]).
  destruct Hp.
Defined.
